(** * LatTest: a kernel module measuring the jitter of a periodic hrtimer

    Shallow embedding of [lattest.c] (the revision with the sysfs control
    interface, running statistics and configurable histogram) and the
    properties of its numeric helpers, its timer callback and its sysfs
    callbacks.

    Conventions of the embedding:
    - a C integer is a [Z]; every C operation that can leave the range of
      its type is followed by the wrap-around of that type ([to_s64],
      [to_u64], [to_s32], [to_u32]); the kernel is built with
      [-fno-strict-overflow], so signed arithmetic wraps as well;
    - the module's [static] variables form the record [state]; callbacks
      take a state and return the new one (together with their C return
      value);
    - an operation that has no defined result in C (a division by zero in
      [do_div], a store outside [histogram]) is a [Fault], loops carry fuel
      and running out of it is the fault [FuelExhausted];
    - [histogram] is a [list Z] of [HIST_BIN_MAX] cells read with [!!] and
      written with [<[ _ := _ ]>]. *)

From Stdlib Require Import ZArith Lia Bool String Ascii List.
From stdpp Require Import base tactics option list.

Local Open Scope Z_scope.

(** ** Machine integers *)

Module MachInt.

Definition to_u64 (z : Z) : Z := z mod 2 ^ 64.
Definition to_s64 (z : Z) : Z := (z + 2 ^ 63) mod 2 ^ 64 - 2 ^ 63.
Definition to_u32 (z : Z) : Z := z mod 2 ^ 32.
Definition to_s32 (z : Z) : Z := (z + 2 ^ 31) mod 2 ^ 32 - 2 ^ 31.

Definition LLONG_MAX : Z := 2 ^ 63 - 1.
Definition LLONG_MIN : Z := - 2 ^ 63.

Definition is_s64 (z : Z) : Prop := - 2 ^ 63 <= z < 2 ^ 63.
Definition is_u64 (z : Z) : Prop := 0 <= z < 2 ^ 64.
Definition is_u32 (z : Z) : Prop := 0 <= z < 2 ^ 32.
Definition is_s32 (z : Z) : Prop := - 2 ^ 31 <= z < 2 ^ 31.

End MachInt.
Import MachInt.

(** ** Results of code that can go wrong *)

Inductive fault : Type :=
| DivisionByZero    (* do_div with a divisor whose low 32 bits are 0 *)
| OutOfBounds       (* a store outside histogram[0 .. HIST_BIN_MAX-1] *)
| FuelExhausted.    (* a loop of the model ran out of fuel *)

Inductive outcome (A : Type) : Type :=
| Ok (a : A)
| Fault (f : fault).
Arguments Ok {A} a.
Arguments Fault {A} f.

Definition obind {A B : Type} (m : outcome A) (k : A -> outcome B) : outcome B :=
  match m with
  | Ok a => k a
  | Fault f => Fault f
  end.

Notation "'do' x <- m ; k" := (obind m (fun x => k))
  (at level 10, x name, m at level 100, k at level 200).

(** ** Helper functions *)

(** The kernel's type-generic [abs] at type [long long]: [-x] wraps, so
    [abs LLONG_MIN = LLONG_MIN]. *)
Definition abs (x : Z) : Z := if x <? 0 then to_s64 (- x) else x.

(** The kernel's [do_div(n, base)]: [n] is read as an unsigned 64-bit
    value, [base] is converted to [uint32_t] (the source says so:
    "do_div actually is uint64 / uint32"); the quotient is stored back in
    [n] (a [long long] in [div_ll]) and the remainder is returned. *)
Definition do_div (n base : Z) : outcome (Z * Z) :=
  let b := to_u32 base in
  if b =? 0 then Fault DivisionByZero
  else Ok (to_s64 (to_u64 n / b), to_u64 n mod b).

Definition div_ll (n base : Z) : outcome Z :=
  let a := abs n in
  let b := abs base in
  do qr <- do_div a b;
  let a := fst qr in
  let a := if xorb (n <? 0) (base <? 0) then to_s64 (- a) else a in
  Ok a.

(** [while (one > op) one >>= 2;] *)
Fixpoint isqrt_scan (fuel : nat) (op one : Z) : option Z :=
  match fuel with
  | O => None
  | S fuel' =>
      if one >? op then isqrt_scan fuel' op (Z.shiftr one 2)
      else Some one
  end.

(** [while (one != 0) { if (op >= res + one) {...} res >>= 1; one >>= 2; }] *)
Fixpoint isqrt_loop (fuel : nat) (op res one : Z) : option (Z * Z) :=
  match fuel with
  | O => None
  | S fuel' =>
      if negb (one =? 0) then
        let '(op1, res1) :=
          if op >=? to_u64 (res + one)
          then (to_u64 (op - to_u64 (res + one)), to_u64 (res + to_u64 (2 * one)))
          else (op, res) in
        isqrt_loop fuel' op1 (Z.shiftr res1 1) (Z.shiftr one 2)
      else Some (op, res)
  end.

Definition isqrtu64 (a_nInput : Z) : option Z :=
  let op := a_nInput in
  let res := 0 in
  let one := Z.shiftl 1 62 in
  match isqrt_scan 64 op one with
  | None => None
  | Some one =>
      match isqrt_loop 64 op res one with
      | None => None
      | Some (op, res) =>
          Some (if op >? res then to_u64 (res + 1) else res)
      end
  end.


(** ** Module state *)

(** Return values of an hrtimer callback. *)
Inductive hrtimer_restart : Type := HRTIMER_NORESTART | HRTIMER_RESTART.

Definition HIST_BIN_MAX : Z := 256.
Definition GPIO_LATTEST_TOGGLE : Z := 4.
Definition EINVAL : Z := 22.

(** The [static] variables of the module.  Of [my_hrtimer] only the fact
    that it is enqueued is kept: its expiry time is private to the hrtimer
    core and the module never reads it ([ret_overrun] is unused).
    [gpio_level] is the level last driven on pin [GPIO_LATTEST_TOGGLE]. *)
Record state : Type := mkState {
  gpio_lattest_value : Z;      (* volatile int *)
  gpio_level : Z;
  period_ms : Z;               (* volatile unsigned long *)
  my_hrtimer : bool;
  runcount : Z;                (* volatile int *)
  last_now_ns : Z;             (* volatile long long *)
  hist_bin_num : Z;            (* volatile long long *)
  hist_bin_width : Z;          (* volatile long long *)
  stat_min : Z;
  stat_max : Z;
  stat_num : Z;
  stat_sum : Z;
  stat_sumsq : Z;
  histogram : list Z           (* volatile unsigned int [HIST_BIN_MAX] *)
}.

Definition set_gpio (pin value : Z) (st : state) : state :=
  mkState (gpio_lattest_value st)
    (if pin =? GPIO_LATTEST_TOGGLE then (if value =? 0 then 0 else 1) else gpio_level st)
    (period_ms st) (my_hrtimer st) (runcount st) (last_now_ns st)
    (hist_bin_num st) (hist_bin_width st) (stat_min st) (stat_max st)
    (stat_num st) (stat_sum st) (stat_sumsq st) (histogram st).

Definition set_gpio_lattest_value (v : Z) (st : state) : state :=
  mkState v (gpio_level st) (period_ms st) (my_hrtimer st) (runcount st)
    (last_now_ns st) (hist_bin_num st) (hist_bin_width st) (stat_min st)
    (stat_max st) (stat_num st) (stat_sum st) (stat_sumsq st) (histogram st).

Definition set_period_ms (v : Z) (st : state) : state :=
  mkState (gpio_lattest_value st) (gpio_level st) v (my_hrtimer st)
    (runcount st) (last_now_ns st) (hist_bin_num st) (hist_bin_width st)
    (stat_min st) (stat_max st) (stat_num st) (stat_sum st) (stat_sumsq st)
    (histogram st).

Definition set_my_hrtimer (v : bool) (st : state) : state :=
  mkState (gpio_lattest_value st) (gpio_level st) (period_ms st) v
    (runcount st) (last_now_ns st) (hist_bin_num st) (hist_bin_width st)
    (stat_min st) (stat_max st) (stat_num st) (stat_sum st) (stat_sumsq st)
    (histogram st).

Definition set_runcount (v : Z) (st : state) : state :=
  mkState (gpio_lattest_value st) (gpio_level st) (period_ms st)
    (my_hrtimer st) v (last_now_ns st) (hist_bin_num st) (hist_bin_width st)
    (stat_min st) (stat_max st) (stat_num st) (stat_sum st) (stat_sumsq st)
    (histogram st).

Definition set_last_now_ns (v : Z) (st : state) : state :=
  mkState (gpio_lattest_value st) (gpio_level st) (period_ms st)
    (my_hrtimer st) (runcount st) v (hist_bin_num st) (hist_bin_width st)
    (stat_min st) (stat_max st) (stat_num st) (stat_sum st) (stat_sumsq st)
    (histogram st).

Definition set_hist_config (num width : Z) (st : state) : state :=
  mkState (gpio_lattest_value st) (gpio_level st) (period_ms st)
    (my_hrtimer st) (runcount st) (last_now_ns st) num width
    (stat_min st) (stat_max st) (stat_num st) (stat_sum st) (stat_sumsq st)
    (histogram st).

Definition set_stats (smin smax snum ssum ssumsq : Z) (st : state) : state :=
  mkState (gpio_lattest_value st) (gpio_level st) (period_ms st)
    (my_hrtimer st) (runcount st) (last_now_ns st) (hist_bin_num st)
    (hist_bin_width st) smin smax snum ssum ssumsq (histogram st).

Definition set_histogram (h : list Z) (st : state) : state :=
  mkState (gpio_lattest_value st) (gpio_level st) (period_ms st)
    (my_hrtimer st) (runcount st) (last_now_ns st) (hist_bin_num st)
    (hist_bin_width st) (stat_min st) (stat_max st) (stat_num st)
    (stat_sum st) (stat_sumsq st) h.

(** [HIST_BIN_LOW(i)], all of it in [long long] arithmetic. *)
Definition HIST_BIN_LOW (st : state) (i : Z) : Z :=
  let w := hist_bin_width st in
  let n := hist_bin_num st in
  to_s64 (to_s64 (Z.shiftr w 1 * Z.land n 1)
          + to_s64 (to_s64 (i - Z.shiftr (to_s64 (n + 1)) 1) * w)).

(** ** Timer function *)

(** [period_ms*1000000] is computed in [unsigned long], 32 bits wide on the
    32-bit ARM the module is built for.  For the periods that
    [store_period_cb] lets through (at most 1000) nothing wraps, and a
    64-bit [unsigned long] gives the same [diff_ns]. *)
Definition to_ulong (z : Z) : Z := to_u32 z.

(** [histogram[i]++] on the [unsigned int] array. *)
Definition histogram_incr (i : Z) (st : state) : outcome state :=
  if (0 <=? i) && (i <? HIST_BIN_MAX) then
    match histogram st !! Z.to_nat i with
    | Some c => Ok (set_histogram (<[Z.to_nat i := to_u32 (c + 1)]> (histogram st)) st)
    | None => Fault OutOfBounds
    end
  else Fault OutOfBounds.

(** The histogram bin of a jitter value: the division and the two
    clamping steps of the timer function. *)
Definition hist_bin_of (st : state) (diff_ns : Z) : outcome Z :=
  do hist_bin <- div_ll (to_s64 (diff_ns - HIST_BIN_LOW st 0)) (hist_bin_width st);
  let hist_bin := if hist_bin <? 0 then 0 else hist_bin in
  let hist_bin :=
    if hist_bin >=? hist_bin_num st then to_s64 (hist_bin_num st - 1) else hist_bin in
  Ok hist_bin.

(** The jitter of a firing at [now_ns]: both assignments to [diff_ns]. *)
Definition jitter_of (st : state) (now_ns : Z) : Z :=
  let diff_ns := to_s64 (now_ns - last_now_ns st) in
  to_s64 (diff_ns - to_ulong (period_ms st * 1000000)).

(** The statistics part of the timer function, for the jitter [diff_ns]:
    the body of [if (last_now_ns != 0)] after [diff_ns] is computed. *)
Definition record_sample (diff_ns : Z) (st : state) : outcome state :=
  let smin := if diff_ns <? stat_min st then diff_ns else stat_min st in
  let smax := if diff_ns >? stat_max st then diff_ns else stat_max st in
  let st := set_stats smin smax
              (to_s64 (stat_num st + 1))
              (to_s64 (stat_sum st + diff_ns))
              (to_s64 (stat_sumsq st + to_s64 (diff_ns * diff_ns))) st in
  do hist_bin <- hist_bin_of st diff_ns;
  histogram_incr hist_bin st.

(** [now_ns] is what [ktime_to_ns(hrtimer_cb_get_time(&my_hrtimer))]
    returns in this call. *)
Definition lattest_timer_function (now_ns : Z) (st : state)
  : outcome (state * hrtimer_restart) :=
  let st := set_gpio GPIO_LATTEST_TOGGLE (gpio_lattest_value st) st in
  let st := set_gpio_lattest_value (if gpio_lattest_value st =? 0 then 1 else 0) st in
  do st <- (if negb (last_now_ns st =? 0)
            then record_sample (jitter_of st now_ns) st
            else Ok st);
  let st := set_last_now_ns now_ns st in
  if runcount st >? 0 then
    Ok (set_runcount (to_s32 (runcount st - 1)) st, HRTIMER_RESTART)
  else if runcount st =? 0 then
    Ok (st, HRTIMER_NORESTART)
  else
    Ok (st, HRTIMER_RESTART).

(** The hrtimer core at the expiry of [my_hrtimer]: the timer is taken off
    the queue, its function is called, and the timer is put back when the
    function returns [HRTIMER_RESTART]. *)
Definition hrtimer_expire (now_ns : Z) (st : state) : outcome state :=
  if my_hrtimer st then
    do r <- lattest_timer_function now_ns (set_my_hrtimer false st);
    match snd r with
    | HRTIMER_RESTART => Ok (set_my_hrtimer true (fst r))
    | HRTIMER_NORESTART => Ok (fst r)
    end
  else Ok st.

(** Successive expiries at the times [nows], as long as the timer is
    enqueued; the second component counts the calls of the timer function. *)
Fixpoint run_timer (nows : list Z) (st : state) : outcome (state * nat) :=
  match nows with
  | [] => Ok (st, O)
  | now_ns :: rest =>
      if my_hrtimer st then
        do st1 <- hrtimer_expire now_ns st;
        do r <- run_timer rest st1;
        Ok (fst r, S (snd r))
      else Ok (st, O)
  end.

(** ** Kernel string helpers used by the sysfs callbacks

    A C string is a [string]: the characters before the terminating NUL. *)

Definition uchar (c : ascii) : Z := Z.of_N (N_of_ascii c).

(** [strncmp] of lib/string.c. *)
Fixpoint strncmp (cs ct : string) (count : nat) : Z :=
  match count with
  | O => 0
  | S count' =>
      match cs, ct with
      | EmptyString, EmptyString => 0
      | EmptyString, String _ _ => -1
      | String _ _, EmptyString => 1
      | String c1 cs', String c2 ct' =>
          if uchar c1 =? uchar c2 then strncmp cs' ct' count'
          else if uchar c1 <? uchar c2 then -1 else 1
      end
  end.

(** Decimal digits at the head of a string: their value, their number and
    the rest of the string ([_parse_integer] in base 10). *)
Fixpoint parse_integer (s : string) (acc : Z) (digits : nat) : Z * nat * string :=
  match s with
  | String c s' =>
      if (48 <=? uchar c) && (uchar c <=? 57)
      then parse_integer s' (10 * acc + (uchar c - 48)) (S digits)
      else (acc, digits, s)
  | EmptyString => (acc, digits, s)
  end.

(** [_kstrtoull(s, 10, &res)]: at least one digit, an optional newline,
    then the end of the string; [None] stands for every negative return
    value. *)
Definition _kstrtoull (s : string) : option Z :=
  let '(v, digits, rest) := parse_integer s 0 O in
  match digits with
  | O => None
  | S _ =>
      if v >=? 2 ^ 64 then None
      else
        let rest := match rest with
                    | String c r => if uchar c =? 10 then r else rest
                    | EmptyString => rest
                    end in
        match rest with
        | EmptyString => Some v
        | String _ _ => None
        end
  end.

(** [kstrtoull(s, 10, &res)]: skips one leading '+'. *)
Definition kstrtoull (s : string) : option Z :=
  match s with
  | String c s' => if uchar c =? 43 then _kstrtoull s' else _kstrtoull s
  | EmptyString => _kstrtoull s
  end.

Definition kstrtoll (s : string) : option Z :=
  match s with
  | String c s' =>
      if uchar c =? 45 then
        match _kstrtoull s' with
        | Some v => if to_s64 (- v) >? 0 then None else Some (to_s64 (- v))
        | None => None
        end
      else
        match kstrtoull s with
        | Some v => if to_s64 v <? 0 then None else Some (to_s64 v)
        | None => None
        end
  | EmptyString => None
  end.

(** [kstrtouint(s, 10, &res) < 0] is [None]. *)
Definition kstrtouint (s : string) : option Z :=
  match kstrtoull s with
  | Some v => if v =? to_u32 v then Some v else None
  | None => None
  end.

(** [kstrtoint(s, 10, &res) < 0] is [None]. *)
Definition kstrtoint (s : string) : option Z :=
  match kstrtoll s with
  | Some v => if v =? to_s32 v then Some v else None
  | None => None
  end.

(** ** SysFS callbacks

    A [store] callback takes the text written and its length [count]; it
    returns the new state and its [ssize_t] result. *)

(** The word printed by [show_status_cb] after "Status:". *)
Definition show_status_cb (st : state) : string :=
  if negb (runcount st =? 0) then "running"%string else "stopped"%string.

Definition show_period_cb (st : state) : Z := period_ms st.

Definition store_period_cb (buf : string) (count : Z) (st : state) : state * Z :=
  if negb (runcount st =? 0) then (st, - EINVAL)
  else
    match kstrtouint buf with
    | None => (st, - EINVAL)
    | Some new_period =>
        if new_period >? 1000 then (st, - EINVAL)
        else (set_period_ms new_period st, count)
    end.

(** "prepare for timer", "reset statistics" and "start timer". *)
Definition start_timer (st : state) : state :=
  let st := set_last_now_ns 0 st in
  let st := set_stats LLONG_MAX LLONG_MIN 0 0 0 st in
  let st := set_histogram (replicate (Z.to_nat HIST_BIN_MAX) 0) st in
  set_my_hrtimer true st.

Definition store_control_cb (buf : string) (count : Z) (st : state) : state * Z :=
  if strncmp buf "stop" (Z.to_nat (Z.min 4 count)) =? 0 then
    (set_runcount 0 st, count)
  else if strncmp buf "infinite" (Z.to_nat (Z.min 8 count)) =? 0 then
    if negb (runcount st =? 0) then (st, - EINVAL)
    else (start_timer (set_runcount (-1) st), count)
  else
    if negb (runcount st =? 0) then (st, - EINVAL)
    else
      match kstrtoint buf with
      | None => (st, - EINVAL)
      | Some new_runcount =>
          if new_runcount <=? 0 then (st, - EINVAL)
          else (start_timer (set_runcount new_runcount st), count)
      end.

(** The pair printed by [show_config_cb]: bin width, bin count. *)
Definition show_config_cb (st : state) : Z * Z :=
  (hist_bin_width st, hist_bin_num st).

Definition store_config_cb (buf : string) (count : Z) (st : state) : state * Z :=
  if negb (runcount st =? 0) then (st, - EINVAL)
  else (* TODO: implement *) (st, 0).

(** The numbers that [show_statistics_cb] prints; the text itself and its
    truncation to a page are not modelled. *)
Record statistics : Type := mkStatistics {
  rep_min : Z;
  rep_max : Z;
  rep_num : Z;
  rep_sum : Z;
  rep_mean : Z;
  rep_sumsq : Z;
  rep_var : Z;
  rep_stddev : Z;
  rep_histogram : list (Z * Z)    (* bound printed, counter printed *)
}.

(** The lines [" >= HIST_BIN_LOW(i): histogram[i]"] for [i], [i+1], ... *)
Fixpoint histogram_lines (st : state) (i : Z) (lines : nat) : outcome (list (Z * Z)) :=
  match lines with
  | O => Ok []
  | S lines' =>
      match histogram st !! Z.to_nat i with
      | Some c =>
          do rest <- histogram_lines st (i + 1) lines';
          Ok ((HIST_BIN_LOW st i, c) :: rest)
      | None => Fault OutOfBounds
      end
  end.

Definition show_statistics_cb (st : state) : outcome statistics :=
  do precalc <-
    (if stat_num st >? 0 then
       do stat_mean <- div_ll (stat_sum st) (stat_num st);
       do q <- div_ll (to_s64 (stat_sum st * stat_sum st)) (stat_num st);
       do stat_var <- div_ll (to_s64 (stat_sumsq st - q)) (stat_num st);
       match isqrtu64 (to_u64 stat_var) with
       | Some r => Ok (stat_mean, stat_var, to_s64 r)
       | None => Fault FuelExhausted
       end
     else Ok (0, 0, 0));
  let '(stat_mean, stat_var, stat_stddev) := precalc in
  match histogram st !! O with
  | Some c0 =>
      do rest <- histogram_lines st 1 (Z.to_nat (hist_bin_num st - 1));
      Ok (mkStatistics (stat_min st) (stat_max st) (stat_num st) (stat_sum st)
            stat_mean (stat_sumsq st) stat_var stat_stddev
            ((HIST_BIN_LOW st 1, c0) :: rest))
  | None => Fault OutOfBounds
  end.

(** ** Initialization *)

(** The state [lattest_init] leaves: the defaults it sets, [static]
    variables it does not touch are zero. *)
Definition lattest_init : state :=
  {| gpio_lattest_value := 1;
     gpio_level := 0;
     period_ms := 10;
     my_hrtimer := false;
     runcount := 0;
     last_now_ns := 0;
     hist_bin_num := 20;
     hist_bin_width := 1000;
     stat_min := 0;
     stat_max := 0;
     stat_num := 0;
     stat_sum := 0;
     stat_sumsq := 0;
     histogram := replicate (Z.to_nat HIST_BIN_MAX) 0 |}.

(** ** Vocabulary of the properties *)

(** [r] is the integer nearest to the square root of [x], a tie going up:
    [r - 1/2 <= sqrt x < r + 1/2]. *)
Definition nearest_sqrt (x r : Z) : Prop :=
  0 <= r /\ 4 * x < (2 * r + 1) ^ 2 /\ (r = 0 \/ (2 * r - 1) ^ 2 <= 4 * x).

(** The same as a function. *)
Definition round_sqrt (x : Z) : Z :=
  let s := Z.sqrt x in if x - s * s >? s then s + 1 else s.

(** The sum of the histogram counters. *)
Definition hist_total (h : list Z) : Z := foldr Z.add 0 h.
Arguments hist_total : simpl never.

(** The statistics part of the timer function run for each jitter value of
    a list in turn. *)
Fixpoint record_samples (jitters : list Z) (st : state) : outcome state :=
  match jitters with
  | [] => Ok st
  | diff_ns :: rest => do st1 <- record_sample diff_ns st; record_samples rest st1
  end.

(** The configuration the histogram is in: from 1 to [HIST_BIN_MAX] bins
    in an array of [HIST_BIN_MAX] counters. *)
Definition hist_config_ok (st : state) : Prop :=
  1 <= hist_bin_num st <= HIST_BIN_MAX /\
  length (histogram st) = Z.to_nat HIST_BIN_MAX.

(** The exact sum and sum of squares of a list of samples. *)
Definition sum_of (l : list Z) : Z := foldr Z.add 0 l.
Definition sum_of_squares (l : list Z) : Z := foldr (fun x acc => x * x + acc) 0 l.
Arguments sum_of : simpl never.
Arguments sum_of_squares : simpl never.

(** ** Runs of the module *)

(** What can happen to the module once it is loaded: an expiry of the
    timer, or a write to one of its sysfs files. *)
Inductive event : Type :=
| Expire (now_ns : Z)
| WritePeriod (buf : string) (count : Z)
| WriteControl (buf : string) (count : Z)
| WriteConfig (buf : string) (count : Z).

Definition step (e : event) (st : state) : outcome state :=
  match e with
  | Expire now_ns => hrtimer_expire now_ns st
  | WritePeriod buf count => Ok (fst (store_period_cb buf count st))
  | WriteControl buf count => Ok (fst (store_control_cb buf count st))
  | WriteConfig buf count => Ok (fst (store_config_cb buf count st))
  end.

Fixpoint exec (events : list event) (st : state) : outcome state :=
  match events with
  | [] => Ok st
  | e :: rest => do st1 <- step e st; exec rest st1
  end.

(** What holds of the module's variables whenever it is loaded. *)
Record invariant (st : state) : Prop := mkInvariant {
  inv_bin_num : hist_bin_num st = 20;
  inv_bin_width : hist_bin_width st = 1000;
  inv_length : length (histogram st) = Z.to_nat HIST_BIN_MAX;
  inv_counters : Forall is_u32 (histogram st);
  inv_period : 0 <= period_ms st <= 1000;
  inv_runcount : is_s32 (runcount st);
  inv_stat_num : is_s64 (stat_num st);
  inv_stat_sum : is_s64 (stat_sum st);
  inv_total : hist_total (histogram st) mod 2 ^ 32 = stat_num st mod 2 ^ 32
}.

(** ** The earlier revision of the timer function

    [src/lattest/lattest.c] holds the revision of the module that precedes
    the running statistics and the configurable bins: 20 bins of 1024 ns,
    found by a shift, and only the minimum and the maximum are kept.  Its
    timer function stores [now_ns] in [last_now_ns] before it takes the
    difference. *)
Module Earlier.

Definition HIST_BIN_NUM : Z := 20.
Definition HIST_BIN_LSBS : Z := 10.

Record state : Type := mkState {
  gpio_lattest_value : Z;
  gpio_level : Z;
  period_ms : Z;
  runcount : Z;
  last_now_ns : Z;
  histogram : list Z;          (* unsigned int [HIST_BIN_NUM] *)
  hist_min : Z;
  hist_max : Z
}.

(** The value of [diff_ns] that is put in the histogram by a call at
    [now_ns] when [last_now_ns] was [last] at the call. *)
Definition jitter_of (period : Z) (last now_ns : Z) : Z :=
  let last_now_ns := now_ns in          (* last_now_ns = now_ns; comes first *)
  let diff_ns := to_s64 (now_ns - last_now_ns) in
  to_s64 (diff_ns - to_ulong (period * 1000000)).

Definition hist_bin_of (diff_ns : Z) : Z :=
  let hist_bin := to_s64 (Z.shiftr diff_ns HIST_BIN_LSBS + Z.shiftr HIST_BIN_NUM 1) in
  let hist_bin := if hist_bin <? 0 then 0 else hist_bin in
  if hist_bin >? HIST_BIN_NUM - 1 then HIST_BIN_NUM - 1 else hist_bin.

Definition lattest_timer_function (now_ns : Z) (st : state)
  : outcome (state * hrtimer_restart) :=
  let level := if gpio_lattest_value st =? 0 then 0 else 1 in
  let toggled := if gpio_lattest_value st =? 0 then 1 else 0 in
  let diff_ns := jitter_of (period_ms st) (last_now_ns st) now_ns in
  do sampled <-
    (if negb (now_ns =? 0) then
       let hist_bin := hist_bin_of diff_ns in
       match histogram st !! Z.to_nat hist_bin with
       | Some c =>
           Ok (<[Z.to_nat hist_bin := to_u32 (c + 1)]> (histogram st),
               if diff_ns <? hist_min st then diff_ns else hist_min st,
               if diff_ns >? hist_max st then diff_ns else hist_max st)
       | None => Fault OutOfBounds
       end
     else Ok (histogram st, hist_min st, hist_max st));
  let '(h, lo, hi) := sampled in
  if runcount st >? 0 then
    Ok (mkState toggled level (period_ms st) (to_s32 (runcount st - 1)) now_ns h lo hi,
        HRTIMER_RESTART)
  else if runcount st =? 0 then
    Ok (mkState toggled level (period_ms st) (runcount st) now_ns h lo hi,
        HRTIMER_NORESTART)
  else
    Ok (mkState toggled level (period_ms st) (runcount st) now_ns h lo hi,
        HRTIMER_RESTART).

End Earlier.

(** ** States used in the examples *)

(** 19 bins instead of the 20 that [lattest_init] sets. *)
Definition st_19_bins_of_1000 : state := set_hist_config 19 1000 lattest_init.

Definition st_19_bins_of_3 : state := set_hist_config 19 3 lattest_init.

(** After [lattest_init], "infinite" is written to [control]. *)
Definition st_started_infinite : state := fst (store_control_cb "infinite" 8 lattest_init).

(** After [lattest_init], "5" is written to [control]. *)
Definition st_started_5 : state := fst (store_control_cb "5" 1 lattest_init).

(** Expiry times in ns: a first expiry at 5 s, then gaps of 10.0 ms and
    10.3 ms. *)
Definition gaps_10_0_and_10_3 : list Z :=
  [5000000000; 5010000000; 5020300000].

(** Six expiries 10 ms apart. *)
Definition six_expiries : list Z :=
  [5000000000; 5010000000; 5020000000; 5030000000; 5040000000; 5050000000].

(** [st_started_infinite] after the first expiry of [gaps_10_0_and_10_3]. *)
Definition st_first_expiry : state :=
  Eval vm_compute in
    match run_timer (take 1 gaps_10_0_and_10_3) st_started_infinite with
    | Ok (s, _) => s
    | Fault _ => lattest_init
    end.

(** Bin counts outside 1 .. [HIST_BIN_MAX]. *)
Definition st_0_bins : state := set_hist_config 0 1000 lattest_init.
Definition st_300_bins : state := set_hist_config 300 1000 lattest_init.


(** Expiry times in ns: the second expiry comes 3.1 s late, the third one
    10 ms after the second. *)
Definition late_expiries : list Z := [5000000000; 8110000000; 8120000000].

(** [st_started_infinite] after the three expiries of
    [gaps_10_0_and_10_3]: two samples, 0 and 300000. *)
Definition st_two_samples : state :=
  Eval vm_compute in
    match run_timer gaps_10_0_and_10_3 st_started_infinite with
    | Ok (s, _) => s
    | Fault _ => lattest_init
    end.

(** ** Runs and their samples *)

(** The jitter values that successive expiries at [nows] give, the
    expiry before them being the one recorded in [last_now_ns]. *)
Fixpoint jitters_of (st : state) (nows : list Z) : list Z :=
  match nows with
  | [] => []
  | now_ns :: rest => jitter_of st now_ns :: jitters_of (set_last_now_ns now_ns st) rest
  end.

(** What a run measures: the state without the bookkeeping of the pin and
    of the timer. *)
Definition measurement (st : state) : state :=
  set_gpio_lattest_value 0 (set_gpio GPIO_LATTEST_TOGGLE 0
    (set_my_hrtimer false (set_runcount 0 (set_last_now_ns 0 st)))).


(** [k] expiry times without jitter: each one is [period_ns] after the
    one before, the first one [period_ns] after [last]. *)
Fixpoint punctual (period_ns last : Z) (k : nat) : list Z :=
  match k with
  | O => []
  | S k' => (last + period_ns) :: punctual period_ns (last + period_ns) k'
  end.


(** ** The first revision of the module

    The second file of [src/lattest/lattest.c] is the first revision: no
    sysfs files and no pin; [lattest_init] starts the timer, which runs
    [MAXRUNS] times, and [lattest_exit] prints the histogram.  The bins
    are found by the same shift as in the revision after it. *)
Module First.

Definition MAXRUNS : Z := 2000.

Record state : Type := mkState {
  runcount : Z;                (* volatile int *)
  period_ms : Z;               (* unsigned long *)
  period_ns : Z;               (* unsigned long *)
  my_hrtimer : bool;           (* the timer is enqueued *)
  last_kt_now : Z;             (* long long *)
  histogram : list Z;          (* unsigned int [HIST_BIN_NUM] *)
  hist_min : Z;
  hist_max : Z
}.

(** [kt_now_ns] is what [ktime_to_ns(hrtimer_cb_get_time(&my_hrtimer))]
    returns in this call. *)
Definition lattest_timer_function (kt_now_ns : Z) (st : state)
  : outcome (state * hrtimer_restart) :=
  let runcount' := to_s32 (runcount st + 1) in
  let diff_ns := to_s64 (kt_now_ns - last_kt_now st) in
  do sampled <-
    (if runcount' >? 1 then
       let diff_ns := to_s64 (diff_ns - period_ns st) in
       let hist_bin := Earlier.hist_bin_of diff_ns in
       match histogram st !! Z.to_nat hist_bin with
       | Some c =>
           Ok (<[Z.to_nat hist_bin := to_u32 (c + 1)]> (histogram st),
               if diff_ns <? hist_min st then diff_ns else hist_min st,
               if diff_ns >? hist_max st then diff_ns else hist_max st)
       | None => Fault OutOfBounds
       end
     else Ok (histogram st, hist_min st, hist_max st));
  let '(h, lo, hi) := sampled in
  let st' := mkState runcount' (period_ms st) (period_ns st) (my_hrtimer st)
               kt_now_ns h lo hi in
  if runcount' <? MAXRUNS then Ok (st', HRTIMER_RESTART)
  else Ok (st', HRTIMER_NORESTART).

(** The state [lattest_init] leaves, for the kernel's tick rate [HZ]: the
    period is one jiffy, and the timer is started. *)
Definition lattest_init (HZ : Z) : state :=
  let period_ms := to_ulong (Z.quot 1000 HZ) in
  {| runcount := 0;
     period_ms := period_ms;
     period_ns := to_ulong (period_ms * 1000000);
     my_hrtimer := true;
     last_kt_now := 0;
     histogram := replicate (Z.to_nat Earlier.HIST_BIN_NUM) 0;
     hist_min := LLONG_MAX;
     hist_max := LLONG_MIN |}.

Definition hrtimer_expire (kt_now_ns : Z) (st : state) : outcome state :=
  if my_hrtimer st then
    do r <- lattest_timer_function kt_now_ns
              (mkState (runcount st) (period_ms st) (period_ns st) false
                 (last_kt_now st) (histogram st) (hist_min st) (hist_max st));
    match snd r with
    | HRTIMER_RESTART =>
        Ok (mkState (runcount (fst r)) (period_ms (fst r)) (period_ns (fst r)) true
              (last_kt_now (fst r)) (histogram (fst r)) (hist_min (fst r))
              (hist_max (fst r)))
    | HRTIMER_NORESTART => Ok (fst r)
    end
  else Ok st.

Fixpoint run_timer (nows : list Z) (st : state) : outcome (state * nat) :=
  match nows with
  | [] => Ok (st, O)
  | kt_now_ns :: rest =>
      if my_hrtimer st then
        do st1 <- hrtimer_expire kt_now_ns st;
        do r <- run_timer rest st1;
        Ok (fst r, S (snd r))
      else Ok (st, O)
  end.

End First.


(** A state of the revision before the statistics, in an infinite run
    whose last expiry was at 5 s. *)
Definition st_earlier_running : Earlier.state :=
  Earlier.mkState 0 1 10 (-1) 5000000000 (replicate 20 0) LLONG_MAX LLONG_MIN.


(* ================================================================== *)
(** * Properties *)

Ltac wrap_lia := Z.div_mod_to_equations; lia.

(** ** Machine integers *)

Lemma to_s64_id z : is_s64 z -> to_s64 z = z.
Proof. unfold is_s64, to_s64. intros. wrap_lia. Qed.

Lemma to_u64_id z : is_u64 z -> to_u64 z = z.
Proof. unfold is_u64, to_u64. intros. wrap_lia. Qed.

Lemma to_u32_id z : is_u32 z -> to_u32 z = z.
Proof. unfold is_u32, to_u32. intros. wrap_lia. Qed.

Lemma to_s32_id z : is_s32 z -> to_s32 z = z.
Proof. unfold is_s32, to_s32. intros. wrap_lia. Qed.

Lemma to_s64_range z : is_s64 (to_s64 z).
Proof. unfold is_s64, to_s64. wrap_lia. Qed.

Lemma to_u64_range z : is_u64 (to_u64 z).
Proof. unfold is_u64, to_u64. wrap_lia. Qed.

Lemma to_u32_range z : is_u32 (to_u32 z).
Proof. unfold is_u32, to_u32. wrap_lia. Qed.

Lemma to_s64_congr a b : a mod 2 ^ 64 = b mod 2 ^ 64 -> to_s64 a = to_s64 b.
Proof. unfold to_s64. intros. wrap_lia. Qed.

Lemma to_s64_mod a : to_s64 a mod 2 ^ 64 = a mod 2 ^ 64.
Proof. unfold to_s64. wrap_lia. Qed.

Lemma to_u64_abs n : is_s64 n -> to_u64 (abs n) = Z.abs n.
Proof.
  unfold is_s64, abs, to_u64, to_s64. intros Hn.
  destruct (Z.ltb_spec n 0); wrap_lia.
Qed.

(** ** [div_ll] *)

Lemma do_div_small n b :
  0 < to_u32 b -> do_div n b = Ok (to_s64 (to_u64 n / to_u32 b), to_u64 n mod to_u32 b).
Proof.
  intros Hb. unfold do_div.
  destruct (Z.eqb_spec (to_u32 b) 0); [lia | reflexivity].
Qed.

(** For a divisor below 2^32 in absolute value [div_ll] is the truncating
    quotient, wrapped to 64 bits (which matters for LLONG_MIN / -1 only). *)
Lemma div_ll_quot n d :
  is_s64 n -> 0 < Z.abs d < 2 ^ 32 ->
  div_ll n d = Ok (to_s64 (Z.quot n d)).
Proof.
  intros Hn Hd. unfold div_ll.
  assert (Hb : to_u32 (abs d) = Z.abs d).
  { unfold abs, to_u32, to_s64. destruct (Z.ltb_spec d 0); wrap_lia. }
  rewrite do_div_small by lia. cbn [obind fst]. rewrite Hb.
  rewrite (to_u64_abs n Hn). f_equal.
  rewrite (Z.quot_div n d) by lia.
  assert (Hq : 0 <= Z.abs n / Z.abs d) by (apply Z.div_pos; lia).
  destruct (Z.ltb_spec n 0), (Z.ltb_spec d 0); cbn [xorb].
  - apply to_s64_congr. f_equal.
    replace (Z.sgn n) with (-1) by lia. replace (Z.sgn d) with (-1) by lia. lia.
  - rewrite <- (to_s64_congr (- (Z.abs n / Z.abs d)) _).
    + f_equal. replace (Z.sgn n) with (-1) by lia. replace (Z.sgn d) with 1 by lia. lia.
    + unfold to_s64. wrap_lia.
  - rewrite <- (to_s64_congr (- (Z.abs n / Z.abs d)) _).
    + f_equal. assert (n = 0 \/ 0 < n) as [->|] by lia; [reflexivity|].
      replace (Z.sgn n) with 1 by lia. replace (Z.sgn d) with (-1) by lia. lia.
    + unfold to_s64. wrap_lia.
  - apply to_s64_congr. f_equal.
    assert (n = 0 \/ 0 < n) as [->|] by lia; [reflexivity|].
    replace (Z.sgn n) with 1 by lia. replace (Z.sgn d) with 1 by lia. lia.
Qed.

(** ** [isqrtu64] *)

Lemma shiftr_2_pow4 (j : nat) : Z.shiftr (4 ^ Z.of_nat (S j)) 2 = 4 ^ Z.of_nat j.
Proof.
  rewrite Z.shiftr_div_pow2 by lia.
  rewrite Nat2Z.inj_succ, Z.pow_succ_r by lia.
  change (2 ^ 2) with 4. rewrite Z.mul_comm. apply Z.div_mul. lia.
Qed.

(** The first loop stops at the highest power of four not above [x]. *)
Lemma isqrt_scan_spec (j : nat) : forall fuel x,
  (j < fuel)%nat -> 0 < x < 4 ^ (Z.of_nat j + 1) ->
  exists k : nat, (k <= j)%nat /\
    isqrt_scan fuel x (4 ^ Z.of_nat j) = Some (4 ^ Z.of_nat k) /\
    4 ^ Z.of_nat k <= x < 4 ^ (Z.of_nat k + 1).
Proof.
  induction j as [|j IH]; intros fuel x Hfuel Hx;
    (destruct fuel as [|fuel]; [lia|]); cbn [isqrt_scan].
  - change (4 ^ Z.of_nat 0) with 1 in *.
    destruct (Z.gtb_spec 1 x); [lia|].
    exists O. change (4 ^ Z.of_nat 0) with 1.
    split; [lia | split; [reflexivity | lia]].
  - destruct (Z.gtb_spec (4 ^ Z.of_nat (S j)) x) as [Hgt|Hle].
    + rewrite shiftr_2_pow4.
      destruct (IH fuel x) as (k & Hk & Hscan & Hb).
      * lia.
      * split; [lia|]. replace (Z.of_nat j + 1) with (Z.of_nat (S j)) by lia. lia.
      * exists k. split; [lia | split; [exact Hscan | lia]].
    + exists (S j). split; [lia | split; [reflexivity | lia]].
Qed.

(** One round of the second loop.  [r] is the part of the root found so
    far, a multiple of [2 * P] where [P * P = one]; the round decides the
    bit of weight [P]. *)
Lemma isqrt_round P r x :
  1 <= P -> 0 <= r -> r + 2 * P <= 2 ^ 32 ->
  r * r <= x < (r + 2 * P) * (r + 2 * P) ->
  let r' := if (r + P) * (r + P) <=? x then r + P else r in
  (if x - r * r >=? to_u64 (r * (2 * P) + P * P)
   then (to_u64 (x - r * r - to_u64 (r * (2 * P) + P * P)),
         to_u64 (r * (2 * P) + to_u64 (2 * (P * P))))
   else (x - r * r, r * (2 * P)))
  = (x - r' * r', 2 * (r' * P)).
Proof.
  intros HP Hr Hsum Hx r'. subst r'.
  assert (Hsq : (r + 2 * P) * (r + 2 * P) <= 2 ^ 64) by nia.
  assert (H1 : to_u64 (r * (2 * P) + P * P) = r * (2 * P) + P * P).
  { apply to_u64_id. unfold is_u64. nia. }
  assert (H2 : to_u64 (2 * (P * P)) = 2 * (P * P)).
  { apply to_u64_id. unfold is_u64. nia. }
  rewrite H1, H2.
  destruct (Z.geb_spec (x - r * r) (r * (2 * P) + P * P)) as [Hge|Hlt];
    destruct (Z.leb_spec ((r + P) * (r + P)) x) as [Hle|Hgt]; try nia.
  - f_equal.
    + rewrite to_u64_id by (unfold is_u64; nia). ring.
    + rewrite to_u64_id by (unfold is_u64; nia). ring.
  - f_equal. ring.
Qed.

(** The second loop computes the integer square root and its remainder. *)
Lemma isqrt_loop_spec (k : nat) : forall fuel x r,
  (k + 1 < fuel)%nat -> 0 <= r -> r + 2 * 2 ^ Z.of_nat k <= 2 ^ 32 ->
  r * r <= x < (r + 2 * 2 ^ Z.of_nat k) * (r + 2 * 2 ^ Z.of_nat k) ->
  isqrt_loop fuel (x - r * r) (r * (2 * 2 ^ Z.of_nat k)) (4 ^ Z.of_nat k)
  = Some (x - Z.sqrt x * Z.sqrt x, Z.sqrt x).
Proof.
  induction k as [|k IH]; intros fuel x r Hfuel Hr Hsum Hx;
    (destruct fuel as [|fuel]; [lia|]); cbn [isqrt_loop].
  - change (2 ^ Z.of_nat 0) with 1 in *. change (4 ^ Z.of_nat 0) with 1.
    cbn [Z.eqb negb].
    pose proof (isqrt_round 1 r x ltac:(lia) Hr Hsum Hx) as Hround.
    cbv zeta in Hround. change (1 * 1) with 1 in Hround. rewrite Hround.
    destruct fuel as [|fuel]; [lia|]. cbn [isqrt_loop].
    change (Z.shiftr 1 2) with 0. cbn [Z.eqb negb].
    set (r' := if (r + 1) * (r + 1) <=? x then r + 1 else r).
    assert (Hs : Z.sqrt x = r').
    { apply Z.sqrt_unique. subst r'.
      destruct (Z.leb_spec ((r + 1) * (r + 1)) x); lia. }
    rewrite Z.shiftr_div_pow2 by lia. change (2 ^ 1) with 2.
    rewrite (Z.mul_comm 2 (r' * 1)), Z.div_mul by lia.
    rewrite Z.mul_1_r, Hs. reflexivity.
  - set (P := 2 ^ Z.of_nat k) in *.
    assert (HP : 1 <= P) by (subst P; pose proof (Z.pow_pos_nonneg 2 (Z.of_nat k)); lia).
    assert (HP2 : 2 ^ Z.of_nat (S k) = 2 * P).
    { subst P. rewrite Nat2Z.inj_succ, Z.pow_succ_r by lia. reflexivity. }
    assert (HP4 : 4 ^ Z.of_nat (S k) = 2 * P * (2 * P)).
    { rewrite <- HP2. change 4 with (2 ^ 2). rewrite <- Z.pow_mul_r by lia.
      rewrite <- Z.pow_add_r by lia. f_equal. lia. }
    rewrite HP2 in *.
    assert (Hne : negb (4 ^ Z.of_nat (S k) =? 0) = true).
    { rewrite HP4. destruct (Z.eqb_spec (2 * P * (2 * P)) 0); [nia | reflexivity]. }
    rewrite Hne. rewrite shiftr_2_pow4. rewrite HP4.
    pose proof (isqrt_round (2 * P) r x ltac:(lia) Hr Hsum Hx) as Hround.
    cbv zeta in Hround. rewrite Hround.
    set (r' := if (r + 2 * P) * (r + 2 * P) <=? x then r + 2 * P else r).
    rewrite Z.shiftr_div_pow2 by lia. change (2 ^ 1) with 2.
    rewrite (Z.mul_comm 2 (r' * (2 * P))), Z.div_mul by lia.
    replace (r' * (2 * P)) with (r' * (2 * 2 ^ Z.of_nat k)) by (subst P; ring).
    apply IH; fold P; subst r';
      destruct (Z.leb_spec ((r + 2 * P) * (r + 2 * P)) x); lia.
Qed.

Lemma pow4_as_square (k : nat) :
  4 ^ (Z.of_nat k + 1) = (2 * 2 ^ Z.of_nat k) * (2 * 2 ^ Z.of_nat k).
Proof.
  rewrite <- (Z.pow_succ_r 2) by lia. change 4 with (2 ^ 2).
  rewrite <- Z.pow_mul_r by lia. rewrite <- Z.pow_add_r by lia. f_equal. lia.
Qed.

Lemma sqrt_u64_bound x : is_u64 x -> 0 <= Z.sqrt x < 2 ^ 32.
Proof.
  intros [Hx0 Hx1]. split; [apply Z.sqrt_nonneg|].
  apply Z.sqrt_lt_square; [lia | lia | ]. change (2 ^ 32 * 2 ^ 32) with (2 ^ 64). lia.
Qed.

(** [isqrtu64] terminates on every 64-bit input, without wrap-around, and
    returns the square root rounded to the nearest integer. *)
Lemma isqrtu64_correct x : is_u64 x -> isqrtu64 x = Some (round_sqrt x).
Proof.
  intros Hx. pose proof Hx as [Hx0 Hx1].
  assert (x = 0 \/ 0 < x) as [->|Hpos] by lia; [reflexivity|].
  unfold isqrtu64.
  destruct (isqrt_scan_spec 31 64 x) as (k & Hk & Hscan & Hb).
  { lia. }
  { change (4 ^ (Z.of_nat 31 + 1)) with (2 ^ 64). lia. }
  change (Z.shiftl 1 62) with (4 ^ Z.of_nat 31). rewrite Hscan.
  assert (Hpk : 2 * 2 ^ Z.of_nat k <= 2 ^ 32).
  { change (2 ^ 32) with (2 * 2 ^ Z.of_nat 31).
    apply Z.mul_le_mono_nonneg_l; [lia|]. apply Z.pow_le_mono_r; lia. }
  pose proof (isqrt_loop_spec k 64 x 0) as Hloop.
  rewrite pow4_as_square in Hb.
  replace (x - 0 * 0) with x in Hloop by lia.
  replace (0 * (2 * 2 ^ Z.of_nat k)) with 0 in Hloop by lia.
  rewrite Hloop by lia.
  unfold round_sqrt. cbv zeta.
  destruct (Z.gtb_spec (x - Z.sqrt x * Z.sqrt x) (Z.sqrt x)); [|reflexivity].
  f_equal. apply to_u64_id. pose proof (sqrt_u64_bound x Hx). unfold is_u64. lia.
Qed.

Lemma round_sqrt_nearest x : 0 <= x -> nearest_sqrt x (round_sqrt x).
Proof.
  intros Hx. unfold nearest_sqrt, round_sqrt. cbv zeta.
  pose proof (Z.sqrt_spec x Hx) as Hs. pose proof (Z.sqrt_nonneg x) as Hs0.
  set (s := Z.sqrt x) in *. unfold Z.succ in Hs.
  destruct (Z.gtb_spec (x - s * s) s) as [Hgt|Hle].
  - split; [lia|]. split; [nia|]. right. nia.
  - split; [lia|]. split; [nia|].
    assert (s = 0 \/ 1 <= s) as [H0|H1] by lia; [left; exact H0 | right; nia].
Qed.

Lemma nearest_sqrt_unique x r1 r2 :
  nearest_sqrt x r1 -> nearest_sqrt x r2 -> r1 = r2.
Proof.
  unfold nearest_sqrt. intros (H1 & H2 & H3) (H4 & H5 & H6).
  destruct H3 as [->|H3], H6 as [->|H6]; nia.
Qed.

Lemma round_sqrt_bound x : is_u64 x -> 0 <= round_sqrt x <= 2 ^ 32.
Proof.
  intros Hx. pose proof (sqrt_u64_bound x Hx). unfold round_sqrt. cbv zeta.
  destruct (_ >? _); lia.
Qed.

(** Claim C8.  For every [x] from 0 to 10000 the digit-by-digit routine
    [isqrtu64] terminates with the integer nearest to the square root of
    [x] (a tie would go up), and on 2, 3, 4, 6, 7, 8, 9 it returns
    1, 2, 2, 2, 3, 3, 3. *)
Theorem isqrtu64_rounds_to_nearest x :
  0 <= x <= 10000 ->
  (exists r, isqrtu64 x = Some r /\ nearest_sqrt x r) /\
  map isqrtu64 [2; 3; 4; 6; 7; 8; 9] = map Some [1; 2; 2; 2; 3; 3; 3].
Proof.
  intros Hx. split; [|reflexivity].
  exists (round_sqrt x). split.
  - apply isqrtu64_correct. unfold is_u64. lia.
  - apply round_sqrt_nearest. lia.
Qed.

Lemma isqrtu64_rounds_to_nearest_witness :
  0 <= 7 <= 10000 /\
  ((exists r, isqrtu64 7 = Some r /\ nearest_sqrt 7 r) /\
   map isqrtu64 [2; 3; 4; 6; 7; 8; 9] = map Some [1; 2; 2; 2; 3; 3; 3]).
Proof.
  assert (H : 0 <= 7 <= 10000) by lia.
  split; [exact H | exact (isqrtu64_rounds_to_nearest 7 H)].
Defined.

(** Claim C7, at the inputs where the code departs from it.  [div_ll]
    hands the divisor to [do_div], which keeps its low 32 bits only: 7
    divided by 2^32 + 2 comes out as 7 / 2 = 3 where the truncating
    quotient is 0, and a divisor of 2^32 is a division by zero.  The two
    examples of the claim come out as it says. *)
Theorem div_ll_truncates_divisor :
  div_ll 7 4294967298 = Ok 3 /\ Z.quot 7 4294967298 = 0 /\
  div_ll 7 4294967296 = Fault DivisionByZero /\
  div_ll (-7) 2 = Ok (-3) /\ div_ll 7 (-2) = Ok (-3).
Proof. repeat split. Qed.

(** ** Bin layout: [HIST_BIN_LOW] *)

Lemma land_1 n : Z.land n 1 = n mod 2.
Proof. exact (Z.land_ones n 1 ltac:(lia)). Qed.

Lemma shiftr_1 n : Z.shiftr n 1 = n / 2.
Proof. exact (Z.shiftr_div_pow2 n 1 ltac:(lia)). Qed.

(** [HIST_BIN_LOW] without its wrap-arounds, modulo 2^64. *)
Lemma HIST_BIN_LOW_mod st i :
  1 <= hist_bin_num st <= 256 ->
  HIST_BIN_LOW st i mod 2 ^ 64 =
  (hist_bin_width st / 2 * (hist_bin_num st mod 2)
   + (i - (hist_bin_num st + 1) / 2) * hist_bin_width st) mod 2 ^ 64.
Proof.
  intros Hn. unfold HIST_BIN_LOW. cbv zeta.
  rewrite land_1, !shiftr_1.
  rewrite (to_s64_id (hist_bin_num st + 1)) by (unfold is_s64; lia).
  set (c := (hist_bin_num st + 1) / 2). set (w := hist_bin_width st).
  set (h := w / 2 * (hist_bin_num st mod 2)).
  rewrite to_s64_mod.
  rewrite Z.add_mod, !to_s64_mod by lia.
  rewrite (Z.mul_mod (to_s64 (i - c))), to_s64_mod by lia.
  rewrite <- Z.mul_mod, <- Z.add_mod by lia. reflexivity.
Qed.

(** When the products stay small nothing wraps. *)
Lemma HIST_BIN_LOW_exact st i :
  1 <= hist_bin_num st <= 256 -> 0 < hist_bin_width st < 2 ^ 52 ->
  - 512 <= i <= 512 ->
  HIST_BIN_LOW st i =
  hist_bin_width st / 2 * (hist_bin_num st mod 2)
  + (i - (hist_bin_num st + 1) / 2) * hist_bin_width st.
Proof.
  intros Hn Hw Hi.
  pose proof (HIST_BIN_LOW_mod st i Hn) as Hmod.
  pose proof (to_s64_range (HIST_BIN_LOW st i)) as Hr.
  assert (Hid : to_s64 (HIST_BIN_LOW st i) = HIST_BIN_LOW st i).
  { unfold HIST_BIN_LOW. cbv zeta. apply to_s64_id, to_s64_range. }
  rewrite <- Hid. erewrite to_s64_congr by exact Hmod.
  apply to_s64_id. unfold is_s64.
  set (w := hist_bin_width st) in *. set (n := hist_bin_num st) in *.
  assert (0 <= w / 2 <= w) by (split; [apply Z.div_pos; lia | apply Z.div_le_upper_bound; lia]).
  assert (0 <= n mod 2 <= 1) by (pose proof (Z.mod_pos_bound n 2); lia).
  assert (0 <= (n + 1) / 2 <= 256) by (split; [apply Z.div_pos; lia | apply Z.div_le_upper_bound; lia]).
  nia.
Qed.

Lemma HIST_BIN_LOW_range st i : is_s64 (HIST_BIN_LOW st i).
Proof. unfold HIST_BIN_LOW. cbv zeta. apply to_s64_range. Qed.

Lemma HIST_BIN_LOW_eq st i v :
  1 <= hist_bin_num st <= 256 -> is_s64 v ->
  hist_bin_width st / 2 * (hist_bin_num st mod 2)
  + (i - (hist_bin_num st + 1) / 2) * hist_bin_width st = v ->
  HIST_BIN_LOW st i = v.
Proof.
  intros Hn Hv Heq.
  rewrite <- (to_s64_id _ (HIST_BIN_LOW_range st i)), <- (to_s64_id v Hv).
  apply to_s64_congr. rewrite HIST_BIN_LOW_mod by exact Hn. now rewrite Heq.
Qed.

(** Claim C4, as the code has it.  For every bin count from 1 to 256 and
    every positive bin width: consecutive lower bounds differ by the bin
    width (in the 64-bit arithmetic of the macro for every [i], and as
    plain integers while nothing can wrap); for an even bin count the
    bound of bin [n/2] is 0; for an odd bin count the bound of bin
    [(n-1)/2] is [w/2 - w], which is [-w/2] rounded toward minus infinity
    and is [-(w/2)] exactly when the width is even. *)
Theorem HIST_BIN_LOW_layout st i :
  1 <= hist_bin_num st <= 256 ->
  0 < hist_bin_width st < 2 ^ 63 ->
  let n := hist_bin_num st in
  let w := hist_bin_width st in
  to_s64 (HIST_BIN_LOW st (i + 1) - HIST_BIN_LOW st i) = w /\
  (- 512 <= i < 512 -> w < 2 ^ 52 ->
   HIST_BIN_LOW st (i + 1) - HIST_BIN_LOW st i = w) /\
  (Z.even n = true -> HIST_BIN_LOW st (n / 2) = 0) /\
  (Z.odd n = true ->
   HIST_BIN_LOW st ((n - 1) / 2) = w / 2 - w /\
   HIST_BIN_LOW st ((n - 1) / 2) = Z.div (- w) 2 /\
   (Z.even w = true -> HIST_BIN_LOW st ((n - 1) / 2) = - (w / 2))).
Proof.
  intros Hn Hw n w. subst n w.
  set (n := hist_bin_num st) in *. set (w := hist_bin_width st) in *.
  split; [|split; [|split]].
  - transitivity (to_s64 w); [|apply to_s64_id; unfold is_s64; lia].
    apply to_s64_congr.
    rewrite Zminus_mod, !HIST_BIN_LOW_mod by exact Hn.
    rewrite <- Zminus_mod. f_equal. fold n w. ring.
  - intros Hi Hw52.
    rewrite !HIST_BIN_LOW_exact by (fold n w; lia). fold n w. ring.
  - intros Heven. apply HIST_BIN_LOW_eq; [exact Hn | unfold is_s64; lia |].
    fold n w. pose proof (Zmod_even n) as Hm. rewrite Heven in Hm.
    rewrite Hm. replace (n / 2 - (n + 1) / 2) with 0 by wrap_lia. ring.
  - intros Hodd. pose proof (Zmod_odd n) as Hm. rewrite Hodd in Hm.
    assert (Hlow : HIST_BIN_LOW st ((n - 1) / 2) = w / 2 - w).
    { apply HIST_BIN_LOW_eq; [exact Hn | unfold is_s64; wrap_lia |].
      fold n w. rewrite Hm.
      replace ((n - 1) / 2 - (n + 1) / 2) with (-1) by wrap_lia. ring. }
    split; [exact Hlow | split].
    + rewrite Hlow. wrap_lia.
    + intros Hweven. rewrite Hlow.
      pose proof (Zmod_even w) as Hwm. rewrite Hweven in Hwm. wrap_lia.
Qed.

Lemma HIST_BIN_LOW_layout_witness :
  1 <= hist_bin_num st_19_bins_of_1000 <= 256 /\
  0 < hist_bin_width st_19_bins_of_1000 < 2 ^ 63 /\
  HIST_BIN_LOW st_19_bins_of_1000 9 = -500 /\
  HIST_BIN_LOW st_19_bins_of_1000 10 - HIST_BIN_LOW st_19_bins_of_1000 9 = 1000.
Proof.
  assert (Hn : 1 <= hist_bin_num st_19_bins_of_1000 <= 256) by (simpl; lia).
  assert (Hw : 0 < hist_bin_width st_19_bins_of_1000 < 2 ^ 63) by (simpl; lia).
  pose proof (HIST_BIN_LOW_layout st_19_bins_of_1000 9 Hn Hw) as (_ & Hexact & _ & Hodd).
  split; [exact Hn | split; [exact Hw | split]].
  - exact (proj1 (Hodd eq_refl)).
  - apply Hexact; simpl; lia.
Defined.

(** The claim C4 itself fails at an odd width: with 19 bins of width 3 the
    bin that straddles zero starts at -2, while -3/2 is -1 in truncating
    integer division. *)
Lemma HIST_BIN_LOW_odd_width_counterexample :
  HIST_BIN_LOW st_19_bins_of_3 ((hist_bin_num st_19_bins_of_3 - 1) / 2) = -2 /\
  Z.quot (- hist_bin_width st_19_bins_of_3) 2 = -1 /\
  - (hist_bin_width st_19_bins_of_3 / 2) = -1 /\
  HIST_BIN_LOW st_19_bins_of_3 ((hist_bin_num st_19_bins_of_3 - 1) / 2)
    <> Z.quot (- hist_bin_width st_19_bins_of_3) 2.
Proof. repeat split. discriminate. Qed.

(** ** The bin of a sample *)

Lemma div_ll_defined n d :
  to_u32 (abs d) <> 0 -> exists q, div_ll n d = Ok q.
Proof.
  intros Hd. unfold div_ll, do_div. cbv zeta.
  destruct (Z.eqb_spec (to_u32 (abs d)) 0); [contradiction|].
  cbn [obind fst]. eexists. reflexivity.
Qed.

Lemma div_ll_fault n d f : div_ll n d = Fault f -> f = DivisionByZero.
Proof.
  unfold div_ll, do_div. cbv zeta.
  destruct (to_u32 (abs d) =? 0); cbn [obind]; congruence.
Qed.

Lemma hist_bin_of_defined st diff_ns :
  to_u32 (abs (hist_bin_width st)) <> 0 -> exists i, hist_bin_of st diff_ns = Ok i.
Proof.
  intros Hw. unfold hist_bin_of.
  destruct (div_ll_defined (to_s64 (diff_ns - HIST_BIN_LOW st 0)) _ Hw) as [q ->].
  cbn [obind]. eexists. reflexivity.
Qed.

Lemma hist_bin_of_fault st diff_ns f :
  hist_bin_of st diff_ns = Fault f -> f = DivisionByZero.
Proof.
  unfold hist_bin_of.
  destruct (div_ll _ _) as [q|f'] eqn:Hdiv; cbn [obind]; [discriminate|].
  intros [= <-]. exact (div_ll_fault _ _ _ Hdiv).
Qed.

(** The two clamping steps leave an index from 0 to [hist_bin_num - 1]. *)
Lemma hist_bin_of_bounds st diff_ns i :
  1 <= hist_bin_num st <= HIST_BIN_MAX ->
  hist_bin_of st diff_ns = Ok i -> 0 <= i <= hist_bin_num st - 1.
Proof.
  unfold HIST_BIN_MAX. intros Hn. unfold hist_bin_of.
  destruct (div_ll _ _) as [q|f]; cbn [obind]; [|discriminate].
  intros [= <-].
  rewrite (to_s64_id (hist_bin_num st - 1)) by (unfold is_s64; lia).
  destruct (Z.ltb_spec q 0).
  - destruct (Z.geb_spec 0 (hist_bin_num st)); lia.
  - destruct (Z.geb_spec q (hist_bin_num st)); lia.
Qed.

Lemma histogram_incr_ok i st :
  0 <= i < HIST_BIN_MAX -> length (histogram st) = Z.to_nat HIST_BIN_MAX ->
  exists c, histogram st !! Z.to_nat i = Some c /\
    histogram_incr i st =
    Ok (set_histogram (<[Z.to_nat i := to_u32 (c + 1)]> (histogram st)) st).
Proof.
  intros Hi Hlen. unfold histogram_incr.
  destruct (Z.leb_spec 0 i); [|lia]. destruct (Z.ltb_spec i HIST_BIN_MAX); [|lia].
  cbn [andb].
  destruct (lookup_lt_is_Some_2 (histogram st) (Z.to_nat i)) as [c Hc]; [lia|].
  exists c. rewrite Hc. split; reflexivity.
Qed.

(** What [record_sample] does to the state when the bin is [i]. *)
Lemma record_sample_ok diff_ns st i :
  hist_config_ok st -> hist_bin_of st diff_ns = Ok i ->
  exists c, histogram st !! Z.to_nat i = Some c /\
    record_sample diff_ns st =
    Ok (set_histogram (<[Z.to_nat i := to_u32 (c + 1)]> (histogram st))
          (set_stats (if diff_ns <? stat_min st then diff_ns else stat_min st)
                     (if diff_ns >? stat_max st then diff_ns else stat_max st)
                     (to_s64 (stat_num st + 1))
                     (to_s64 (stat_sum st + diff_ns))
                     (to_s64 (stat_sumsq st + to_s64 (diff_ns * diff_ns))) st)).
Proof.
  intros [Hn Hlen] Hbin. unfold record_sample. cbv zeta.
  set (st1 := set_stats _ _ _ _ _ st).
  assert (Hbin1 : hist_bin_of st1 diff_ns = Ok i) by exact Hbin.
  rewrite Hbin1. cbn [obind].
  pose proof (hist_bin_of_bounds st diff_ns i Hn Hbin) as Hi.
  destruct (histogram_incr_ok i st1) as (c & Hc & Hincr); [lia | exact Hlen |].
  exists c. split; [exact Hc | exact Hincr].
Qed.

(** Claim C10.  Whatever the jitter, with 1 to 256 bins configured the
    index left by the two clamping steps lies in [0, hist_bin_num - 1],
    hence inside the 256 counters, and the increment is never a store
    outside the array; an index is computed whenever the low 32 bits of
    the bin width are not all zero.  The bound on the bin count is
    needed: with 0 bins the index is -1, and with 300 bins a jitter of
    1 ms has index 299; both are stores outside the array. *)
Theorem hist_bin_within_array st diff_ns :
  1 <= hist_bin_num st <= 256 ->
  (forall i, hist_bin_of st diff_ns = Ok i ->
     0 <= i <= hist_bin_num st - 1 /\ i < HIST_BIN_MAX) /\
  (to_u32 (abs (hist_bin_width st)) <> 0 -> exists i, hist_bin_of st diff_ns = Ok i) /\
  (length (histogram st) = Z.to_nat HIST_BIN_MAX ->
   record_sample diff_ns st <> Fault OutOfBounds) /\
  (hist_bin_of st_0_bins 0 = Ok (-1) /\
   record_sample 0 st_0_bins = Fault OutOfBounds /\
   hist_bin_of st_300_bins 1000000 = Ok 299 /\
   record_sample 1000000 st_300_bins = Fault OutOfBounds).
Proof.
  intros Hn. split; [|split; [|split; [|repeat split]]].
  - intros i Hi. pose proof (hist_bin_of_bounds st diff_ns i Hn Hi).
    unfold HIST_BIN_MAX. lia.
  - apply hist_bin_of_defined.
  - intros Hlen.
    destruct (hist_bin_of st diff_ns) as [i|f] eqn:Hbin.
    + destruct (record_sample_ok diff_ns st i (conj Hn Hlen) Hbin) as (c & _ & ->).
      discriminate.
    + pose proof (hist_bin_of_fault _ _ _ Hbin) as ->.
      unfold record_sample. cbv zeta.
      change (hist_bin_of (set_stats _ _ _ _ _ st) diff_ns) with (hist_bin_of st diff_ns).
      rewrite Hbin. cbn [obind]. discriminate.
Qed.

Lemma hist_bin_within_array_witness :
  1 <= hist_bin_num lattest_init <= 256 /\
  hist_bin_of lattest_init 300000 = Ok 19 /\
  0 <= 19 <= hist_bin_num lattest_init - 1 /\ 19 < HIST_BIN_MAX.
Proof.
  assert (Hn : 1 <= hist_bin_num lattest_init <= 256) by (simpl; lia).
  split; [exact Hn | split; [reflexivity|]].
  exact (proj1 (hist_bin_within_array lattest_init 300000 Hn) 19 eq_refl).
Defined.

(** ** The timer function *)

Lemma jitter_of_eq st now_ns :
  0 <= period_ms st <= 1000 ->
  jitter_of st now_ns = to_s64 (now_ns - last_now_ns st - period_ms st * 1000000).
Proof.
  intros Hp. unfold jitter_of, to_ulong. cbv zeta.
  rewrite (to_u32_id (period_ms st * 1000000)) by (unfold is_u32; lia).
  apply to_s64_congr. rewrite Zminus_mod, to_s64_mod, <- Zminus_mod. reflexivity.
Qed.

(** A call of the timer function that is not the first of its run. *)
Lemma lattest_timer_function_sample now_ns st i :
  last_now_ns st <> 0 -> hist_config_ok st ->
  hist_bin_of st (jitter_of st now_ns) = Ok i ->
  exists st' ret c,
    lattest_timer_function now_ns st = Ok (st', ret) /\
    histogram st !! Z.to_nat i = Some c /\
    histogram st' = <[Z.to_nat i := to_u32 (c + 1)]> (histogram st) /\
    stat_num st' = to_s64 (stat_num st + 1) /\
    stat_sum st' = to_s64 (stat_sum st + jitter_of st now_ns) /\
    stat_sumsq st' =
      to_s64 (stat_sumsq st + to_s64 (jitter_of st now_ns * jitter_of st now_ns)) /\
    stat_min st' = Z.min (stat_min st) (jitter_of st now_ns) /\
    stat_max st' = Z.max (stat_max st) (jitter_of st now_ns) /\
    last_now_ns st' = now_ns.
Proof.
  intros Hlast Hcfg Hbin.
  destruct (record_sample_ok _ st i Hcfg Hbin) as (c & Hc & Hrec).
  unfold lattest_timer_function. cbv zeta.
  set (st0 := set_gpio_lattest_value _ (set_gpio _ _ st)).
  change (last_now_ns st0) with (last_now_ns st).
  destruct (Z.eqb_spec (last_now_ns st) 0) as [|_]; [contradiction|]. cbn [negb].
  assert (Hrec0 : record_sample (jitter_of st0 now_ns) st0 =
                  Ok (set_histogram (<[Z.to_nat i := to_u32 (c + 1)]> (histogram st0))
                        (set_stats (if jitter_of st now_ns <? stat_min st
                                    then jitter_of st now_ns else stat_min st)
                                   (if jitter_of st now_ns >? stat_max st
                                    then jitter_of st now_ns else stat_max st)
                                   (to_s64 (stat_num st + 1))
                                   (to_s64 (stat_sum st + jitter_of st now_ns))
                                   (to_s64 (stat_sumsq st
                                            + to_s64 (jitter_of st now_ns * jitter_of st now_ns)))
                                   st0))).
  { destruct (record_sample_ok (jitter_of st0 now_ns) st0 i Hcfg Hbin)
      as (c' & Hc' & Hrec').
    change (histogram st0) with (histogram st) in Hc'.
    rewrite Hc in Hc'. injection Hc' as <-. exact Hrec'. }
  rewrite Hrec0. cbn [obind].
  assert (Hmin : (if jitter_of st now_ns <? stat_min st
                  then jitter_of st now_ns else stat_min st)
                 = Z.min (stat_min st) (jitter_of st now_ns)).
  { destruct (Z.ltb_spec (jitter_of st now_ns) (stat_min st)); lia. }
  assert (Hmax : (if jitter_of st now_ns >? stat_max st
                  then jitter_of st now_ns else stat_max st)
                 = Z.max (stat_max st) (jitter_of st now_ns)).
  { destruct (Z.gtb_spec (jitter_of st now_ns) (stat_max st)); lia. }
  match goal with
  | |- context [if ?b1 then _ else if ?b2 then _ else _] =>
      destruct b1; [|destruct b2]
  end;
    (do 3 eexists; split; [reflexivity|]; cbn;
     repeat split; first [exact Hc | exact Hmin | exact Hmax | reflexivity]).
Qed.

(** Claim C5.  A call of the timer function that is not the first of its
    run ([last_now_ns] is not 0) takes
    [(now - last_now_ns) - period_ms*1000000] as its jitter sample (in
    [long long] arithmetic, hence exactly whenever that difference is
    representable), adds this one value to the count, sum, sum of squares,
    minimum and maximum, and increments the counter of the bin computed
    from the same value.  The hypotheses hold in every state the module
    can reach (lemma [reachable_invariant]): a period of at most 1000 ms,
    1 to 256 bins, and a bin width that [do_div] can divide by.  From
    [lattest_init] (period 10 ms, 20 bins of 1000 ns), gaps of 10.0 ms
    and 10.3 ms give the samples 0 and 300000, counted in bin 10 and in
    the top bin 19. *)
Theorem timer_function_records_jitter now_ns st :
  last_now_ns st <> 0 ->
  0 <= period_ms st <= 1000 ->
  hist_config_ok st ->
  to_u32 (abs (hist_bin_width st)) <> 0 ->
  let jitter := to_s64 (now_ns - last_now_ns st - period_ms st * 1000000) in
  (is_s64 (now_ns - last_now_ns st - period_ms st * 1000000) ->
   jitter = now_ns - last_now_ns st - period_ms st * 1000000) /\
  (exists st' ret bin c,
     lattest_timer_function now_ns st = Ok (st', ret) /\
     hist_bin_of st jitter = Ok bin /\
     histogram st !! Z.to_nat bin = Some c /\
     histogram st' = <[Z.to_nat bin := to_u32 (c + 1)]> (histogram st) /\
     stat_num st' = to_s64 (stat_num st + 1) /\
     stat_sum st' = to_s64 (stat_sum st + jitter) /\
     stat_sumsq st' = to_s64 (stat_sumsq st + to_s64 (jitter * jitter)) /\
     stat_min st' = Z.min (stat_min st) jitter /\
     stat_max st' = Z.max (stat_max st) jitter /\
     last_now_ns st' = now_ns) /\
  (exists s1 s2 s3,
     run_timer (take 1 gaps_10_0_and_10_3) st_started_infinite = Ok (s1, 1%nat) /\
     stat_num s1 = 0 /\
     jitter_of s1 5010000000 = 0 /\ hist_bin_of s1 0 = Ok 10 /\
     run_timer (take 2 gaps_10_0_and_10_3) st_started_infinite = Ok (s2, 2%nat) /\
     stat_num s2 = 1 /\ stat_sum s2 = 0 /\
     histogram s2 = <[10%nat := 1]> (replicate 256 0) /\
     jitter_of s2 5020300000 = 300000 /\ hist_bin_of s2 300000 = Ok 19 /\
     run_timer gaps_10_0_and_10_3 st_started_infinite = Ok (s3, 3%nat) /\
     stat_num s3 = 2 /\ stat_sum s3 = 300000 /\
     stat_min s3 = 0 /\ stat_max s3 = 300000 /\
     histogram s3 = <[19%nat := 1]> (<[10%nat := 1]> (replicate 256 0))).
Proof.
  intros Hlast Hp Hcfg Hw jitter. split; [|split].
  - intros Hr. apply to_s64_id. exact Hr.
  - subst jitter. rewrite <- (jitter_of_eq st now_ns Hp).
    destruct (hist_bin_of_defined st (jitter_of st now_ns) Hw) as [bin Hbin].
    destruct (lattest_timer_function_sample now_ns st bin Hlast Hcfg Hbin)
      as (st' & ret & c & Hrun & Hrest).
    exists st', ret, bin, c. split; [exact Hrun | split; [exact Hbin | exact Hrest]].
  - pose (after := fun nows =>
            match run_timer nows st_started_infinite with
            | Ok (s, _) => s
            | Fault _ => lattest_init
            end).
    exists (after (take 1 gaps_10_0_and_10_3)),
           (after (take 2 gaps_10_0_and_10_3)),
           (after gaps_10_0_and_10_3).
    vm_compute. repeat split.
Qed.

Lemma timer_function_records_jitter_witness :
  last_now_ns st_first_expiry <> 0 /\
  0 <= period_ms st_first_expiry <= 1000 /\
  hist_config_ok st_first_expiry /\
  to_u32 (abs (hist_bin_width st_first_expiry)) <> 0 /\
  exists st' ret bin c,
    lattest_timer_function 5010000000 st_first_expiry = Ok (st', ret) /\
    hist_bin_of st_first_expiry
      (to_s64 (5010000000 - last_now_ns st_first_expiry
               - period_ms st_first_expiry * 1000000)) = Ok bin /\
    histogram st_first_expiry !! Z.to_nat bin = Some c /\
    histogram st' = <[Z.to_nat bin := to_u32 (c + 1)]> (histogram st_first_expiry) /\
    stat_num st' = to_s64 (stat_num st_first_expiry + 1).
Proof.
  assert (H1 : last_now_ns st_first_expiry <> 0) by discriminate.
  assert (H2 : 0 <= period_ms st_first_expiry <= 1000) by (simpl; lia).
  assert (H3 : hist_config_ok st_first_expiry)
    by (split; [simpl; unfold HIST_BIN_MAX; lia | reflexivity]).
  assert (H4 : to_u32 (abs (hist_bin_width st_first_expiry)) <> 0) by discriminate.
  split; [exact H1 | split; [exact H2 | split; [exact H3 | split; [exact H4|]]]].
  destruct (proj1 (proj2 (timer_function_records_jitter 5010000000 st_first_expiry
                            H1 H2 H3 H4)))
    as (st' & ret & bin & c & Hrun & Hbin & Hc & Hh & Hnum & _).
  exists st', ret, bin, c.
  split; [exact Hrun | split; [exact Hbin | split; [exact Hc | split; [exact Hh | exact Hnum]]]].
Defined.

(** ** Finite runs *)

(** Claim C1, at the input where the code departs from it.  After "5" is
    written to [control] the timer function is called six times, not
    five: its fifth call takes [runcount] from 1 to 0, which
    [show_status_cb] reports as "stopped", but still returns
    [HRTIMER_RESTART]; [stat_num] is 4 at that point, as the claim says.
    The sixth call records a fifth sample and is the one that returns
    [HRTIMER_NORESTART]; a seventh expiry does not happen. *)
Theorem finite_run_fires_once_more :
  store_control_cb "5" 1 lattest_init = (st_started_5, 1) /\
  runcount st_started_5 = 5 /\ my_hrtimer st_started_5 = true /\
  (exists s4 s5,
     run_timer (take 4 six_expiries) st_started_5 = Ok (s4, 4%nat) /\
     runcount s4 = 1 /\
     lattest_timer_function 5040000000 (set_my_hrtimer false s4)
       = Ok (set_my_hrtimer false s5, HRTIMER_RESTART) /\
     run_timer (take 5 six_expiries) st_started_5 = Ok (s5, 5%nat) /\
     runcount s5 = 0 /\ show_status_cb s5 = "stopped"%string /\
     stat_num s5 = 4 /\ my_hrtimer s5 = true) /\
  (exists s6,
     run_timer six_expiries st_started_5 = Ok (s6, 6%nat) /\
     runcount s6 = 0 /\ stat_num s6 = 5 /\ hist_total (histogram s6) = 5 /\
     my_hrtimer s6 = false /\
     run_timer (six_expiries ++ [5060000000]) st_started_5 = Ok (s6, 6%nat)).
Proof.
  pose (after := fun nows =>
          match run_timer nows st_started_5 with
          | Ok (s, _) => s
          | Fault _ => lattest_init
          end).
  split; [reflexivity | split; [reflexivity | split; [reflexivity | split]]].
  - exists (after (take 4 six_expiries)), (after (take 5 six_expiries)).
    vm_compute. repeat split.
  - exists (after six_expiries). vm_compute. repeat split.
Qed.

(** ** [store_config_cb] and [store_period_cb] *)

(** Claim C3, where the code departs from it.  [store_config_cb] refuses
    with [-EINVAL] while a run is in progress and leaves the state alone,
    as the claim says; with no run in progress it is a stub: it returns 0
    and changes neither the bin count, nor the bin width, nor any counter,
    whatever is written. *)
Theorem store_config_cb_is_stub buf count st :
  store_config_cb buf count st = (st, if runcount st =? 0 then 0 else - EINVAL) /\
  store_config_cb "10 500" 6 st_first_expiry = (st_first_expiry, - EINVAL) /\
  store_config_cb "10 500" 6 (set_runcount 0 st_first_expiry)
    = (set_runcount 0 st_first_expiry, 0) /\
  show_config_cb (fst (store_config_cb "10 500" 6 (set_runcount 0 st_first_expiry)))
    = (1000, 20).
Proof.
  split; [|repeat split].
  unfold store_config_cb. destruct (runcount st =? 0); reflexivity.
Qed.



(** ** The histogram counts every sample *)

Section HistTotal.

Implicit Types (h : list Z) (i : nat) (c v : Z).

Lemma hist_total_cons x h : hist_total (x :: h) = x + hist_total h.
Proof. reflexivity. Qed.


Lemma hist_total_insert h i c v :
  h !! i = Some c -> hist_total (<[i := v]> h) = hist_total h - c + v.
Proof.
  revert i. induction h as [|x h IH]; intros [|i] Hi; try discriminate.
  - injection Hi as ->.
    change (<[0%nat := v]> (c :: h)) with (v :: h).
    rewrite !hist_total_cons. lia.
  - change (<[S i := v]> (x :: h)) with (x :: <[i := v]> h).
    change (h !! i = Some c) in Hi.
    rewrite !hist_total_cons, (IH i Hi). lia.
Qed.

Lemma hist_total_nonneg h : Forall is_u32 h -> 0 <= hist_total h.
Proof.
  induction 1 as [|x h Hx _ IH]; [unfold hist_total; cbn; lia|].
  rewrite hist_total_cons. unfold is_u32 in Hx. lia.
Qed.

Lemma hist_total_lookup_le h i c :
  Forall is_u32 h -> h !! i = Some c -> 0 <= c <= hist_total h.
Proof.
  intros Hh. revert i. induction Hh as [|x h Hx Hh IH]; intros [|i] Hi;
    try discriminate; pose proof (hist_total_nonneg h Hh); unfold is_u32 in Hx;
    rewrite hist_total_cons.
  - injection Hi as ->. lia.
  - change (h !! i = Some c) in Hi. specialize (IH i Hi). lia.
Qed.

Lemma Forall_u32_insert h i v :
  Forall is_u32 h -> Forall is_u32 (<[i := to_u32 v]> h).
Proof. intros Hh. apply Forall_insert; [exact Hh | apply to_u32_range]. Qed.

Lemma Forall_u32_replicate (n : nat) : Forall is_u32 (replicate n 0).
Proof. apply Forall_replicate. unfold is_u32. lia. Qed.

End HistTotal.

(** One sample: one more in [stat_num], one more in one counter of the
    histogram, which is an [unsigned int] and wraps at 2^32. *)
Lemma record_sample_step diff_ns st :
  hist_config_ok st -> to_u32 (abs (hist_bin_width st)) <> 0 ->
  Forall is_u32 (histogram st) ->
  exists st',
    record_sample diff_ns st = Ok st' /\
    hist_config_ok st' /\
    hist_bin_width st' = hist_bin_width st /\
    Forall is_u32 (histogram st') /\
    stat_num st' = to_s64 (stat_num st + 1) /\
    hist_total (histogram st') mod 2 ^ 32 = (hist_total (histogram st) + 1) mod 2 ^ 32 /\
    (hist_total (histogram st) < 2 ^ 32 - 1 ->
     hist_total (histogram st') = hist_total (histogram st) + 1).
Proof.
  intros Hcfg Hw Hh.
  destruct (hist_bin_of_defined st diff_ns Hw) as [i Hbin].
  destruct (record_sample_ok diff_ns st i Hcfg Hbin) as (c & Hc & ->).
  eexists. split; [reflexivity|]. cbn.
  pose proof (hist_total_lookup_le _ _ _ Hh Hc) as Hcle.
  split; [|split; [reflexivity | split; [|split; [reflexivity | split]]]].
  - destruct Hcfg as [Hn Hlen]. split; [exact Hn|]. cbn.
    rewrite length_insert. exact Hlen.
  - apply Forall_u32_insert, Hh.
  - rewrite (hist_total_insert _ _ c _ Hc). unfold to_u32. wrap_lia.
  - intros Hlt. rewrite (hist_total_insert _ _ c _ Hc).
    rewrite to_u32_id by (unfold is_u32; lia). lia.
Qed.


Lemma start_timer_reset st :
  1 <= hist_bin_num st <= HIST_BIN_MAX ->
  hist_config_ok (start_timer st) /\
  hist_bin_width (start_timer st) = hist_bin_width st /\
  Forall is_u32 (histogram (start_timer st)) /\
  stat_num (start_timer st) = 0 /\
  hist_total (histogram (start_timer st)) = 0.
Proof.
  intros Hn. cbn. repeat split; try exact (proj1 Hn); try exact (proj2 Hn).
  - apply Forall_u32_replicate.
Qed.



(** With the bins of [lattest_init] a jitter of 0 is counted in bin 10. *)
Lemma hist_bin_of_zero st :
  hist_bin_num st = 20 -> hist_bin_width st = 1000 -> hist_bin_of st 0 = Ok 10.
Proof.
  intros Hn Hw. unfold hist_bin_of, HIST_BIN_LOW. rewrite Hn, Hw. reflexivity.
Qed.

(** [k] samples of jitter 0 in a row: counter 10 advances by [k] modulo
    2^32. *)
Lemma record_samples_zero_jitter (k : nat) : forall st c,
  hist_bin_num st = 20 -> hist_bin_width st = 1000 ->
  length (histogram st) = Z.to_nat HIST_BIN_MAX ->
  histogram st !! 10%nat = Some c -> is_u32 c -> is_s64 (stat_num st) ->
  exists st',
    record_samples (replicate k 0) st = Ok st' /\
    histogram st' = <[10%nat := to_u32 (c + Z.of_nat k)]> (histogram st) /\
    stat_num st' = to_s64 (stat_num st + Z.of_nat k).
Proof.
  induction k as [|k IH]; intros st c Hn Hw Hlen Hc Hcr Hnum.
  - exists st. cbn [replicate record_samples Z.of_nat]. rewrite !Z.add_0_r.
    rewrite (to_u32_id c Hcr), (to_s64_id _ Hnum).
    split; [reflexivity | split; [|reflexivity]].
    symmetry. apply list_insert_id. exact Hc.
  - assert (Hcfg : hist_config_ok st).
    { split; [rewrite Hn; unfold HIST_BIN_MAX; lia | exact Hlen]. }
    destruct (record_sample_ok 0 st 10 Hcfg (hist_bin_of_zero st Hn Hw))
      as (c' & Hc' & Hrec).
    change (Z.to_nat 10) with 10%nat in Hc', Hrec.
    rewrite Hc in Hc'. injection Hc' as <-.
    set (st1 := set_histogram _ _) in Hrec.
    destruct (IH st1 (to_u32 (c + 1))) as (st' & Hrun & Hh & Hnum').
    + exact Hn.
    + exact Hw.
    + subst st1. cbn. rewrite length_insert. exact Hlen.
    + subst st1. cbn. apply list_lookup_insert_eq. rewrite Hlen.
      unfold HIST_BIN_MAX. lia.
    + apply to_u32_range.
    + subst st1. cbn. apply to_s64_range.
    + exists st'. change (replicate (S k) 0) with (0 :: replicate k 0).
      cbn [record_samples]. rewrite Hrec. cbn [obind].
      split; [exact Hrun | split].
      * rewrite Hh. subst st1. cbn. rewrite list_insert_insert_eq. f_equal.
        unfold to_u32. rewrite Nat2Z.inj_succ. wrap_lia.
      * rewrite Hnum'. subst st1. cbn. apply to_s64_congr.
        rewrite Z.add_mod, to_s64_mod, <- Z.add_mod by lia. f_equal. lia.
Qed.


(** ** [show_statistics_cb] *)

Lemma histogram_lines_ok st (lines : nat) : forall i,
  0 <= i -> (Z.to_nat i + lines <= length (histogram st))%nat ->
  exists l, histogram_lines st i lines = Ok l.
Proof.
  induction lines as [|lines IH]; intros i Hi Hlen; cbn [histogram_lines].
  - eexists. reflexivity.
  - destruct (lookup_lt_is_Some_2 (histogram st) (Z.to_nat i)) as [c ->]; [lia|].
    destruct (IH (i + 1)) as [l ->]; [lia | lia |].
    cbn [obind]. eexists. reflexivity.
Qed.

Lemma quot_s64 n d : is_s64 n -> 0 < d -> is_s64 (Z.quot n d).
Proof.
  unfold is_s64. intros Hn Hd.
  assert (n < 0 \/ 0 <= n) as [Hneg|Hpos] by lia.
  - pose proof (Z.quot_opp_l n d ltac:(lia)) as Hopp.
    assert (0 <= Z.quot (- n) d <= - n).
    { split; [apply Z.quot_pos; lia|].
      rewrite Z.quot_div_nonneg by lia. apply Z.div_le_upper_bound; nia. }
    lia.
  - assert (0 <= Z.quot n d <= n).
    { split; [apply Z.quot_pos; lia|].
      rewrite Z.quot_div_nonneg by lia. apply Z.div_le_upper_bound; nia. }
    lia.
Qed.

Lemma div_ll_count n d :
  is_s64 n -> 0 < d < 2 ^ 32 -> div_ll n d = Ok (Z.quot n d).
Proof.
  intros Hn Hd. rewrite div_ll_quot by (try exact Hn; lia).
  f_equal. apply to_s64_id, quot_s64; [exact Hn | lia].
Qed.

(** The statistics that are reported for a sample count from 1 to
    2^32 - 1. *)
Lemma show_statistics_cb_values st :
  hist_config_ok st -> is_s64 (stat_sum st) -> 0 < stat_num st < 2 ^ 32 ->
  exists rep,
    show_statistics_cb st = Ok rep /\
    rep_mean rep = Z.quot (stat_sum st) (stat_num st) /\
    rep_var rep =
      Z.quot (to_s64 (stat_sumsq st
                      - Z.quot (to_s64 (stat_sum st * stat_sum st)) (stat_num st)))
             (stat_num st) /\
    is_s64 (rep_var rep) /\
    rep_stddev rep = round_sqrt (to_u64 (rep_var rep)).
Proof.
  intros [Hn Hlen] Hsum Hnum. unfold HIST_BIN_MAX in Hn.
  destruct (lookup_lt_is_Some_2 (histogram st) O) as [c0 Hc0].
  { rewrite Hlen. unfold HIST_BIN_MAX. lia. }
  destruct (histogram_lines_ok st (Z.to_nat (hist_bin_num st - 1)) 1) as [l Hl].
  { lia. }
  { rewrite Hlen. unfold HIST_BIN_MAX. lia. }
  unfold show_statistics_cb.
  destruct (Z.gtb_spec (stat_num st) 0); [|lia].
  rewrite (div_ll_count (stat_sum st)) by (try exact Hsum; lia). cbn [obind].
  rewrite (div_ll_count (to_s64 _)) by (try apply to_s64_range; lia). cbn [obind].
  rewrite (div_ll_count (to_s64 _)) by (try apply to_s64_range; lia). cbn [obind].
  set (var := Z.quot (to_s64 (stat_sumsq st - _)) (stat_num st)).
  rewrite (isqrtu64_correct (to_u64 var) (to_u64_range var)). cbn [obind].
  rewrite Hc0, Hl. cbn [obind].
  pose proof (round_sqrt_bound (to_u64 var) (to_u64_range var)) as Hb.
  rewrite (to_s64_id (round_sqrt (to_u64 var))) by (unfold is_s64; lia).
  eexists. split; [reflexivity|]. cbn.
  split_and!; try reflexivity.
  apply quot_s64; [apply to_s64_range | lia].
Qed.

(** With no sample the mean, the variance and the standard deviation are
    reported as 0. *)
Lemma show_statistics_cb_empty st :
  hist_config_ok st -> stat_num st <= 0 ->
  exists rep,
    show_statistics_cb st = Ok rep /\
    rep_mean rep = 0 /\ rep_var rep = 0 /\ rep_stddev rep = 0.
Proof.
  intros [Hn Hlen] Hnum. unfold HIST_BIN_MAX in Hn.
  destruct (lookup_lt_is_Some_2 (histogram st) O) as [c0 Hc0].
  { rewrite Hlen. unfold HIST_BIN_MAX. lia. }
  destruct (histogram_lines_ok st (Z.to_nat (hist_bin_num st - 1)) 1) as [l Hl].
  { lia. }
  { rewrite Hlen. unfold HIST_BIN_MAX. lia. }
  unfold show_statistics_cb.
  destruct (Z.gtb_spec (stat_num st) 0); [lia|]. cbn [obind].
  rewrite Hc0, Hl. cbn [obind]. eexists. split; [reflexivity|]. cbn.
  repeat split.
Qed.

(** Claim C2, as the code has it.  With a sample count from 1 to 2^32 - 1
    the reported mean and variance are the truncating quotients of the
    claim, and the reported standard deviation is [isqrtu64] of the
    variance converted to [uint64_t]: a negative variance is not clamped
    to 0 but read as 2^64 plus the variance.  For a variance that is not
    negative this is the rounded root of the variance.  With a count of 0
    the mean, the variance and the standard deviation are 0. *)
Theorem show_statistics_cb_stddev st :
  hist_config_ok st -> is_s64 (stat_sum st) ->
  (0 < stat_num st < 2 ^ 32 ->
   exists rep,
     show_statistics_cb st = Ok rep /\
     rep_mean rep = Z.quot (stat_sum st) (stat_num st) /\
     rep_var rep =
       Z.quot (to_s64 (stat_sumsq st
                       - Z.quot (to_s64 (stat_sum st * stat_sum st)) (stat_num st)))
              (stat_num st) /\
     isqrtu64 (to_u64 (rep_var rep)) = Some (rep_stddev rep) /\
     nearest_sqrt (to_u64 (rep_var rep)) (rep_stddev rep) /\
     (0 <= rep_var rep -> isqrtu64 (Z.max (rep_var rep) 0) = Some (rep_stddev rep)) /\
     (rep_var rep < 0 ->
      isqrtu64 (2 ^ 64 + rep_var rep) = Some (rep_stddev rep))) /\
  (stat_num st <= 0 ->
   exists rep,
     show_statistics_cb st = Ok rep /\
     rep_mean rep = 0 /\ rep_var rep = 0 /\ rep_stddev rep = 0).
Proof.
  intros Hcfg Hsum. split.
  - intros Hnum.
    destruct (show_statistics_cb_values st Hcfg Hsum Hnum)
      as (rep & Hshow & Hmean & Hvar & Hrange & Hsd).
    exists rep. pose proof (to_u64_range (rep_var rep)) as Hu.
    split_and!; try assumption.
    + rewrite Hsd. apply isqrtu64_correct, Hu.
    + rewrite Hsd. apply round_sqrt_nearest. exact (proj1 Hu).
    + intros Hpos. rewrite Z.max_l, Hsd by lia.
      rewrite (to_u64_id (rep_var rep)) by (unfold is_u64, is_s64 in *; lia).
      apply isqrtu64_correct. unfold is_u64, is_s64 in *. lia.
    + intros Hneg. rewrite Hsd.
      replace (to_u64 (rep_var rep)) with (2 ^ 64 + rep_var rep)
        by (unfold to_u64, is_s64 in *; wrap_lia).
      apply isqrtu64_correct. unfold is_u64, is_s64 in *. lia.
  - apply show_statistics_cb_empty, Hcfg.
Qed.

Lemma show_statistics_cb_stddev_witness :
  hist_config_ok st_two_samples /\ is_s64 (stat_sum st_two_samples) /\
  0 < stat_num st_two_samples < 2 ^ 32 /\
  exists rep,
    show_statistics_cb st_two_samples = Ok rep /\
    rep_mean rep = Z.quot 300000 2 /\
    rep_var rep = Z.quot (to_s64 (90000000000 - Z.quot (to_s64 (300000 * 300000)) 2)) 2 /\
    isqrtu64 (to_u64 (rep_var rep)) = Some (rep_stddev rep).
Proof.
  assert (H1 : hist_config_ok st_two_samples)
    by (split; [simpl; unfold HIST_BIN_MAX; lia | reflexivity]).
  assert (H2 : is_s64 (stat_sum st_two_samples)) by (unfold is_s64; simpl; lia).
  assert (H3 : 0 < stat_num st_two_samples < 2 ^ 32) by (simpl; lia).
  split; [exact H1 | split; [exact H2 | split; [exact H3|]]].
  destruct (proj1 (show_statistics_cb_stddev st_two_samples H1 H2) H3)
    as (rep & Hshow & Hmean & Hvar & Hsd & _).
  exists rep. split; [exact Hshow | split; [exact Hmean | split; [exact Hvar | exact Hsd]]].
Defined.

(** The claim C2 itself fails at a state that is reached from
    [lattest_init]: "infinite" is written to [control], the second expiry
    is 3.1 s late and the third on time.  The square of the first sample
    wraps in [stat_sumsq], the variance comes out negative and the
    standard deviation reported is 4029585345, not the 0 that clamping
    would give. *)
Lemma stddev_not_clamped_counterexample :
  exists s rep,
    store_control_cb "infinite" 8 lattest_init = (st_started_infinite, 8) /\
    run_timer late_expiries st_started_infinite = Ok (s, 3%nat) /\
    show_statistics_cb s = Ok rep /\
    rep_num rep = 2 /\
    rep_var rep = -2209186018427387904 /\
    rep_stddev rep = 4029585345 /\
    isqrtu64 (Z.max (rep_var rep) 0) = Some 0 /\
    isqrtu64 (Z.max (rep_var rep) 0) <> Some (rep_stddev rep).
Proof.
  pose (s := match run_timer late_expiries st_started_infinite with
             | Ok (s, _) => s
             | Fault _ => lattest_init
             end).
  pose (rep := match show_statistics_cb s with
               | Ok rep => rep
               | Fault _ => mkStatistics 0 0 0 0 0 0 0 0 []
               end).
  exists s, rep. vm_compute. repeat split. discriminate.
Qed.

(** ** Every call of the timer function *)

Lemma to_s32_range z : is_s32 (to_s32 z).
Proof. unfold is_s32, to_s32. wrap_lia. Qed.

(** The statistics step of a call: nothing on the first call of a run. *)
Lemma timer_statistics_step now_ns st :
  hist_config_ok st -> to_u32 (abs (hist_bin_width st)) <> 0 ->
  Forall is_u32 (histogram st) ->
  exists st1,
    (if negb (last_now_ns st =? 0)
     then record_sample (jitter_of st now_ns) st else Ok st) = Ok st1 /\
    hist_config_ok st1 /\
    hist_bin_num st1 = hist_bin_num st /\
    hist_bin_width st1 = hist_bin_width st /\
    period_ms st1 = period_ms st /\
    runcount st1 = runcount st /\
    my_hrtimer st1 = my_hrtimer st /\
    Forall is_u32 (histogram st1) /\
    stat_num st1 = (if last_now_ns st =? 0 then stat_num st
                    else to_s64 (stat_num st + 1)) /\
    hist_total (histogram st1) mod 2 ^ 32
      = (hist_total (histogram st)
         + (if last_now_ns st =? 0 then 0 else 1)) mod 2 ^ 32 /\
    (is_s64 (stat_sum st) -> is_s64 (stat_sum st1)).
Proof.
  intros Hcfg Hw Hh. destruct (last_now_ns st =? 0); cbn [negb].
  - exists st. rewrite Z.add_0_r.
    split_and!; first [reflexivity | exact Hcfg | exact Hh | exact (fun H => H)].
  - destruct (hist_bin_of_defined st (jitter_of st now_ns) Hw) as [i Hbin].
    destruct (record_sample_ok _ st i Hcfg Hbin) as (c & Hc & Hrec).
    destruct (record_sample_step (jitter_of st now_ns) st Hcfg Hw Hh)
      as (st1 & Hrec1 & Hcfg1 & Hw1 & Hh1 & Hnum1 & Hmod1 & _).
    exists st1. split; [exact Hrec1|].
    rewrite Hrec in Hrec1. injection Hrec1 as <-.
    split; [exact Hcfg1|]. cbn in *.
    split_and!; try reflexivity; try first [exact Hh1 | exact Hmod1].
    intros _. apply to_s64_range.
Qed.

(** An expiry of the enqueued timer never goes wrong; it leaves the
    configuration alone, and the timer is enqueued again unless
    [runcount] was 0. *)
Lemma hrtimer_expire_step now_ns st :
  my_hrtimer st = true ->
  hist_config_ok st -> to_u32 (abs (hist_bin_width st)) <> 0 ->
  Forall is_u32 (histogram st) ->
  exists st',
    hrtimer_expire now_ns st = Ok st' /\
    hist_config_ok st' /\
    hist_bin_num st' = hist_bin_num st /\
    hist_bin_width st' = hist_bin_width st /\
    period_ms st' = period_ms st /\
    Forall is_u32 (histogram st') /\
    last_now_ns st' = now_ns /\
    runcount st' = (if runcount st >? 0 then to_s32 (runcount st - 1)
                    else runcount st) /\
    my_hrtimer st' = negb (runcount st =? 0) /\
    stat_num st' = (if last_now_ns st =? 0 then stat_num st
                    else to_s64 (stat_num st + 1)) /\
    hist_total (histogram st') mod 2 ^ 32
      = (hist_total (histogram st)
         + (if last_now_ns st =? 0 then 0 else 1)) mod 2 ^ 32 /\
    (is_s64 (stat_sum st) -> is_s64 (stat_sum st')).
Proof.
  intros Hq Hcfg Hw Hh. unfold hrtimer_expire. rewrite Hq.
  unfold lattest_timer_function. cbv zeta.
  set (st0 := set_gpio_lattest_value _ (set_gpio _ _ (set_my_hrtimer false st))).
  destruct (timer_statistics_step now_ns st0 Hcfg Hw Hh)
    as (st1 & -> & Hcfg1 & Hn1 & Hw1 & Hp1 & Hr1 & Hq1 & Hh1 & Hnum1 & Hmod1 & Hsum1).
  cbn [obind]. change (my_hrtimer st0) with false in Hq1.
  change (stat_sum st0) with (stat_sum st) in Hsum1.
  change (runcount (set_last_now_ns now_ns st1)) with (runcount st1).
  rewrite Hr1. change (runcount st0) with (runcount st).
  change (last_now_ns st0) with (last_now_ns st) in Hnum1, Hmod1.
  change (stat_num st0) with (stat_num st) in Hnum1.
  change (histogram st0) with (histogram st) in Hmod1.
  change (hist_bin_num st0) with (hist_bin_num st) in Hn1.
  change (hist_bin_width st0) with (hist_bin_width st) in Hw1.
  change (period_ms st0) with (period_ms st) in Hp1.
  destruct Hcfg1 as [Hn1' Hlen1].
  destruct (Z.gtb_spec (runcount st) 0) as [Hpos|Hnpos].
  - cbn [obind snd fst]. eexists. split; [reflexivity|].
    destruct (Z.eqb_spec (runcount st) 0); [lia|].
    split; [exact (conj Hn1' Hlen1)|]. cbn.
    split_and!; first [assumption | reflexivity].
  - destruct (Z.eqb_spec (runcount st) 0) as [Hz|Hnz];
      cbn [obind snd fst]; (eexists; split; [reflexivity|]);
      (split; [exact (conj Hn1' Hlen1)|]); cbn;
      split_and!; first [assumption | reflexivity].
Qed.

(** ** Finite runs in general *)

Lemma run_timer_stopped nows st :
  my_hrtimer st = false -> run_timer nows st = Ok (st, O).
Proof. intros Hq. destruct nows; cbn [run_timer]; [|rewrite Hq]; reflexivity. Qed.

Lemma run_timer_app nows1 : forall nows2 st,
  run_timer (nows1 ++ nows2) st =
  (do r1 <- run_timer nows1 st;
   do r2 <- run_timer nows2 (fst r1);
   Ok (fst r2, (snd r1 + snd r2)%nat)).
Proof.
  induction nows1 as [|now_ns nows1 IH]; intros nows2 st.
  - cbn [app run_timer obind fst snd Nat.add].
    destruct (run_timer nows2 st) as [[s c]|f]; reflexivity.
  - cbn [app run_timer]. destruct (my_hrtimer st) eqn:Hq.
    + destruct (hrtimer_expire now_ns st) as [st1|f]; cbn [obind]; [|reflexivity].
      rewrite IH.
      destruct (run_timer nows1 st1) as [[s1 c1]|f]; cbn [obind fst snd]; [|reflexivity].
      destruct (run_timer nows2 s1) as [[s2 c2]|f]; reflexivity.
    + cbn [obind fst snd Nat.add]. rewrite (run_timer_stopped nows2 st Hq). reflexivity.
Qed.

(** While [runcount] is positive every expiry restarts the timer: [j]
    expiries take [runcount] down by [j] and, after the first call of the
    run, record [j] samples. *)
Lemma run_timer_countdown (nows : list Z) : forall st,
  my_hrtimer st = true ->
  Z.of_nat (length nows) <= runcount st < 2 ^ 31 ->
  hist_config_ok st -> to_u32 (abs (hist_bin_width st)) <> 0 ->
  Forall is_u32 (histogram st) -> is_s64 (stat_num st) ->
  last_now_ns st <> 0 -> Forall (fun now_ns => now_ns <> 0) nows ->
  exists st',
    run_timer nows st = Ok (st', length nows) /\
    my_hrtimer st' = true /\
    runcount st' = runcount st - Z.of_nat (length nows) /\
    stat_num st' = to_s64 (stat_num st + Z.of_nat (length nows)) /\
    hist_config_ok st' /\ hist_bin_width st' = hist_bin_width st /\
    Forall is_u32 (histogram st') /\ last_now_ns st' <> 0.
Proof.
  induction nows as [|now_ns nows IH];
    intros st Hq Hrun Hcfg Hw Hh Hnum Hlast Hnows.
  - exists st. cbn [run_timer length Z.of_nat].
    rewrite Z.sub_0_r, Z.add_0_r, (to_s64_id _ Hnum).
    split_and!; try assumption; reflexivity.
  - cbn [length] in Hrun. rewrite Nat2Z.inj_succ in Hrun.
    apply Forall_cons in Hnows as [Hnow Hnows].
    destruct (hrtimer_expire_step now_ns st Hq Hcfg Hw Hh)
      as (st1 & Hexp & Hcfg1 & _ & Hw1 & _ & Hh1 & Hlast1 & Hrun1 & Hq1 & Hnum1 & _ & _).
    destruct (Z.gtb_spec (runcount st) 0) as [_|]; [|lia].
    destruct (Z.eqb_spec (runcount st) 0) as [|_]; [lia|].
    destruct (Z.eqb_spec (last_now_ns st) 0) as [|_]; [contradiction|].
    rewrite to_s32_id in Hrun1 by (unfold is_s32; lia).
    destruct (IH st1) as (st' & Hrest & Hq' & Hrun' & Hnum' & Hcfg' & Hw' & Hh' & Hlast').
    + exact Hq1.
    + lia.
    + exact Hcfg1.
    + rewrite Hw1. exact Hw.
    + exact Hh1.
    + rewrite Hnum1. apply to_s64_range.
    + rewrite Hlast1. exact Hnow.
    + exact Hnows.
    + exists st'. cbn [run_timer]. rewrite Hq, Hexp. cbn [obind].
      rewrite Hrest. cbn [obind fst snd length].
      split_and!; try assumption.
      * reflexivity.
      * rewrite Hrun', Hrun1. lia.
      * rewrite Hnum', Hnum1. apply to_s64_congr.
        rewrite Z.add_mod, to_s64_mod, <- Z.add_mod by lia. f_equal. lia.
      * rewrite Hw'. exact Hw1.
Qed.

(** The last expiry of a run: [runcount] is 0 and the timer is not
    enqueued again. *)
Lemma run_timer_last now_ns st :
  my_hrtimer st = true -> runcount st = 0 ->
  hist_config_ok st -> to_u32 (abs (hist_bin_width st)) <> 0 ->
  Forall is_u32 (histogram st) -> last_now_ns st <> 0 ->
  exists st',
    run_timer [now_ns] st = Ok (st', 1%nat) /\
    my_hrtimer st' = false /\ runcount st' = 0 /\
    stat_num st' = to_s64 (stat_num st + 1).
Proof.
  intros Hq Hrun Hcfg Hw Hh Hlast.
  destruct (hrtimer_expire_step now_ns st Hq Hcfg Hw Hh)
    as (st1 & Hexp & _ & _ & _ & _ & _ & _ & Hrun1 & Hq1 & Hnum1 & _ & _).
  rewrite Hrun in Hrun1, Hq1. cbn in Hrun1, Hq1.
  destruct (Z.eqb_spec (last_now_ns st) 0) as [|_]; [contradiction|].
  exists st1. cbn [run_timer]. rewrite Hq, Hexp. cbn [obind fst snd].
  split_and!; first [assumption | reflexivity].
Qed.

(** The first expiry after a start with a positive [runcount]: no sample,
    [runcount] goes down by one. *)
Lemma run_timer_first now_ns st :
  0 < runcount st < 2 ^ 31 -> 1 <= hist_bin_num st <= HIST_BIN_MAX ->
  to_u32 (abs (hist_bin_width st)) <> 0 -> now_ns <> 0 ->
  exists st',
    run_timer [now_ns] (start_timer st) = Ok (st', 1%nat) /\
    my_hrtimer st' = true /\ runcount st' = runcount st - 1 /\
    stat_num st' = 0 /\
    hist_config_ok st' /\ hist_bin_width st' = hist_bin_width st /\
    Forall is_u32 (histogram st') /\ last_now_ns st' = now_ns.
Proof.
  intros Hrun Hn Hw Hnow.
  destruct (start_timer_reset st Hn) as (Hcfg & Hw0 & Hh & Hnum & _).
  destruct (hrtimer_expire_step now_ns (start_timer st) eq_refl Hcfg)
    as (st1 & Hexp & Hcfg1 & _ & Hw1 & _ & Hh1 & Hlast1 & Hrun1 & Hq1 & Hnum1 & _ & _).
  { rewrite Hw0. exact Hw. }
  { exact Hh. }
  change (runcount (start_timer st)) with (runcount st) in Hrun1, Hq1.
  change (last_now_ns (start_timer st)) with 0 in Hnum1. cbn in Hnum1.
  destruct (Z.gtb_spec (runcount st) 0) as [_|]; [|lia].
  destruct (Z.eqb_spec (runcount st) 0) as [|_]; [lia|].
  rewrite to_s32_id in Hrun1 by (unfold is_s32; lia).
  exists st1. cbn [run_timer]. change (my_hrtimer (start_timer st)) with true.
  cbn iota. rewrite Hexp. cbn [obind fst snd].
  split_and!; first [assumption | reflexivity].
Qed.

(** A run of [n] > 0: the timer function is called [n + 1] times and
    records [n] samples.  After [n] calls [runcount] is 0 and [n - 1]
    samples are recorded, but the timer is still enqueued. *)
Lemma finite_run_calls (n : Z) (first : Z) (nows : list Z) (last extra : Z) st :
  runcount st = n -> 0 < n < 2 ^ 31 ->
  1 <= hist_bin_num st <= HIST_BIN_MAX ->
  to_u32 (abs (hist_bin_width st)) <> 0 ->
  Z.of_nat (length nows) = n - 1 ->
  first <> 0 -> Forall (fun now_ns => now_ns <> 0) nows ->
  exists s_n s_last,
    run_timer (first :: nows) (start_timer st) = Ok (s_n, Z.to_nat n) /\
    runcount s_n = 0 /\ my_hrtimer s_n = true /\ stat_num s_n = n - 1 /\
    run_timer (first :: nows ++ [last]) (start_timer st)
      = Ok (s_last, Z.to_nat (n + 1)) /\
    runcount s_last = 0 /\ my_hrtimer s_last = false /\ stat_num s_last = n /\
    run_timer (first :: nows ++ [last; extra]) (start_timer st)
      = Ok (s_last, Z.to_nat (n + 1)).
Proof.
  intros Hrun Hn Hbins Hw Hlen Hfirst Hnows.
  destruct (run_timer_first first st) as
    (s1 & Hrun1 & Hq1 & Hc1 & Hnum1 & Hcfg1 & Hw1 & Hh1 & Hlast1);
    [lia | exact Hbins | exact Hw | exact Hfirst |].
  destruct (run_timer_countdown nows s1) as
    (s_n & Hrun_n & Hq_n & Hc_n & Hnum_n & Hcfg_n & Hw_n & Hh_n & Hlast_n);
    [exact Hq1 | lia | exact Hcfg1 | rewrite Hw1; exact Hw | exact Hh1
    | rewrite Hnum1; unfold is_s64; lia | rewrite Hlast1; exact Hfirst
    | exact Hnows |].
  destruct (run_timer_last last s_n) as (s_last & Hrun_l & Hq_l & Hc_l & Hnum_l);
    [exact Hq_n | lia | exact Hcfg_n | rewrite Hw_n, Hw1; exact Hw
    | exact Hh_n | exact Hlast_n |].
  assert (Hsn : stat_num s_n = n - 1).
  { rewrite Hnum_n, Hnum1, Z.add_0_l, Hlen. apply to_s64_id. unfold is_s64. lia. }
  assert (Hsl : stat_num s_last = n).
  { rewrite Hnum_l, Hsn. replace (n - 1 + 1) with n by lia.
    apply to_s64_id. unfold is_s64. lia. }
  assert (Hcalls : forall tail s c,
            run_timer tail s_n = Ok (s, c) ->
            run_timer (first :: nows ++ tail) (start_timer st)
            = Ok (s, (1 + (length nows + c))%nat)).
  { intros tail s c Htail.
    change (first :: nows ++ tail) with ([first] ++ (nows ++ tail)).
    rewrite run_timer_app, Hrun1. cbn [obind fst snd].
    rewrite run_timer_app, Hrun_n. cbn [obind fst snd].
    rewrite Htail. reflexivity. }
  exists s_n, s_last. split_and!; try assumption; try lia.
  - rewrite <- (app_nil_r nows) at 1.
    rewrite (Hcalls [] s_n O eq_refl). do 2 f_equal. lia.
  - rewrite (Hcalls [last] s_last 1%nat Hrun_l). do 2 f_equal. lia.
  - rewrite (Hcalls [last; extra] s_last 1%nat).
    + do 2 f_equal. lia.
    + change [last; extra] with ([last] ++ [extra]).
      rewrite run_timer_app, Hrun_l. cbn [obind fst snd].
      rewrite (run_timer_stopped [extra] s_last Hq_l). reflexivity.
Qed.

(** A decimal count written to [control] while no run is in progress
    starts a run of that count. *)
Lemma store_control_cb_start buf count st n :
  strncmp buf "stop" (Z.to_nat (Z.min 4 count)) <> 0 ->
  strncmp buf "infinite" (Z.to_nat (Z.min 8 count)) <> 0 ->
  kstrtoint buf = Some n -> 0 < n -> runcount st = 0 ->
  store_control_cb buf count st = (start_timer (set_runcount n st), count).
Proof.
  intros Hstop Hinf Hparse Hn Hrun. unfold store_control_cb.
  destruct (Z.eqb_spec (strncmp buf "stop" (Z.to_nat (Z.min 4 count))) 0);
    [contradiction|].
  destruct (Z.eqb_spec (strncmp buf "infinite" (Z.to_nat (Z.min 8 count))) 0);
    [contradiction|].
  rewrite Hrun, Hparse. cbn [Z.eqb negb].
  destruct (Z.leb_spec n 0); [lia | reflexivity].
Qed.

(** ** What holds in every run *)

Lemma kstrtouint_range buf v : kstrtouint buf = Some v -> is_u32 v.
Proof.
  unfold kstrtouint. destruct (kstrtoull buf) as [u|]; [|discriminate].
  destruct (Z.eqb_spec u (to_u32 u)) as [Heq|]; [|discriminate].
  intros [= <-]. rewrite Heq. apply to_u32_range.
Qed.

Lemma kstrtoint_range buf v : kstrtoint buf = Some v -> is_s32 v.
Proof.
  unfold kstrtoint. destruct (kstrtoll buf) as [u|]; [|discriminate].
  destruct (Z.eqb_spec u (to_s32 u)) as [Heq|]; [|discriminate].
  intros [= <-]. rewrite Heq. apply to_s32_range.
Qed.

Lemma invariant_init : invariant lattest_init.
Proof.
  split; try reflexivity.
  - apply Forall_u32_replicate.
  - cbn. lia.
  - cbn. unfold is_s32. lia.
  - cbn. unfold is_s64. lia.
  - cbn. unfold is_s64. lia.
Qed.

Lemma invariant_start st v :
  invariant st -> is_s32 v -> invariant (start_timer (set_runcount v st)).
Proof.
  intros [Hn Hw Hlen Hh Hp Hr Hnum Hsum Htot] Hv.
  split; cbn; try assumption; try reflexivity.
  - apply Forall_u32_replicate.
  - unfold is_s64. lia.
  - unfold is_s64. lia.
Qed.

Lemma invariant_store_period_cb buf count st :
  invariant st -> invariant (fst (store_period_cb buf count st)).
Proof.
  intros Hinv. unfold store_period_cb.
  destruct (negb (runcount st =? 0)); [exact Hinv|].
  destruct (kstrtouint buf) as [v|] eqn:Hparse; [|exact Hinv].
  destruct (Z.gtb_spec v 1000); [exact Hinv|].
  pose proof (kstrtouint_range _ _ Hparse) as [Hv _].
  destruct Hinv as [Hn Hw Hlen Hh Hp Hr Hnum Hsum Htot].
  split; cbn; try assumption. lia.
Qed.

Lemma invariant_store_control_cb buf count st :
  invariant st -> invariant (fst (store_control_cb buf count st)).
Proof.
  intros Hinv. unfold store_control_cb.
  destruct (strncmp buf "stop" _ =? 0).
  { destruct Hinv as [Hn Hw Hlen Hh Hp Hr Hnum Hsum Htot].
    split; cbn; try assumption. unfold is_s32. lia. }
  destruct (strncmp buf "infinite" _ =? 0).
  { destruct (negb (runcount st =? 0)); [exact Hinv|].
    apply invariant_start; [exact Hinv | unfold is_s32; lia]. }
  destruct (negb (runcount st =? 0)); [exact Hinv|].
  destruct (kstrtoint buf) as [v|] eqn:Hparse; [|exact Hinv].
  destruct (v <=? 0); [exact Hinv|].
  apply invariant_start; [exact Hinv | exact (kstrtoint_range _ _ Hparse)].
Qed.

Lemma invariant_store_config_cb buf count st :
  invariant st -> invariant (fst (store_config_cb buf count st)).
Proof.
  intros Hinv. unfold store_config_cb. destruct (negb (runcount st =? 0)); exact Hinv.
Qed.

Lemma invariant_config st :
  invariant st ->
  hist_config_ok st /\ to_u32 (abs (hist_bin_width st)) <> 0.
Proof.
  intros [Hn Hw Hlen Hh Hp Hr Hnum Hsum Htot]. split.
  - split; [rewrite Hn; unfold HIST_BIN_MAX; lia | exact Hlen].
  - rewrite Hw. discriminate.
Qed.

Lemma invariant_hrtimer_expire now_ns st :
  invariant st -> exists st', hrtimer_expire now_ns st = Ok st' /\ invariant st'.
Proof.
  intros Hinv. destruct (my_hrtimer st) eqn:Hq.
  - destruct (invariant_config st Hinv) as [Hcfg Hwok].
    destruct Hinv as [Hn Hw Hlen Hh Hp Hr Hnum Hsum Htot].
    destruct (hrtimer_expire_step now_ns st Hq Hcfg Hwok Hh)
      as (st' & Hexp & [_ Hlen'] & Hn' & Hw' & Hp' & Hh' & _ & Hr' & _ & Hnum' & Htot'
          & Hsum').
    exists st'. split; [exact Hexp|]. split; try congruence.
    + rewrite Hr'. destruct (runcount st >? 0); [apply to_s32_range | exact Hr].
    + rewrite Hnum'. destruct (last_now_ns st =? 0); [exact Hnum | apply to_s64_range].
    + exact (Hsum' Hsum).
    + rewrite Htot', Hnum'. destruct (last_now_ns st =? 0).
      * rewrite Z.add_0_r. exact Htot.
      * unfold to_s64. clear - Htot. wrap_lia.
  - exists st. unfold hrtimer_expire. rewrite Hq. split; [reflexivity | exact Hinv].
Qed.

Lemma invariant_step e st :
  invariant st -> exists st', step e st = Ok st' /\ invariant st'.
Proof.
  intros Hinv. destruct e as [now_ns|buf count|buf count|buf count]; cbn [step].
  - apply invariant_hrtimer_expire, Hinv.
  - eexists. split; [reflexivity | apply invariant_store_period_cb, Hinv].
  - eexists. split; [reflexivity | apply invariant_store_control_cb, Hinv].
  - eexists. split; [reflexivity | apply invariant_store_config_cb, Hinv].
Qed.

(** Whatever is written to the sysfs files and whenever the timer expires,
    the module never divides by zero and never stores outside
    [histogram]; the bins stay the 20 bins of 1000 ns that [lattest_init]
    sets, the period stays at most 1000 ms, and the histogram counters add
    up to [stat_num] modulo 2^32. *)
Lemma invariant_exec events : forall st,
  invariant st -> exists st', exec events st = Ok st' /\ invariant st'.
Proof.
  induction events as [|e events IH]; intros st Hinv; cbn [exec].
  - exists st. split; [reflexivity | exact Hinv].
  - destruct (invariant_step e st Hinv) as (st1 & -> & Hinv1). cbn [obind].
    apply IH, Hinv1.
Qed.

Lemma reachable_invariant events :
  exists st, exec events lattest_init = Ok st /\ invariant st.
Proof. apply invariant_exec, invariant_init. Qed.

(** ** When the variance cannot be negative *)

Lemma sum_of_cons x l : sum_of (x :: l) = x + sum_of l.
Proof. reflexivity. Qed.

Lemma sum_of_squares_cons x l : sum_of_squares (x :: l) = x * x + sum_of_squares l.
Proof. reflexivity. Qed.

Lemma sum_of_squares_nonneg l : 0 <= sum_of_squares l.
Proof.
  induction l as [|x l IH]; [unfold sum_of_squares; cbn; lia|].
  rewrite sum_of_squares_cons. nia.
Qed.

(** The square of a sum of [n] numbers is at most [n] times the sum of
    their squares. *)
Lemma square_of_sum_le l :
  sum_of l * sum_of l <= Z.of_nat (length l) * sum_of_squares l.
Proof.
  induction l as [|x l IH]; [unfold sum_of, sum_of_squares; cbn; lia|].
  rewrite sum_of_cons, sum_of_squares_cons. cbn [length]. rewrite Nat2Z.inj_succ.
  pose proof (sum_of_squares_nonneg l) as Hq.
  set (S := sum_of l) in *. set (Q := sum_of_squares l) in *.
  set (n := Z.of_nat (length l)) in *.
  assert (Hn : 0 <= n) by (subst n; lia).
  assert (Hmix : 2 * S * x <= Q + n * (x * x)).
  { assert (n = 0 \/ 0 < n) as [H0|Hpos] by lia.
    - assert (S = 0) by nia. subst S. nia.
    - assert (Hsq : 0 <= (S - n * x) * (S - n * x)) by apply Z.square_nonneg.
      assert (Hprod : 0 <= n * (Q + n * (x * x) - 2 * S * x)).
      { replace (n * (Q + n * (x * x) - 2 * S * x))
          with ((n * Q - S * S) + (S - n * x) * (S - n * x)) by ring. lia. }
      pose proof (proj1 (Z.mul_nonneg_cancel_l n _ Hpos) Hprod). lia. }
  replace ((x + S) * (x + S)) with (S * S + 2 * S * x + x * x) by ring.
  replace (Z.succ n * (x * x + Q)) with (n * Q + (Q + n * (x * x)) + x * x) by ring.
  lia.
Qed.

Lemma sums_bounded l B :
  Forall (fun x => Z.abs x <= B) l ->
  Z.abs (sum_of l) <= Z.of_nat (length l) * B /\
  sum_of_squares l <= Z.of_nat (length l) * (B * B).
Proof.
  induction 1 as [|x l Hx _ [IH1 IH2]]; [unfold sum_of, sum_of_squares; cbn; lia|].
  rewrite sum_of_cons, sum_of_squares_cons. cbn [length]. rewrite Nat2Z.inj_succ.
  split; [lia|nia].
Qed.

(** [stat_num], [stat_sum] and [stat_sumsq] are the number of samples,
    their sum and the sum of their squares, wrapped to 64 bits. *)
Lemma record_samples_stats jitters : forall st,
  hist_config_ok st -> to_u32 (abs (hist_bin_width st)) <> 0 ->
  is_s64 (stat_num st) -> is_s64 (stat_sum st) -> is_s64 (stat_sumsq st) ->
  exists st',
    record_samples jitters st = Ok st' /\
    hist_config_ok st' /\
    stat_num st' = to_s64 (stat_num st + Z.of_nat (length jitters)) /\
    stat_sum st' = to_s64 (stat_sum st + sum_of jitters) /\
    stat_sumsq st' = to_s64 (stat_sumsq st + sum_of_squares jitters).
Proof.
  induction jitters as [|d jitters IH]; intros st Hcfg Hw Hnum Hsum Hsq.
  - exists st. unfold sum_of, sum_of_squares. cbn [record_samples foldr length Z.of_nat].
    rewrite !Z.add_0_r, (to_s64_id _ Hnum), (to_s64_id _ Hsum), (to_s64_id _ Hsq).
    split_and!; first [reflexivity | exact Hcfg].
  - destruct (hist_bin_of_defined st d Hw) as [i Hbin].
    destruct (record_sample_ok d st i Hcfg Hbin) as (c & Hc & Hrec).
    set (st1 := set_histogram _ _) in Hrec.
    destruct (IH st1) as (st' & Hrun & Hcfg' & Hnum' & Hsum' & Hsq').
    + destruct Hcfg as [Hn Hlen]. split; [exact Hn|].
      subst st1. cbn. rewrite length_insert. exact Hlen.
    + exact Hw.
    + subst st1. cbn. apply to_s64_range.
    + subst st1. cbn. apply to_s64_range.
    + subst st1. cbn. apply to_s64_range.
    + exists st'. cbn [record_samples]. rewrite Hrec. cbn [obind].
      split; [exact Hrun | split; [exact Hcfg' | split; [|split]]].
      * rewrite Hnum'. subst st1. cbn [stat_num set_histogram set_stats length].
        rewrite Nat2Z.inj_succ. apply to_s64_congr. unfold to_s64. wrap_lia.
      * rewrite Hsum'. subst st1. cbn. rewrite sum_of_cons.
        apply to_s64_congr. unfold to_s64. wrap_lia.
      * rewrite Hsq'. subst st1. cbn. rewrite sum_of_squares_cons.
        apply to_s64_congr. unfold to_s64. wrap_lia.
Qed.

(** X7.  As long as the samples of a run are at most [B] >= 1 in
    absolute value and their number times [B] is below 2^31, nothing
    wraps, the reported variance is not negative, and clamping it would
    change nothing. *)
Lemma variance_not_negative jitters B st :
  1 <= hist_bin_num st <= HIST_BIN_MAX ->
  to_u32 (abs (hist_bin_width st)) <> 0 ->
  jitters <> [] -> 1 <= B ->
  Forall (fun x => Z.abs x <= B) jitters ->
  Z.of_nat (length jitters) * B < 2 ^ 31 ->
  exists st' rep,
    record_samples jitters (start_timer st) = Ok st' /\
    show_statistics_cb st' = Ok rep /\
    rep_num rep = Z.of_nat (length jitters) /\
    rep_sum rep = sum_of jitters /\
    rep_sumsq rep = sum_of_squares jitters /\
    0 <= rep_var rep /\
    isqrtu64 (Z.max (rep_var rep) 0) = Some (rep_stddev rep).
Proof.
  intros Hn Hw Hne HB Hall Hbound.
  set (L := Z.of_nat (length jitters)) in *.
  assert (HL : 1 <= L) by (subst L; destruct jitters; [contradiction | cbn [length]; lia]).
  destruct (start_timer_reset st Hn) as (Hcfg & Hw0 & _ & _ & _).
  destruct (record_samples_stats jitters (start_timer st) Hcfg)
    as (st' & Hrun & Hcfg' & Hnum & Hsum & Hsq);
    [rewrite Hw0; exact Hw | cbn; unfold is_s64; lia ..|].
  change (stat_num (start_timer st)) with 0 in Hnum.
  change (stat_sum (start_timer st)) with 0 in Hsum.
  change (stat_sumsq (start_timer st)) with 0 in Hsq.
  rewrite Z.add_0_l in Hnum, Hsum, Hsq. fold L in Hnum.
  destruct (sums_bounded jitters B Hall) as [HS HQ]. fold L in HS, HQ.
  pose proof (sum_of_squares_nonneg jitters) as HQ0.
  pose proof (square_of_sum_le jitters) as HCS. fold L in HCS.
  set (S := sum_of jitters) in *. set (Q := sum_of_squares jitters) in *.
  assert (HLB : L * (B * B) < 2 ^ 62) by nia.
  assert (HSS : 0 <= S * S < 2 ^ 62) by nia.
  rewrite to_s64_id in Hnum by (unfold is_s64; nia).
  rewrite to_s64_id in Hsum by (unfold is_s64; lia).
  rewrite to_s64_id in Hsq by (unfold is_s64; lia).
  destruct (show_statistics_cb_values st' Hcfg')
    as (rep & Hshow & _ & Hvar & Hrange & Hsd);
    [rewrite Hsum; unfold is_s64; lia | rewrite Hnum; nia |].
  assert (Hfields : rep_num rep = L /\ rep_sum rep = S /\ rep_sumsq rep = Q).
  { clear - Hshow Hnum Hsum Hsq. unfold show_statistics_cb in Hshow.
    destruct (if stat_num st' >? 0 then _ else _) as [[[m v] sd]|f];
      cbn [obind] in Hshow; [|discriminate].
    destruct (histogram st' !! O); [|discriminate].
    destruct (histogram_lines _ _ _); cbn [obind] in Hshow; [|discriminate].
    injection Hshow as <-. cbn. auto. }
  destruct Hfields as (Hf1 & Hf2 & Hf3).
  rewrite Hsum, Hsq, Hnum in Hvar.
  rewrite (to_s64_id (S * S)) in Hvar by (unfold is_s64; lia).
  assert (Hq : 0 <= Z.quot (S * S) L <= Q).
  { rewrite Z.quot_div_nonneg by lia. split; [apply Z.div_pos; lia|].
    apply Z.div_le_upper_bound; lia. }
  rewrite (to_s64_id (Q - Z.quot (S * S) L)) in Hvar by (unfold is_s64; lia).
  assert (Hv : 0 <= rep_var rep).
  { rewrite Hvar. apply Z.quot_pos; lia. }
  exists st', rep. split_and!; try assumption.
  rewrite Z.max_l, Hsd by lia.
  rewrite (to_u64_id (rep_var rep)) by (unfold is_u64, is_s64 in *; lia).
  apply isqrtu64_correct. unfold is_u64, is_s64 in *. lia.
Qed.

(** In every state that can be reached with a count from 1 to 2^32 - 1
    the statistics are reported, and the standard deviation is [isqrtu64]
    of the variance read as an unsigned number. *)
Lemma reachable_statistics events :
  exists st,
    exec events lattest_init = Ok st /\
    (0 < stat_num st < 2 ^ 32 ->
     exists rep,
       show_statistics_cb st = Ok rep /\
       isqrtu64 (to_u64 (rep_var rep)) = Some (rep_stddev rep)).
Proof.
  destruct (reachable_invariant events) as (st & Hexec & Hinv).
  exists st. split; [exact Hexec|]. intros Hnum.
  destruct (invariant_config st Hinv) as [Hcfg _].
  destruct (show_statistics_cb_values st Hcfg (inv_stat_sum st Hinv) Hnum)
    as (rep & Hshow & _ & _ & _ & Hsd).
  exists rep. split; [exact Hshow|].
  rewrite Hsd. apply isqrtu64_correct, to_u64_range.
Qed.

(** ** The earlier revision *)

(** In the revision of [src/lattest/lattest.c] the sample does not depend
    on the previous expiry at all: it is always minus the period, which
    for the default 10 ms lands in bin 0.  The revision embedded above
    moved the assignment to [last_now_ns] behind the statistics. *)
Lemma earlier_jitter_is_minus_period period last now_ns :
  0 <= period <= 1000 ->
  Earlier.jitter_of period last now_ns = - (period * 1000000) /\
  Earlier.hist_bin_of (Earlier.jitter_of 10 last now_ns) = 0.
Proof.
  intros Hp. unfold Earlier.jitter_of. cbv zeta.
  rewrite Z.sub_diag. unfold to_ulong.
  rewrite (to_u32_id (period * 1000000)) by (unfold is_u32; lia).
  change (to_s64 0) with 0. split.
  - apply to_s64_id. unfold is_s64. lia.
  - reflexivity.
Qed.

(* ================================================================== *)
(** * Further properties of the code *)

(** ** [isqrtu64] on every input *)

(** X1.  On every 64-bit input [isqrtu64] terminates without wrap-around
    and returns the integer [r] nearest to the square root: [r] is at most
    2^32, [x] lies between [r*r - r] and [r*r + r], and the root of a
    perfect square is exact. *)
Theorem isqrtu64_every_input x :
  is_u64 x ->
  exists r,
    isqrtu64 x = Some r /\ nearest_sqrt x r /\
    0 <= r <= 2 ^ 32 /\ r * r - r <= x <= r * r + r /\
    (forall s, 0 <= s -> x = s * s -> r = s).
Proof.
  intros Hx. exists (round_sqrt x).
  pose proof (round_sqrt_nearest x (proj1 Hx)) as Hnear.
  split; [apply isqrtu64_correct, Hx | split; [exact Hnear | split; [|split]]].
  - apply round_sqrt_bound, Hx.
  - unfold nearest_sqrt in Hnear. rewrite !Z.pow_2_r in Hnear.
    set (r := round_sqrt x) in *. clearbody r. unfold is_u64 in Hx.
    destruct Hnear as (H0 & Hup & [Hz|Hlow]); [subst r; lia | nia].
  - intros s Hs ->. unfold round_sqrt. cbv zeta.
    rewrite Z.sqrt_square by exact Hs.
    destruct (Z.gtb_spec (s * s - s * s) s); [lia | reflexivity].
Qed.

Lemma isqrtu64_every_input_witness :
  is_u64 18446744073709551615 /\
  exists r,
    isqrtu64 18446744073709551615 = Some r /\
    nearest_sqrt 18446744073709551615 r /\ 0 <= r <= 2 ^ 32.
Proof.
  assert (H : is_u64 18446744073709551615) by (unfold is_u64; lia).
  split; [exact H|].
  destruct (isqrtu64_every_input _ H) as (r & Hr & Hnear & Hb & _).
  exists r. split; [exact Hr | split; [exact Hnear | exact Hb]].
Defined.

(** ** [div_ll] with a divisor that fits 32 bits *)

Lemma quot_s64_any n d :
  is_s64 n -> d <> 0 -> n <> LLONG_MIN \/ d <> -1 -> is_s64 (Z.quot n d).
Proof.
  unfold LLONG_MIN. intros Hn Hd Hex.
  assert (0 < d \/ d < 0) as [Hpos|Hneg] by lia.
  - apply quot_s64; assumption.
  - pose proof (quot_s64 n (- d) Hn ltac:(lia)) as Hq.
    rewrite Z.quot_opp_r in Hq by lia. unfold is_s64 in *.
    assert (Z.quot n d <> 2 ^ 63 \/ Z.quot n d = 2 ^ 63) as [|Heq] by lia; [lia|].
    exfalso.
    assert (Habs : Z.abs (Z.quot n d) <= Z.abs n).
    { rewrite <- Z.quot_abs by lia.
      rewrite Z.quot_div_nonneg by lia.
      apply Z.div_le_upper_bound; [lia|]. nia. }
    assert (Hn' : n = - 2 ^ 63) by lia.
    assert (d = -1 \/ d <= -2) as [|Hd2] by lia; [lia|].
    assert (Z.abs (Z.quot n d) <= 2 ^ 62).
    { rewrite <- Z.quot_abs by lia. rewrite Z.quot_div_nonneg by lia.
      apply Z.div_le_upper_bound; [lia|]. rewrite Hn'. nia. }
    lia.
Qed.

(** X2.  For a divisor below 2^32 in absolute value [div_ll] is division
    truncated toward zero, for every sign of dividend and divisor: the
    result is [Z.quot n d], what is left over has the sign of the dividend
    and is smaller than the divisor.  The one quotient that does not fit,
    LLONG_MIN / -1, comes out as LLONG_MIN. *)
Theorem div_ll_small_divisor n d :
  is_s64 n -> 0 < Z.abs d < 2 ^ 32 ->
  (n <> LLONG_MIN \/ d <> -1 ->
   div_ll n d = Ok (Z.quot n d) /\
   n = d * Z.quot n d + Z.rem n d /\
   Z.abs (Z.rem n d) < Z.abs d /\ 0 <= Z.rem n d * n) /\
  div_ll LLONG_MIN (-1) = Ok LLONG_MIN.
Proof.
  intros Hn Hd. split; [|reflexivity]. intros Hex.
  split; [|split; [|split]].
  - rewrite div_ll_quot by assumption. f_equal.
    apply to_s64_id, quot_s64_any; [exact Hn | lia | exact Hex].
  - apply Z.quot_rem'.
  - apply Z.rem_bound_abs. lia.
  - apply Z.rem_sign_mul. lia.
Qed.

Lemma div_ll_small_divisor_witness :
  is_s64 (-7000000001) /\ 0 < Z.abs (-1000) < 2 ^ 32 /\
  div_ll (-7000000001) (-1000) = Ok 7000000 /\
  Z.rem (-7000000001) (-1000) = -1.
Proof.
  assert (Hn : is_s64 (-7000000001)) by (unfold is_s64; lia).
  assert (Hd : 0 < Z.abs (-1000) < 2 ^ 32) by lia.
  assert (Hex : -7000000001 <> LLONG_MIN \/ -1000 <> -1) by (right; discriminate).
  split; [exact Hn | split; [exact Hd | split; [|reflexivity]]].
  exact (proj1 (proj1 (div_ll_small_divisor (-7000000001) (-1000) Hn Hd) Hex)).
Defined.

(** X3.  [div_ll] divides by zero exactly when the low 32 bits of the
    divisor are all zero, whatever the dividend: for the divisor 0, but
    also for 2^32 and for LLONG_MIN.  For every other divisor it returns
    a value. *)
Theorem div_ll_division_by_zero n d :
  is_s64 d ->
  (div_ll n d = Fault DivisionByZero <-> d mod 2 ^ 32 = 0) /\
  (d mod 2 ^ 32 <> 0 -> exists q, div_ll n d = Ok q).
Proof.
  intros Hd.
  assert (Hlow : to_u32 (abs d) = 0 <-> d mod 2 ^ 32 = 0).
  { unfold to_u32, abs, to_s64, is_s64 in *.
    destruct (Z.ltb_spec d 0); split; intros; wrap_lia. }
  split.
  - split.
    + intros Hf. apply Hlow.
      destruct (Z.eq_dec (to_u32 (abs d)) 0) as [|Hne]; [assumption|].
      destruct (div_ll_defined n d Hne) as [q Hq]. congruence.
    + intros Hz. apply Hlow in Hz. unfold div_ll, do_div. cbv zeta.
      rewrite Hz. reflexivity.
  - intros Hnz. apply div_ll_defined. intros Hz. apply Hnz, Hlow, Hz.
Qed.

Lemma div_ll_division_by_zero_witness :
  is_s64 4294967296 /\ 4294967296 mod 2 ^ 32 = 0 /\
  div_ll 123456789 4294967296 = Fault DivisionByZero.
Proof.
  assert (Hd : is_s64 4294967296) by (unfold is_s64; lia).
  split; [exact Hd | split; [reflexivity|]].
  exact (proj2 (proj1 (div_ll_division_by_zero 123456789 _ Hd)) eq_refl).
Defined.

(** ** The bin of a sample and its bounds *)

(** With at most 256 bins of a width below 2^32 the bounds are an
    arithmetic progression. *)
Lemma HIST_BIN_LOW_step st i :
  1 <= hist_bin_num st <= 256 -> 0 < hist_bin_width st < 2 ^ 32 ->
  0 <= i <= 256 ->
  HIST_BIN_LOW st i = HIST_BIN_LOW st 0 + i * hist_bin_width st /\
  - 2 ^ 41 <= HIST_BIN_LOW st 0 <= 2 ^ 41.
Proof.
  intros Hn Hw Hi.
  rewrite (HIST_BIN_LOW_exact st i), (HIST_BIN_LOW_exact st 0) by lia.
  set (w := hist_bin_width st) in *. set (n := hist_bin_num st) in *.
  assert (0 <= w / 2 <= w) by (split; [apply Z.div_pos; lia | apply Z.div_le_upper_bound; lia]).
  assert (0 <= n mod 2 <= 1) by (pose proof (Z.mod_pos_bound n 2); lia).
  assert (0 <= (n + 1) / 2 <= 256) by (split; [apply Z.div_pos; lia | apply Z.div_le_upper_bound; lia]).
  split; [ring | nia].
Qed.

(** X4.  With 1 to 256 bins of a width below 2^32 every sample is counted
    in the bin whose bounds enclose it: for a sample between the lowest
    and the highest bound the bin [i] found satisfies
    [HIST_BIN_LOW(i) <= sample < HIST_BIN_LOW(i+1)]; a sample below the
    lowest bound goes to bin 0 and a sample at or above the highest bound
    to the last bin. *)
Theorem hist_bin_encloses_sample st diff_ns :
  1 <= hist_bin_num st <= 256 -> 0 < hist_bin_width st < 2 ^ 32 ->
  - 2 ^ 62 <= diff_ns < 2 ^ 62 ->
  exists i,
    hist_bin_of st diff_ns = Ok i /\ 0 <= i <= hist_bin_num st - 1 /\
    (HIST_BIN_LOW st 0 <= diff_ns < HIST_BIN_LOW st (hist_bin_num st) ->
     HIST_BIN_LOW st i <= diff_ns < HIST_BIN_LOW st (i + 1)) /\
    (diff_ns < HIST_BIN_LOW st 0 -> i = 0) /\
    (HIST_BIN_LOW st (hist_bin_num st) <= diff_ns -> i = hist_bin_num st - 1).
Proof.
  intros Hn Hw Hd.
  destruct (HIST_BIN_LOW_step st 0 Hn Hw ltac:(lia)) as [_ HL0].
  pose proof (fun i Hi => proj1 (HIST_BIN_LOW_step st i Hn Hw Hi)) as Hstep.
  set (w := hist_bin_width st) in *. set (n := hist_bin_num st) in *.
  set (L0 := HIST_BIN_LOW st 0) in *.
  unfold hist_bin_of. fold w n L0.
  rewrite (to_s64_id (diff_ns - L0)) by (unfold is_s64; lia).
  rewrite div_ll_count by (unfold is_s64; lia). cbn [obind].
  rewrite (to_s64_id (n - 1)) by (unfold is_s64; lia).
  set (q := Z.quot (diff_ns - L0) w).
  assert (Hq : (0 <= diff_ns - L0 -> w * q <= diff_ns - L0 < w * (q + 1) /\ 0 <= q) /\
               (diff_ns - L0 < 0 -> q <= 0)).
  { split; intros Hx; subst q.
    - rewrite Z.quot_div_nonneg by lia.
      pose proof (Z.div_mod (diff_ns - L0) w ltac:(lia)) as Hdm.
      pose proof (Z.mod_pos_bound (diff_ns - L0) w ltac:(lia)) as Hm.
      pose proof (Z.div_pos (diff_ns - L0) w ltac:(lia) ltac:(lia)). nia.
    - replace (diff_ns - L0) with (- (L0 - diff_ns)) by ring.
      rewrite Z.quot_opp_l by lia.
      pose proof (Z.quot_pos (L0 - diff_ns) w ltac:(lia) ltac:(lia)). lia. }
  destruct Hq as [Hpos Hneg].
  eexists. split; [reflexivity|].
  pose proof (Hstep n ltac:(lia)) as HLn.
  assert (diff_ns - L0 < 0 \/ 0 <= diff_ns - L0) as [Hx|Hx] by lia.
  - (* below the lowest bound: the quotient is 0 or negative *)
    specialize (Hneg Hx).
    assert (Hc1 : (if q <? 0 then 0 else q) = 0) by (destruct (Z.ltb_spec q 0); lia).
    rewrite Hc1. destruct (Z.geb_spec 0 n); [lia|].
    split_and!; try lia; intros; nia.
  - destruct (Hpos Hx) as [Hb Hq0].
    assert (Hc1 : (if q <? 0 then 0 else q) = q) by (destruct (Z.ltb_spec q 0); lia).
    rewrite Hc1. destruct (Z.geb_spec q n) as [Hge|Hlt].
    + (* at or above the highest bound *)
      split_and!; try lia; intros; nia.
    + rewrite (Hstep q), (Hstep (q + 1)) by lia.
      split_and!; try lia; intros; nia.
Qed.

Lemma hist_bin_encloses_sample_witness :
  1 <= hist_bin_num lattest_init <= 256 /\
  0 < hist_bin_width lattest_init < 2 ^ 32 /\
  - 2 ^ 62 <= -1 < 2 ^ 62 /\
  exists i,
    hist_bin_of lattest_init (-1) = Ok i /\ 0 <= i <= hist_bin_num lattest_init - 1 /\
    (HIST_BIN_LOW lattest_init 0 <= -1
       < HIST_BIN_LOW lattest_init (hist_bin_num lattest_init) ->
     HIST_BIN_LOW lattest_init i <= -1 < HIST_BIN_LOW lattest_init (i + 1)).
Proof.
  assert (Hn : 1 <= hist_bin_num lattest_init <= 256) by (simpl; lia).
  assert (Hw : 0 < hist_bin_width lattest_init < 2 ^ 32) by (simpl; lia).
  assert (Hd : - 2 ^ 62 <= -1 < 2 ^ 62) by lia.
  split; [exact Hn | split; [exact Hw | split; [exact Hd|]]].
  destruct (hist_bin_encloses_sample lattest_init (-1) Hn Hw Hd)
    as (i & Hbin & Hi & Hin & _).
  exists i. split; [exact Hbin | split; [exact Hi | exact Hin]].
Defined.

(** ** Minimum, maximum and mean of a run *)

Lemma show_statistics_cb_fields st rep :
  show_statistics_cb st = Ok rep ->
  rep_min rep = stat_min st /\ rep_max rep = stat_max st /\
  rep_num rep = stat_num st /\ rep_sum rep = stat_sum st /\
  rep_sumsq rep = stat_sumsq st.
Proof.
  unfold show_statistics_cb. intros Hshow.
  destruct (if stat_num st >? 0 then _ else _) as [[[m v] sd]|f];
    cbn [obind] in Hshow; [|discriminate].
  destruct (histogram st !! O); [|discriminate].
  destruct (histogram_lines _ _ _); cbn [obind] in Hshow; [|discriminate].
  injection Hshow as <-. cbn. auto.
Qed.

(** [stat_min] and [stat_max] are running minimum and maximum. *)
Lemma record_samples_minmax jitters : forall st,
  hist_config_ok st -> to_u32 (abs (hist_bin_width st)) <> 0 ->
  exists st',
    record_samples jitters st = Ok st' /\
    stat_min st' = fold_left Z.min jitters (stat_min st) /\
    stat_max st' = fold_left Z.max jitters (stat_max st).
Proof.
  induction jitters as [|d jitters IH]; intros st Hcfg Hw.
  - exists st. repeat split.
  - destruct (hist_bin_of_defined st d Hw) as [i Hbin].
    destruct (record_sample_ok d st i Hcfg Hbin) as (c & Hc & Hrec).
    set (st1 := set_histogram _ _) in Hrec.
    destruct (IH st1) as (st' & Hrun & Hmin & Hmax).
    + destruct Hcfg as [Hn Hlen]. split; [exact Hn|].
      subst st1. cbn. rewrite length_insert. exact Hlen.
    + exact Hw.
    + exists st'. cbn [record_samples fold_left]. rewrite Hrec. cbn [obind].
      split; [exact Hrun | split].
      * rewrite Hmin. subst st1. cbn. f_equal.
        destruct (Z.ltb_spec d (stat_min st)); lia.
      * rewrite Hmax. subst st1. cbn. f_equal.
        destruct (Z.gtb_spec d (stat_max st)); lia.
Qed.

Lemma fold_min_spec l : forall a,
  fold_left Z.min l a <= a /\
  Forall (fun x => fold_left Z.min l a <= x) l /\
  (fold_left Z.min l a = a \/ In (fold_left Z.min l a) l).
Proof.
  induction l as [|x l IH]; intros a; cbn [fold_left].
  - split; [lia | split; [constructor | left; reflexivity]].
  - destruct (IH (Z.min a x)) as (Hle & Hall & Hin).
    split; [lia | split; [constructor; [lia | exact Hall]|]].
    destruct Hin as [Heq|Hin]; [|right; right; exact Hin].
    rewrite Heq. destruct (Z.min_spec a x) as [[_ Hm]|[_ Hm]].
    + left. exact Hm.
    + right. left. symmetry. exact Hm.
Qed.

Lemma fold_max_spec l : forall a,
  a <= fold_left Z.max l a /\
  Forall (fun x => x <= fold_left Z.max l a) l /\
  (fold_left Z.max l a = a \/ In (fold_left Z.max l a) l).
Proof.
  induction l as [|x l IH]; intros a; cbn [fold_left].
  - split; [lia | split; [constructor | left; reflexivity]].
  - destruct (IH (Z.max a x)) as (Hle & Hall & Hin).
    split; [lia | split; [constructor; [lia | exact Hall]|]].
    destruct Hin as [Heq|Hin]; [|right; right; exact Hin].
    rewrite Heq. destruct (Z.max_spec a x) as [[_ Hm]|[_ Hm]].
    + right. left. symmetry. exact Hm.
    + left. exact Hm.
Qed.

(** X5.  After a start and at least one sample, [stat_min] is the
    smallest and [stat_max] the largest of the samples recorded: each is
    one of the samples and bounds all of them.  Before the first sample
    they hold the sentinels LLONG_MAX and LLONG_MIN. *)
Theorem stat_min_max_of_run jitters st :
  1 <= hist_bin_num st <= HIST_BIN_MAX ->
  to_u32 (abs (hist_bin_width st)) <> 0 ->
  jitters <> [] -> Forall is_s64 jitters ->
  (exists st',
     record_samples jitters (start_timer st) = Ok st' /\
     In (stat_min st') jitters /\ Forall (fun x => stat_min st' <= x) jitters /\
     In (stat_max st') jitters /\ Forall (fun x => x <= stat_max st') jitters /\
     stat_min st' <= stat_max st') /\
  stat_min (start_timer st) = LLONG_MAX /\ stat_max (start_timer st) = LLONG_MIN.
Proof.
  intros Hn Hw Hne Hall. split; [|split; reflexivity].
  destruct (start_timer_reset st Hn) as (Hcfg & Hw0 & _).
  destruct (record_samples_minmax jitters (start_timer st) Hcfg)
    as (st' & Hrun & Hmin & Hmax); [rewrite Hw0; exact Hw|].
  change (stat_min (start_timer st)) with LLONG_MAX in Hmin.
  change (stat_max (start_timer st)) with LLONG_MIN in Hmax.
  destruct (fold_min_spec jitters LLONG_MAX) as (_ & Hminall & Hminin).
  destruct (fold_max_spec jitters LLONG_MIN) as (_ & Hmaxall & Hmaxin).
  rewrite <- Hmin in Hminall, Hminin. rewrite <- Hmax in Hmaxall, Hmaxin.
  destruct jitters as [|x l]; [contradiction|].
  pose proof (Forall_inv Hall) as Hx. pose proof (Forall_inv Hminall) as Hx1.
  pose proof (Forall_inv Hmaxall) as Hx2. cbn beta in Hx1, Hx2.
  unfold is_s64 in Hx. unfold LLONG_MAX in Hminin. unfold LLONG_MIN in Hmaxin.
  exists st'. split_and!; try assumption.
  - destruct Hminin as [Heq|Hin]; [|exact Hin]. left. lia.
  - destruct Hmaxin as [Heq|Hin]; [|exact Hin]. left. lia.
  - lia.
Qed.

Lemma stat_min_max_of_run_witness :
  1 <= hist_bin_num lattest_init <= HIST_BIN_MAX /\
  to_u32 (abs (hist_bin_width lattest_init)) <> 0 /\
  [0; 300000; -25000] <> [] /\ Forall is_s64 [0; 300000; -25000] /\
  exists st',
    record_samples [0; 300000; -25000] (start_timer lattest_init) = Ok st' /\
    In (stat_min st') [0; 300000; -25000] /\
    Forall (fun x => stat_min st' <= x) [0; 300000; -25000].
Proof.
  assert (Hn : 1 <= hist_bin_num lattest_init <= HIST_BIN_MAX)
    by (unfold HIST_BIN_MAX; simpl; lia).
  assert (Hw : to_u32 (abs (hist_bin_width lattest_init)) <> 0) by discriminate.
  assert (Hne : [0; 300000; -25000] <> []) by discriminate.
  assert (Hall : Forall is_s64 [0; 300000; -25000])
    by (repeat constructor; unfold is_s64; lia).
  split; [exact Hn | split; [exact Hw | split; [exact Hne | split; [exact Hall|]]]].
  destruct (proj1 (stat_min_max_of_run _ lattest_init Hn Hw Hne Hall))
    as (st' & Hrun & Hin & Hle & _).
  exists st'. split; [exact Hrun | split; [exact Hin | exact Hle]].
Defined.

Lemma sum_of_between l m M :
  Forall (fun x => m <= x) l -> Forall (fun x => x <= M) l ->
  Z.of_nat (length l) * m <= sum_of l <= Z.of_nat (length l) * M.
Proof.
  induction l as [|x l IH]; intros Hm HM; [unfold sum_of; cbn; lia|].
  apply Forall_cons in Hm as [Hx1 Hm]. apply Forall_cons in HM as [Hx2 HM].
  specialize (IH Hm HM). rewrite sum_of_cons. cbn [length].
  rewrite Nat2Z.inj_succ. lia.
Qed.

(** X6.  As long as the samples of a run are at most [B] >= 1 in absolute
    value and their number times [B] is below 2^31, the mean that
    [show_statistics_cb] reports is the sum of the samples divided by
    their number, truncated toward zero, and it lies between the reported
    minimum and maximum. *)
Theorem mean_between_min_and_max jitters B st :
  1 <= hist_bin_num st <= HIST_BIN_MAX ->
  to_u32 (abs (hist_bin_width st)) <> 0 ->
  jitters <> [] -> 1 <= B ->
  Forall (fun x => Z.abs x <= B) jitters ->
  Z.of_nat (length jitters) * B < 2 ^ 31 ->
  exists st' rep,
    record_samples jitters (start_timer st) = Ok st' /\
    show_statistics_cb st' = Ok rep /\
    rep_sum rep = sum_of jitters /\
    rep_mean rep = Z.quot (sum_of jitters) (Z.of_nat (length jitters)) /\
    rep_min rep <= rep_mean rep <= rep_max rep.
Proof.
  intros Hn Hw Hne HB Hall Hbound.
  set (L := Z.of_nat (length jitters)) in *.
  assert (HL : 1 <= L) by (subst L; destruct jitters; [contradiction | cbn [length]; lia]).
  destruct (start_timer_reset st Hn) as (Hcfg & Hw0 & _ & _ & _).
  assert (Hw1 : to_u32 (abs (hist_bin_width (start_timer st))) <> 0)
    by (rewrite Hw0; exact Hw).
  destruct (record_samples_stats jitters (start_timer st) Hcfg Hw1)
    as (st' & Hrun & Hcfg' & Hnum & Hsum & _);
    [cbn; unfold is_s64; lia ..|].
  destruct (record_samples_minmax jitters (start_timer st) Hcfg Hw1)
    as (st'' & Hrun' & Hmin & Hmax).
  rewrite Hrun in Hrun'. injection Hrun' as <-.
  change (stat_num (start_timer st)) with 0 in Hnum.
  change (stat_sum (start_timer st)) with 0 in Hsum.
  change (stat_min (start_timer st)) with LLONG_MAX in Hmin.
  change (stat_max (start_timer st)) with LLONG_MIN in Hmax.
  rewrite Z.add_0_l in Hnum, Hsum. fold L in Hnum.
  destruct (sums_bounded jitters B Hall) as [HS _]. fold L in HS.
  destruct (fold_min_spec jitters LLONG_MAX) as (_ & Hminall & _).
  destruct (fold_max_spec jitters LLONG_MIN) as (_ & Hmaxall & _).
  rewrite <- Hmin in Hminall. rewrite <- Hmax in Hmaxall.
  pose proof (sum_of_between jitters _ _ Hminall Hmaxall) as Hbetween.
  fold L in Hbetween.
  set (S := sum_of jitters) in *.
  rewrite to_s64_id in Hnum by (unfold is_s64; nia).
  rewrite to_s64_id in Hsum by (unfold is_s64; lia).
  destruct (show_statistics_cb_values st' Hcfg')
    as (rep & Hshow & Hmean & _);
    [rewrite Hsum; unfold is_s64; lia | rewrite Hnum; nia |].
  destruct (show_statistics_cb_fields st' rep Hshow) as (Hf1 & Hf2 & _ & Hf4 & _).
  rewrite Hsum, Hnum in Hmean.
  exists st', rep. split_and!; try assumption; try congruence.
  - rewrite Hf1, Hmean.
    pose proof (Z.quot_rem' S L) as Hqr.
    pose proof (Z.rem_bound_abs S L ltac:(lia)) as Hr. nia.
  - rewrite Hf2, Hmean.
    pose proof (Z.quot_rem' S L) as Hqr.
    pose proof (Z.rem_bound_abs S L ltac:(lia)) as Hr. nia.
Qed.

Lemma mean_between_min_and_max_witness :
  1 <= hist_bin_num lattest_init <= HIST_BIN_MAX /\
  to_u32 (abs (hist_bin_width lattest_init)) <> 0 /\
  [0; 300000; -25000] <> [] /\ 1 <= 300000 /\
  Forall (fun x => Z.abs x <= 300000) [0; 300000; -25000] /\
  Z.of_nat (length [0; 300000; -25000]) * 300000 < 2 ^ 31 /\
  exists st' rep,
    record_samples [0; 300000; -25000] (start_timer lattest_init) = Ok st' /\
    show_statistics_cb st' = Ok rep /\
    rep_min rep <= rep_mean rep <= rep_max rep.
Proof.
  assert (Hn : 1 <= hist_bin_num lattest_init <= HIST_BIN_MAX)
    by (unfold HIST_BIN_MAX; simpl; lia).
  assert (Hw : to_u32 (abs (hist_bin_width lattest_init)) <> 0) by discriminate.
  assert (Hne : [0; 300000; -25000] <> []) by discriminate.
  assert (HB : 1 <= 300000) by lia.
  assert (Hall : Forall (fun x => Z.abs x <= 300000) [0; 300000; -25000])
    by (repeat constructor; lia).
  assert (Hb : Z.of_nat (length [0; 300000; -25000]) * 300000 < 2 ^ 31)
    by (cbn [length]; lia).
  split_and!; try assumption.
  destruct (mean_between_min_and_max _ 300000 lattest_init Hn Hw Hne HB Hall Hb)
    as (st' & rep & Hrun & Hshow & _ & _ & Hm).
  exists st', rep. split; [exact Hrun | split; [exact Hshow | exact Hm]].
Defined.

Lemma variance_not_negative_witness :
  1 <= hist_bin_num lattest_init <= HIST_BIN_MAX /\
  to_u32 (abs (hist_bin_width lattest_init)) <> 0 /\
  [0; 300000; -25000] <> [] /\ 1 <= 300000 /\
  Forall (fun x => Z.abs x <= 300000) [0; 300000; -25000] /\
  Z.of_nat (length [0; 300000; -25000]) * 300000 < 2 ^ 31 /\
  exists st' rep,
    record_samples [0; 300000; -25000] (start_timer lattest_init) = Ok st' /\
    show_statistics_cb st' = Ok rep /\
    0 <= rep_var rep /\
    isqrtu64 (Z.max (rep_var rep) 0) = Some (rep_stddev rep).
Proof.
  assert (Hn : 1 <= hist_bin_num lattest_init <= HIST_BIN_MAX)
    by (unfold HIST_BIN_MAX; simpl; lia).
  assert (Hw : to_u32 (abs (hist_bin_width lattest_init)) <> 0) by discriminate.
  assert (Hne : [0; 300000; -25000] <> []) by discriminate.
  assert (HB : 1 <= 300000) by lia.
  assert (Hall : Forall (fun x => Z.abs x <= 300000) [0; 300000; -25000])
    by (repeat constructor; lia).
  assert (Hb : Z.of_nat (length [0; 300000; -25000]) * 300000 < 2 ^ 31)
    by (cbn [length]; lia).
  split_and!; try assumption.
  destruct (variance_not_negative _ 300000 lattest_init Hn Hw Hne HB Hall Hb)
    as (st' & rep & Hrun & Hshow & _ & _ & _ & Hv & Hsd).
  exists st', rep. split_and!; assumption.
Defined.

(** ** The module as a whole *)

(** X8.  Whatever is written to the sysfs files, in whatever order, and
    whenever the timer expires in between, nothing in the module goes
    wrong: no call divides by zero or stores outside [histogram].  In the
    state reached the bins are still the 20 bins of 1000 ns set at
    initialization (nothing can change them), the period is at most
    1000 ms, and the histogram counters add up to [stat_num] modulo
    2^32. *)
Theorem module_never_faults events :
  exists st,
    exec events lattest_init = Ok st /\
    hist_bin_num st = 20 /\ hist_bin_width st = 1000 /\
    0 <= period_ms st <= 1000 /\
    length (histogram st) = 256%nat /\
    hist_total (histogram st) mod 2 ^ 32 = stat_num st mod 2 ^ 32.
Proof.
  destruct (invariant_exec events lattest_init invariant_init) as (st & Hexec & Hinv).
  exists st. destruct Hinv as [Hn Hw Hlen Hh Hp Hr Hnum Hsum Htot].
  split_and!; try assumption; lia.
Qed.

(** ** Runs started through [control] *)

(** X9.  A decimal count [n] > 0 written to [control] while no run is in
    progress starts a run in which the timer function is called [n + 1]
    times: after [n] calls [runcount] is 0 and [n - 1] samples are
    recorded, but the timer is still enqueued; call [n + 1] records
    sample [n] and is the one that stops the timer, and no later expiry
    happens. *)
Theorem finite_run_from_control buf count n first nows last extra st :
  invariant st -> runcount st = 0 ->
  strncmp buf "stop" (Z.to_nat (Z.min 4 count)) <> 0 ->
  strncmp buf "infinite" (Z.to_nat (Z.min 8 count)) <> 0 ->
  kstrtoint buf = Some n -> 0 < n ->
  Z.of_nat (length nows) = n - 1 ->
  first <> 0 -> Forall (fun now_ns => now_ns <> 0) nows ->
  exists st1 s_n s_last,
    store_control_cb buf count st = (st1, count) /\
    runcount st1 = n /\ my_hrtimer st1 = true /\
    run_timer (first :: nows) st1 = Ok (s_n, Z.to_nat n) /\
    runcount s_n = 0 /\ my_hrtimer s_n = true /\ stat_num s_n = n - 1 /\
    run_timer (first :: nows ++ [last]) st1 = Ok (s_last, Z.to_nat (n + 1)) /\
    runcount s_last = 0 /\ my_hrtimer s_last = false /\ stat_num s_last = n /\
    run_timer (first :: nows ++ [last; extra]) st1 = Ok (s_last, Z.to_nat (n + 1)).
Proof.
  intros Hinv Hrun Hstop Hinf Hparse Hn Hlen Hfirst Hnows.
  pose proof (kstrtoint_range _ _ Hparse) as Hrange. unfold is_s32 in Hrange.
  destruct (invariant_config st Hinv) as [[Hbins _] Hw].
  destruct (finite_run_calls n first nows last extra (set_runcount n st))
    as (s_n & s_last & H1 & H2 & H3 & H4 & H5 & H6 & H7 & H8 & H9);
    try assumption; try reflexivity; try lia.
  exists (start_timer (set_runcount n st)), s_n, s_last.
  split; [apply store_control_cb_start; assumption|].
  split_and!; try assumption; reflexivity.
Qed.

Lemma finite_run_from_control_witness :
  invariant lattest_init /\ runcount lattest_init = 0 /\
  strncmp "3" "stop" (Z.to_nat (Z.min 4 1)) <> 0 /\
  strncmp "3" "infinite" (Z.to_nat (Z.min 8 1)) <> 0 /\
  kstrtoint "3" = Some 3 /\ 0 < 3 /\
  Z.of_nat (length [5010000000; 5020000000]) = 3 - 1 /\
  5000000000 <> 0 /\
  Forall (fun now_ns => now_ns <> 0) [5010000000; 5020000000] /\
  exists st1 s_n s_last,
    store_control_cb "3" 1 lattest_init = (st1, 1) /\
    run_timer [5000000000; 5010000000; 5020000000] st1 = Ok (s_n, 3%nat) /\
    my_hrtimer s_n = true /\ stat_num s_n = 3 - 1 /\
    run_timer [5000000000; 5010000000; 5020000000; 5030000000] st1
      = Ok (s_last, 4%nat) /\
    my_hrtimer s_last = false /\ stat_num s_last = 3.
Proof.
  assert (H1 : invariant lattest_init) by exact invariant_init.
  assert (H2 : runcount lattest_init = 0) by reflexivity.
  assert (H3 : strncmp "3" "stop" (Z.to_nat (Z.min 4 1)) <> 0) by discriminate.
  assert (H4 : strncmp "3" "infinite" (Z.to_nat (Z.min 8 1)) <> 0) by discriminate.
  assert (H5 : kstrtoint "3" = Some 3) by reflexivity.
  assert (H6 : 0 < 3) by lia.
  assert (H7 : Z.of_nat (length [5010000000; 5020000000]) = 3 - 1) by reflexivity.
  assert (H8 : 5000000000 <> 0) by discriminate.
  assert (H9 : Forall (fun now_ns => now_ns <> 0) [5010000000; 5020000000])
    by (repeat constructor; discriminate).
  split_and!; try assumption.
  destruct (finite_run_from_control "3" 1 3 5000000000 [5010000000; 5020000000]
              5030000000 5040000000 lattest_init H1 H2 H3 H4 H5 H6 H7 H8 H9)
    as (st1 & s_n & s_last & Hc & _ & _ & Hn & _ & Hq & Hnum & Hl & _ & Hql & Hnuml & _).
  exists st1, s_n, s_last. split_and!; assumption.
Defined.

(** With a negative [runcount] every expiry restarts the timer and
    [runcount] stays as it is. *)
Lemma run_timer_unbounded (nows : list Z) : forall st,
  my_hrtimer st = true -> runcount st < 0 ->
  hist_config_ok st -> to_u32 (abs (hist_bin_width st)) <> 0 ->
  Forall is_u32 (histogram st) -> is_s64 (stat_num st) ->
  last_now_ns st <> 0 -> Forall (fun now_ns => now_ns <> 0) nows ->
  exists st',
    run_timer nows st = Ok (st', length nows) /\
    my_hrtimer st' = true /\
    runcount st' = runcount st /\
    stat_num st' = to_s64 (stat_num st + Z.of_nat (length nows)) /\
    hist_config_ok st' /\ hist_bin_width st' = hist_bin_width st /\
    Forall is_u32 (histogram st') /\ last_now_ns st' <> 0.
Proof.
  induction nows as [|now_ns nows IH];
    intros st Hq Hrun Hcfg Hw Hh Hnum Hlast Hnows.
  - exists st. cbn [run_timer length Z.of_nat].
    rewrite Z.add_0_r, (to_s64_id _ Hnum).
    split_and!; try assumption; reflexivity.
  - apply Forall_cons in Hnows as [Hnow Hnows].
    destruct (hrtimer_expire_step now_ns st Hq Hcfg Hw Hh)
      as (st1 & Hexp & Hcfg1 & _ & Hw1 & _ & Hh1 & Hlast1 & Hrun1 & Hq1 & Hnum1 & _ & _).
    destruct (Z.gtb_spec (runcount st) 0) as [|_]; [lia|].
    destruct (Z.eqb_spec (runcount st) 0) as [|_]; [lia|].
    destruct (Z.eqb_spec (last_now_ns st) 0) as [|_]; [contradiction|].
    destruct (IH st1) as (st' & Hrest & Hq' & Hrun' & Hnum' & Hcfg' & Hw' & Hh' & Hlast').
    + exact Hq1.
    + lia.
    + exact Hcfg1.
    + rewrite Hw1. exact Hw.
    + exact Hh1.
    + rewrite Hnum1. apply to_s64_range.
    + rewrite Hlast1. exact Hnow.
    + exact Hnows.
    + exists st'. cbn [run_timer]. rewrite Hq, Hexp. cbn [obind].
      rewrite Hrest. cbn [obind fst snd length].
      split_and!; try assumption.
      * reflexivity.
      * rewrite Hrun', Hrun1. reflexivity.
      * rewrite Hnum', Hnum1. apply to_s64_congr.
        rewrite Z.add_mod, to_s64_mod, <- Z.add_mod by lia. f_equal. lia.
      * rewrite Hw'. exact Hw1.
Qed.

(** X10.  "infinite" written to [control] while no run is in progress
    starts a run that does not end by itself: however many times the
    timer expires, it is enqueued again, [runcount] stays -1, the status
    stays "running", and [k] expiries record [k - 1] samples (the first
    call of a run only takes the time). *)
Theorem infinite_run_never_stops buf count first nows st :
  invariant st -> runcount st = 0 ->
  strncmp buf "stop" (Z.to_nat (Z.min 4 count)) <> 0 ->
  strncmp buf "infinite" (Z.to_nat (Z.min 8 count)) = 0 ->
  first <> 0 -> Forall (fun now_ns => now_ns <> 0) nows ->
  exists st1 s_k,
    store_control_cb buf count st = (st1, count) /\
    runcount st1 = -1 /\ my_hrtimer st1 = true /\ stat_num st1 = 0 /\
    run_timer (first :: nows) st1 = Ok (s_k, S (length nows)) /\
    my_hrtimer s_k = true /\ runcount s_k = -1 /\
    show_status_cb s_k = "running"%string /\
    stat_num s_k = to_s64 (Z.of_nat (length nows)).
Proof.
  intros Hinv Hrun Hstop Hinf Hfirst Hnows.
  destruct (invariant_config st Hinv) as [[Hbins _] Hw].
  set (st0 := set_runcount (-1) st).
  assert (Hctl : store_control_cb buf count st = (start_timer st0, count)).
  { unfold store_control_cb.
    destruct (Z.eqb_spec (strncmp buf "stop" (Z.to_nat (Z.min 4 count))) 0);
      [contradiction|].
    rewrite Hinf, Hrun. reflexivity. }
  destruct (start_timer_reset st0 Hbins) as (Hcfg & Hw0 & Hh & Hnum & _).
  destruct (hrtimer_expire_step first (start_timer st0) eq_refl Hcfg)
    as (s1 & Hexp & Hcfg1 & _ & Hw1 & _ & Hh1 & Hlast1 & Hrun1 & Hq1 & Hnum1 & _ & _).
  { rewrite Hw0. exact Hw. }
  { exact Hh. }
  change (runcount (start_timer st0)) with (-1) in Hrun1, Hq1.
  change (last_now_ns (start_timer st0)) with 0 in Hnum1.
  cbn in Hrun1, Hq1, Hnum1.
  destruct (run_timer_unbounded nows s1)
    as (s_k & Hrest & Hq_k & Hrun_k & Hnum_k & _); try assumption.
  { lia. }
  { rewrite Hw1, Hw0. exact Hw. }
  { rewrite Hnum1. unfold is_s64. lia. }
  { rewrite Hlast1. exact Hfirst. }
  exists (start_timer st0), s_k. split; [exact Hctl|].
  split_and!; try reflexivity; try assumption.
  - cbn [run_timer]. change (my_hrtimer (start_timer st0)) with true. cbn iota.
    rewrite Hexp. cbn [obind]. rewrite Hrest. reflexivity.
  - lia.
  - unfold show_status_cb. rewrite Hrun_k, Hrun1. reflexivity.
  - rewrite Hnum_k, Hnum1. reflexivity.
Qed.

Lemma infinite_run_never_stops_witness :
  invariant lattest_init /\ runcount lattest_init = 0 /\
  strncmp "infinite" "stop" (Z.to_nat (Z.min 4 8)) <> 0 /\
  strncmp "infinite" "infinite" (Z.to_nat (Z.min 8 8)) = 0 /\
  5000000000 <> 0 /\
  Forall (fun now_ns => now_ns <> 0) [5010000000; 5020000000] /\
  exists st1 s_k,
    store_control_cb "infinite" 8 lattest_init = (st1, 8) /\
    run_timer [5000000000; 5010000000; 5020000000] st1 = Ok (s_k, 3%nat) /\
    my_hrtimer s_k = true /\ runcount s_k = -1 /\ stat_num s_k = 2.
Proof.
  assert (H1 : invariant lattest_init) by exact invariant_init.
  assert (H2 : runcount lattest_init = 0) by reflexivity.
  assert (H3 : strncmp "infinite" "stop" (Z.to_nat (Z.min 4 8)) <> 0) by discriminate.
  assert (H4 : strncmp "infinite" "infinite" (Z.to_nat (Z.min 8 8)) = 0) by reflexivity.
  assert (H5 : 5000000000 <> 0) by discriminate.
  assert (H6 : Forall (fun now_ns => now_ns <> 0) [5010000000; 5020000000])
    by (repeat constructor; discriminate).
  split_and!; try assumption.
  destruct (infinite_run_never_stops "infinite" 8 5000000000
              [5010000000; 5020000000] lattest_init H1 H2 H3 H4 H5 H6)
    as (st1 & s_k & Hc & _ & _ & _ & Hr & Hq & Hrun & _ & Hnum).
  exists st1, s_k. split_and!; assumption.
Defined.

(** X11.  A stop request only sets [runcount] to 0; the timer is not
    cancelled.  The status reads "stopped" at once, yet the timer is
    still enqueued: its next expiry calls the timer function once more,
    which records one more sample, and only then is the timer not
    enqueued again.  Expiries after that one do not happen. *)
Theorem stop_is_deferred buf count now_ns later st :
  strncmp buf "stop" (Z.to_nat (Z.min 4 count)) = 0 ->
  my_hrtimer st = true ->
  hist_config_ok st -> to_u32 (abs (hist_bin_width st)) <> 0 ->
  Forall is_u32 (histogram st) -> last_now_ns st <> 0 ->
  exists st1 st2,
    store_control_cb buf count st = (st1, count) /\
    runcount st1 = 0 /\ show_status_cb st1 = "stopped"%string /\
    my_hrtimer st1 = true /\ stat_num st1 = stat_num st /\
    run_timer (now_ns :: later) st1 = Ok (st2, 1%nat) /\
    my_hrtimer st2 = false /\ runcount st2 = 0 /\
    stat_num st2 = to_s64 (stat_num st + 1).
Proof.
  intros Hstop Hq Hcfg Hw Hh Hlast.
  destruct (run_timer_last now_ns (set_runcount 0 st))
    as (st2 & Hone & Hq2 & Hrun2 & Hnum2); try assumption; try reflexivity.
  exists (set_runcount 0 st), st2.
  split; [unfold store_control_cb; rewrite Hstop; reflexivity|].
  split_and!; try reflexivity; try assumption.
  change (now_ns :: later) with ([now_ns] ++ later).
  rewrite run_timer_app, Hone. cbn [obind fst snd].
  rewrite (run_timer_stopped later st2 Hq2). reflexivity.
Qed.

Lemma stop_is_deferred_witness :
  strncmp "stop" "stop" (Z.to_nat (Z.min 4 4)) = 0 /\
  my_hrtimer st_two_samples = true /\
  hist_config_ok st_two_samples /\
  to_u32 (abs (hist_bin_width st_two_samples)) <> 0 /\
  Forall is_u32 (histogram st_two_samples) /\ last_now_ns st_two_samples <> 0 /\
  exists st1 st2,
    store_control_cb "stop" 4 st_two_samples = (st1, 4) /\
    show_status_cb st1 = "stopped"%string /\ my_hrtimer st1 = true /\
    run_timer [5030000000; 5040000000] st1 = Ok (st2, 1%nat) /\
    my_hrtimer st2 = false /\
    stat_num st2 = to_s64 (stat_num st_two_samples + 1).
Proof.
  assert (H1 : strncmp "stop" "stop" (Z.to_nat (Z.min 4 4)) = 0) by reflexivity.
  assert (H2 : my_hrtimer st_two_samples = true) by reflexivity.
  assert (H3 : hist_config_ok st_two_samples)
    by (split; [vm_compute; split; discriminate | reflexivity]).
  assert (H4 : to_u32 (abs (hist_bin_width st_two_samples)) <> 0) by discriminate.
  assert (H5 : Forall is_u32 (histogram st_two_samples)).
  { unfold st_two_samples. cbn [histogram].
    repeat (constructor; [unfold is_u32; lia|]). constructor. }
  assert (H6 : last_now_ns st_two_samples <> 0) by discriminate.
  split_and!; try assumption.
  destruct (stop_is_deferred "stop" 4 5030000000 [5040000000] st_two_samples
              H1 H2 H3 H4 H5 H6)
    as (st1 & st2 & Hc & _ & Hs & Hq1 & _ & Hr & Hq2 & _ & Hnum).
  exists st1, st2. split_and!; assumption.
Defined.

(** ** The words of [control] *)

Lemma uchar_inj c1 c2 : uchar c1 = uchar c2 -> c1 = c2.
Proof.
  unfold uchar. intros H. apply N2Z.inj in H.
  rewrite <- (ascii_N_embedding c1), <- (ascii_N_embedding c2), H. reflexivity.
Qed.

(** [strncmp] returns 0 exactly when the two strings agree on their first
    [count] characters (or are equal, if shorter). *)
Lemma strncmp_zero (count : nat) : forall cs ct,
  strncmp cs ct count = 0 <-> substring 0 count cs = substring 0 count ct.
Proof.
  induction count as [|count IH]; intros cs ct.
  - destruct cs, ct; cbn; split; reflexivity.
  - destruct cs as [|c1 cs], ct as [|c2 ct]; cbn [strncmp substring].
    + split; reflexivity.
    + split; discriminate.
    + split; discriminate.
    + destruct (Z.eqb_spec (uchar c1) (uchar c2)) as [Heq|Hne].
      * apply uchar_inj in Heq. subst c2. rewrite IH. split.
        -- intros ->. reflexivity.
        -- intros H. injection H as H. exact H.
      * split.
        -- destruct (uchar c1 <? uchar c2); discriminate.
        -- intros H. injection H as -> _. contradiction.
Qed.

(** X12.  While a run is in progress the only write to [control] that is
    accepted is a stop request, and "stop" is matched on the first
    [min(4, count)] characters only: the write is a stop request exactly
    when those characters are the first characters of "stop".  So "stop"
    followed by anything, but also "sto", "st", "s" and the empty write
    stop the run.  Every other write, "infinite" and numbers included, is
    refused with [-EINVAL] and changes nothing.  The empty write is a stop
    request in any state. *)
Theorem control_while_running buf count st :
  runcount st <> 0 ->
  store_control_cb buf count st =
    (if String.eqb (substring 0 (Z.to_nat (Z.min 4 count)) buf)
                   (substring 0 (Z.to_nat (Z.min 4 count)) "stop")
     then (set_runcount 0 st, count) else (st, - EINVAL)) /\
  (forall rest, 4 <= count ->
     store_control_cb ("stop" ++ rest) count st = (set_runcount 0 st, count)) /\
  store_control_cb "s" 1 st = (set_runcount 0 st, 1) /\
  (forall st', store_control_cb buf 0 st' = (set_runcount 0 st', 0)).
Proof.
  intros Hrun. split_and!.
  - unfold store_control_cb.
    destruct (String.eqb_spec (substring 0 (Z.to_nat (Z.min 4 count)) buf)
                (substring 0 (Z.to_nat (Z.min 4 count)) "stop")) as [Heq|Hne].
    + apply strncmp_zero in Heq. rewrite Heq. reflexivity.
    + destruct (Z.eqb_spec (strncmp buf "stop" (Z.to_nat (Z.min 4 count))) 0)
        as [Hz|_]; [apply strncmp_zero in Hz; contradiction|].
      destruct (Z.eqb_spec (runcount st) 0); [contradiction|]. cbn [negb].
      destruct (_ =? 0); reflexivity.
  - intros rest Hcount. unfold store_control_cb.
    replace (Z.min 4 count) with 4 by lia.
    replace (strncmp ("stop" ++ rest) "stop" (Z.to_nat 4)) with 0
      by (destruct rest; reflexivity).
    reflexivity.
  - reflexivity.
  - intros st'. unfold store_control_cb. change (Z.to_nat (Z.min 4 0)) with O.
    destruct buf; reflexivity.
Qed.

Lemma control_while_running_witness :
  runcount st_two_samples <> 0 /\
  store_control_cb "infinite" 8 st_two_samples = (st_two_samples, - EINVAL) /\
  store_control_cb "st" 2 st_two_samples = (set_runcount 0 st_two_samples, 2).
Proof.
  assert (H : runcount st_two_samples <> 0) by discriminate.
  split; [exact H|].
  split.
  - exact (proj1 (control_while_running "infinite" 8 st_two_samples H)).
  - exact (proj1 (control_while_running "st" 2 st_two_samples H)).
Defined.

(** ** The statistics of a run are those of its jitter values *)

Lemma measurement_fields a b :
  measurement a = measurement b ->
  period_ms a = period_ms b /\
  hist_bin_num a = hist_bin_num b /\ hist_bin_width a = hist_bin_width b /\
  stat_min a = stat_min b /\ stat_max a = stat_max b /\
  stat_num a = stat_num b /\ stat_sum a = stat_sum b /\
  stat_sumsq a = stat_sumsq b /\ histogram a = histogram b.
Proof.
  intros H.
  split_and!;
    [ exact (f_equal period_ms H) | exact (f_equal hist_bin_num H)
    | exact (f_equal hist_bin_width H) | exact (f_equal stat_min H)
    | exact (f_equal stat_max H) | exact (f_equal stat_num H)
    | exact (f_equal stat_sum H) | exact (f_equal stat_sumsq H)
    | exact (f_equal histogram H) ].
Qed.

Lemma measurement_eq a b :
  period_ms a = period_ms b ->
  hist_bin_num a = hist_bin_num b -> hist_bin_width a = hist_bin_width b ->
  stat_min a = stat_min b -> stat_max a = stat_max b ->
  stat_num a = stat_num b -> stat_sum a = stat_sum b ->
  stat_sumsq a = stat_sumsq b -> histogram a = histogram b ->
  measurement a = measurement b.
Proof.
  destruct a, b. cbn. intros. subst. reflexivity.
Qed.

(** [record_sample] reads and writes the measurement only. *)
Lemma record_sample_measurement diff_ns a b :
  measurement a = measurement b ->
  match record_sample diff_ns a, record_sample diff_ns b with
  | Ok a', Ok b' => measurement a' = measurement b'
  | Fault f, Fault f' => f = f'
  | _, _ => False
  end.
Proof.
  intros H. apply measurement_fields in H.
  destruct H as (Hp & Hn & Hw & Hmin & Hmax & Hnum & Hsum & Hsq & Hh).
  unfold record_sample, hist_bin_of, HIST_BIN_LOW, histogram_incr. cbn.
  rewrite Hn, Hw, Hmin, Hmax, Hnum, Hsum, Hsq, Hh.
  destruct (div_ll _ _) as [q|f]; cbn [obind]; [|reflexivity].
  destruct (_ && _); [|reflexivity].
  destruct (histogram b !! _); [|reflexivity].
  apply measurement_eq; cbn; congruence.
Qed.

Lemma record_samples_measurement jitters : forall a b,
  measurement a = measurement b ->
  match record_samples jitters a, record_samples jitters b with
  | Ok a', Ok b' => measurement a' = measurement b'
  | Fault f, Fault f' => f = f'
  | _, _ => False
  end.
Proof.
  induction jitters as [|d jitters IH]; intros a b H; cbn [record_samples].
  - exact H.
  - pose proof (record_sample_measurement d a b H) as H1.
    destruct (record_sample d a) as [a1|fa], (record_sample d b) as [b1|fb];
      cbn [obind]; try contradiction.
    + apply IH, H1.
    + exact H1.
Qed.

Lemma jitters_of_ext nows : forall a b,
  period_ms a = period_ms b -> last_now_ns a = last_now_ns b ->
  jitters_of a nows = jitters_of b nows.
Proof.
  induction nows as [|now_ns nows IH]; intros a b Hp Hl; cbn [jitters_of].
  - reflexivity.
  - f_equal.
    + unfold jitter_of. rewrite Hp, Hl. reflexivity.
    + apply IH; [exact Hp | reflexivity].
Qed.

Lemma histogram_lines_measurement a b (lines : nat) : forall i,
  measurement a = measurement b ->
  histogram_lines a i lines = histogram_lines b i lines.
Proof.
  intros i H. apply measurement_fields in H.
  destruct H as (_ & Hn & Hw & _ & _ & _ & _ & _ & Hh).
  revert i. induction lines as [|lines IH]; intros i; cbn [histogram_lines].
  - reflexivity.
  - rewrite Hh, IH. unfold HIST_BIN_LOW. rewrite Hn, Hw. reflexivity.
Qed.

(** The report depends on the measurement only. *)
Lemma show_statistics_cb_measurement a b :
  measurement a = measurement b -> show_statistics_cb a = show_statistics_cb b.
Proof.
  intros H. unfold show_statistics_cb.
  rewrite (histogram_lines_measurement a b _ 1 H).
  apply measurement_fields in H.
  destruct H as (_ & Hn & Hw & Hmin & Hmax & Hnum & Hsum & Hsq & Hh).
  unfold HIST_BIN_LOW. rewrite Hn, Hw, Hmin, Hmax, Hnum, Hsum, Hsq, Hh.
  reflexivity.
Qed.

(** An expiry as a step on the measurement: nothing on the first call of
    a run, [record_sample] of the jitter on every other call. *)
Lemma hrtimer_expire_sample now_ns st st' :
  my_hrtimer st = true -> hrtimer_expire now_ns st = Ok st' ->
  if last_now_ns st =? 0 then measurement st' = measurement st
  else exists r, record_sample (jitter_of st now_ns) st = Ok r /\
                 measurement st' = measurement r.
Proof.
  intros Hq. unfold hrtimer_expire. rewrite Hq.
  unfold lattest_timer_function. cbv zeta.
  set (st0 := set_gpio_lattest_value _ (set_gpio _ _ (set_my_hrtimer false st))).
  assert (H0 : measurement st0 = measurement st) by (destruct st; reflexivity).
  change (last_now_ns st0) with (last_now_ns st).
  change (jitter_of st0 now_ns) with (jitter_of st now_ns).
  destruct (last_now_ns st =? 0); cbn [negb obind].
  - change (runcount (set_last_now_ns now_ns st0)) with (runcount st).
    intros Hexp. rewrite <- H0.
    destruct (runcount st >? 0); [|destruct (runcount st =? 0)];
      cbn [obind snd fst] in Hexp; injection Hexp as <-; reflexivity.
  - pose proof (record_sample_measurement (jitter_of st now_ns) st0 st H0) as Hm.
    destruct (record_sample (jitter_of st now_ns) st0) as [s1|f] eqn:Hrec0,
             (record_sample (jitter_of st now_ns) st) as [r|f'];
      cbn [obind]; try contradiction; try discriminate.
    intros Hexp. exists r. split; [reflexivity|]. rewrite <- Hm.
    destruct (runcount (set_last_now_ns now_ns s1) >? 0);
      [|destruct (runcount (set_last_now_ns now_ns s1) =? 0)];
      cbn [obind snd fst] in Hexp; injection Hexp as <-;
      destruct s1; reflexivity.
Qed.

Lemma run_timer_samples (nows : list Z) : forall st,
  (nows <> [] -> my_hrtimer st = true) ->
  runcount st < 0 \/
    (0 <= runcount st < 2 ^ 31 /\ Z.of_nat (length nows) <= runcount st + 1) ->
  hist_config_ok st -> to_u32 (abs (hist_bin_width st)) <> 0 ->
  Forall is_u32 (histogram st) ->
  last_now_ns st <> 0 -> Forall (fun now_ns => now_ns <> 0) nows ->
  exists s r,
    run_timer nows st = Ok (s, length nows) /\
    record_samples (jitters_of st nows) st = Ok r /\
    measurement s = measurement r.
Proof.
  induction nows as [|now_ns nows IH];
    intros st Hq Hrun Hcfg Hw Hh Hlast Hnows.
  - exists st, st. split_and!; reflexivity.
  - specialize (Hq ltac:(discriminate)).
    apply Forall_cons in Hnows as [Hnow Hnows].
    cbn [length] in Hrun. rewrite Nat2Z.inj_succ in Hrun.
    destruct (hrtimer_expire_step now_ns st Hq Hcfg Hw Hh)
      as (st1 & Hexp & Hcfg1 & _ & Hw1 & Hp1 & Hh1 & Hlast1 & Hrun1 & Hq1 & _).
    pose proof (hrtimer_expire_sample now_ns st st1 Hq Hexp) as Hsample.
    destruct (Z.eqb_spec (last_now_ns st) 0) as [|_]; [contradiction|].
    destruct Hsample as (r1 & Hrec1 & Hm1).
    destruct (IH st1) as (s & r' & Hrest & Hrecs & Hm).
    + intros Hne. rewrite Hq1.
      destruct (Z.eqb_spec (runcount st) 0) as [Hz|]; [|reflexivity].
      destruct nows; [contradiction|]. cbn [length] in Hrun. lia.
    + rewrite Hrun1. destruct (Z.gtb_spec (runcount st) 0).
      * right. rewrite to_s32_id by (unfold is_s32; lia). lia.
      * destruct Hrun as [Hneg|Hpos]; [left; exact Hneg|].
        right. assert (Z.of_nat (length nows) = 0) by lia. lia.
    + exact Hcfg1.
    + rewrite Hw1. exact Hw.
    + exact Hh1.
    + rewrite Hlast1. exact Hnow.
    + exact Hnows.
    + pose proof (record_samples_measurement (jitters_of st1 nows) st1 r1 Hm1) as Hrm.
      rewrite Hrecs in Hrm.
      destruct (record_samples (jitters_of st1 nows) r1) as [r|f] eqn:Hr;
        [|contradiction].
      exists s, r. cbn [run_timer jitters_of record_samples length].
      rewrite Hq, Hexp, Hrec1. cbn [obind]. rewrite Hrest. cbn [obind fst snd].
      rewrite (jitters_of_ext nows (set_last_now_ns now_ns st) st1)
        by (cbn; congruence).
      rewrite Hr. split_and!; try reflexivity. congruence.
Qed.

(** The same from the start of a run: the first expiry only takes the
    time. *)
Lemma run_from_start_samples first nows st :
  1 <= hist_bin_num st <= HIST_BIN_MAX ->
  to_u32 (abs (hist_bin_width st)) <> 0 ->
  runcount st < 0 \/
    (0 < runcount st < 2 ^ 31 /\ Z.of_nat (length nows) <= runcount st) ->
  first <> 0 -> Forall (fun now_ns => now_ns <> 0) nows ->
  exists s r,
    run_timer (first :: nows) (start_timer st) = Ok (s, S (length nows)) /\
    record_samples
      (jitters_of (set_last_now_ns first (start_timer st)) nows)
      (start_timer st) = Ok r /\
    measurement s = measurement r.
Proof.
  intros Hbins Hw Hrun Hfirst Hnows.
  destruct (start_timer_reset st Hbins) as (Hcfg & Hw0 & Hh & _ & _).
  assert (Hw' : to_u32 (abs (hist_bin_width (start_timer st))) <> 0)
    by (rewrite Hw0; exact Hw).
  destruct (hrtimer_expire_step first (start_timer st) eq_refl Hcfg Hw' Hh)
    as (s1 & Hexp & Hcfg1 & _ & Hw1 & Hp1 & Hh1 & Hlast1 & Hrun1 & Hq1 & _).
  pose proof (hrtimer_expire_sample first (start_timer st) s1 eq_refl Hexp) as Hm1.
  change (last_now_ns (start_timer st) =? 0) with true in Hm1. cbv iota in Hm1.
  change (runcount (start_timer st)) with (runcount st) in Hrun1, Hq1.
  destruct (run_timer_samples nows s1) as (s & r' & Hrest & Hrecs & Hm).
  - intros _. rewrite Hq1. destruct (Z.eqb_spec (runcount st) 0); [lia | reflexivity].
  - rewrite Hrun1. destruct (Z.gtb_spec (runcount st) 0).
    + right. rewrite to_s32_id by (unfold is_s32; lia). lia.
    + left. lia.
  - exact Hcfg1.
  - rewrite Hw1. exact Hw'.
  - exact Hh1.
  - rewrite Hlast1. exact Hfirst.
  - exact Hnows.
  - pose proof (record_samples_measurement (jitters_of s1 nows) s1 (start_timer st) Hm1)
      as Hrm.
    rewrite Hrecs in Hrm.
    rewrite (jitters_of_ext nows s1 (set_last_now_ns first (start_timer st)) Hp1 Hlast1)
      in Hrm.
    destruct (record_samples _ (start_timer st)) as [r|f] eqn:Hr; [|contradiction].
    exists s, r. split.
    { cbn [run_timer]. change (my_hrtimer (start_timer st)) with true. cbv iota.
      rewrite Hexp. cbn [obind]. rewrite Hrest. reflexivity. }
    split; [reflexivity | congruence].
Qed.

(** X13.  The statistics of a run are those of its jitter values.  For a
    run started through [control] (infinite, or of a count that the
    expiries considered do not exhaust), the state after the expiries at
    [first :: nows] holds exactly what recording the jitter of each
    expiry after the first, in order, gives from the cleared statistics:
    the same minimum, maximum, count, sum, sum of squares and histogram,
    and hence the same report.  The first expiry only takes the time. *)
Theorem run_statistics_are_sample_statistics first nows st :
  1 <= hist_bin_num st <= HIST_BIN_MAX ->
  to_u32 (abs (hist_bin_width st)) <> 0 ->
  runcount st < 0 \/
    (0 < runcount st < 2 ^ 31 /\ Z.of_nat (length nows) <= runcount st) ->
  first <> 0 -> Forall (fun now_ns => now_ns <> 0) nows ->
  exists s r,
    run_timer (first :: nows) (start_timer st) = Ok (s, S (length nows)) /\
    record_samples
      (jitters_of (set_last_now_ns first (start_timer st)) nows)
      (start_timer st) = Ok r /\
    stat_min s = stat_min r /\ stat_max s = stat_max r /\
    stat_num s = stat_num r /\ stat_sum s = stat_sum r /\
    stat_sumsq s = stat_sumsq r /\ histogram s = histogram r /\
    show_statistics_cb s = show_statistics_cb r.
Proof.
  intros Hbins Hw Hrun Hfirst Hnows.
  destruct (run_from_start_samples first nows st Hbins Hw Hrun Hfirst Hnows)
    as (s & r & Hrunt & Hrec & Hsr).
  exists s, r. split; [exact Hrunt|]. split; [exact Hrec|].
  pose proof (show_statistics_cb_measurement s r Hsr) as Hshow.
  apply measurement_fields in Hsr.
  destruct Hsr as (_ & _ & _ & Hmin & Hmax & Hnum & Hsum & Hsq & Hhist).
  split_and!; assumption.
Qed.

Lemma run_statistics_are_sample_statistics_witness :
  1 <= hist_bin_num st_started_infinite <= HIST_BIN_MAX /\
  to_u32 (abs (hist_bin_width st_started_infinite)) <> 0 /\
  (runcount st_started_infinite < 0 \/
   (0 < runcount st_started_infinite < 2 ^ 31 /\
    Z.of_nat (length [5010000000; 5020300000]) <= runcount st_started_infinite)) /\
  5000000000 <> 0 /\
  Forall (fun now_ns => now_ns <> 0) [5010000000; 5020300000] /\
  exists s r,
    run_timer [5000000000; 5010000000; 5020300000] (start_timer st_started_infinite)
      = Ok (s, 3%nat) /\
    record_samples [0; 300000] (start_timer st_started_infinite) = Ok r /\
    stat_sum s = stat_sum r /\ histogram s = histogram r /\
    show_statistics_cb s = show_statistics_cb r.
Proof.
  assert (H1 : 1 <= hist_bin_num st_started_infinite <= HIST_BIN_MAX)
    by (vm_compute; split; discriminate).
  assert (H2 : to_u32 (abs (hist_bin_width st_started_infinite)) <> 0) by discriminate.
  assert (H3 : runcount st_started_infinite < 0 \/
               (0 < runcount st_started_infinite < 2 ^ 31 /\
                Z.of_nat (length [5010000000; 5020300000])
                  <= runcount st_started_infinite))
    by (left; reflexivity).
  assert (H4 : 5000000000 <> 0) by discriminate.
  assert (H5 : Forall (fun now_ns => now_ns <> 0) [5010000000; 5020300000])
    by (repeat constructor; discriminate).
  split; [exact H1|]. split; [exact H2|]. split; [exact H3|].
  split; [exact H4|]. split; [exact H5|].
  destruct (run_statistics_are_sample_statistics 5000000000
              [5010000000; 5020300000] st_started_infinite H1 H2 H3 H4 H5)
    as (s & r & Hr & Hrec & _ & _ & _ & Hsum & _ & Hh & Hshow).
  exists s, r. split_and!; assumption.
Defined.

(** ** A run without jitter *)

Lemma punctual_length period_ns (k : nat) : forall last,
  length (punctual period_ns last k) = k.
Proof. induction k as [|k IH]; intros last; cbn; [|rewrite IH]; reflexivity. Qed.

Lemma punctual_nonzero period_ns (k : nat) : forall last,
  0 < last -> 0 <= period_ns ->
  Forall (fun now_ns => now_ns <> 0) (punctual period_ns last k).
Proof.
  induction k as [|k IH]; intros last Hlast Hp; cbn [punctual]; constructor.
  - lia.
  - apply IH; lia.
Qed.

Lemma jitters_of_punctual (k : nat) : forall st,
  0 <= period_ms st <= 1000 ->
  jitters_of st (punctual (period_ms st * 1000000) (last_now_ns st) k)
    = replicate k 0.
Proof.
  induction k as [|k IH]; intros st Hp; cbn [punctual jitters_of replicate].
  - reflexivity.
  - f_equal.
    + rewrite (jitter_of_eq st _ Hp).
      replace (last_now_ns st + period_ms st * 1000000 - last_now_ns st
               - period_ms st * 1000000) with 0 by lia.
      reflexivity.
    + exact (IH (set_last_now_ns (last_now_ns st + period_ms st * 1000000) st) Hp).
Qed.

Lemma sums_of_zeros (k : nat) :
  sum_of (replicate k 0) = 0 /\ sum_of_squares (replicate k 0) = 0.
Proof.
  induction k as [|k [IH1 IH2]]; [split; reflexivity|].
  change (replicate (S k) 0) with (0 :: replicate k 0).
  rewrite sum_of_cons, sum_of_squares_cons, IH1, IH2. split; reflexivity.
Qed.

Lemma min_max_of_zeros (k : nat) : forall a b,
  0 <= a -> b <= 0 ->
  fold_left Z.min (replicate (S k) 0) a = 0 /\
  fold_left Z.max (replicate (S k) 0) b = 0.
Proof.
  induction k as [|k IH]; intros a b Ha Hb.
  - cbn. lia.
  - change (replicate (S (S k)) 0) with (0 :: replicate (S k) 0).
    cbn [fold_left]. apply IH; lia.
Qed.

Lemma record_samples_config jitters : forall a b,
  record_samples jitters a = Ok b ->
  hist_bin_num b = hist_bin_num a /\ hist_bin_width b = hist_bin_width a.
Proof.
  induction jitters as [|d l IH]; intros a b; cbn [record_samples].
  - intros [= ->]. split; reflexivity.
  - unfold record_sample, histogram_incr. cbv zeta.
    destruct (hist_bin_of _ _) as [i|]; cbn [obind]; [|discriminate].
    destruct (_ && _); [|discriminate].
    destruct (_ !! _); [|discriminate].
    intros Hl. apply IH in Hl. exact Hl.
Qed.

(** X14.  A run without jitter.  With the bins of [lattest_init] (20 bins
    of 1000 ns) and a period of at most 1000 ms, a run whose expiries are
    exactly one period apart records, for [k] expiries after the first,
    [k] samples that are all 0: sum and sum of squares are 0, minimum and
    maximum are 0, every sample is counted in bin 10 (the bin that starts
    at 0 ns), and the report gives mean, variance and standard deviation
    0. *)
Theorem punctual_run_has_no_jitter first (k : nat) st :
  hist_bin_num st = 20 -> hist_bin_width st = 1000 ->
  0 <= period_ms st <= 1000 ->
  runcount st < 0 \/ (0 < runcount st < 2 ^ 31 /\ Z.of_nat k <= runcount st) ->
  0 < first ->
  exists s,
    run_timer (first :: punctual (period_ms st * 1000000) first k) (start_timer st)
      = Ok (s, S k) /\
    stat_num s = to_s64 (Z.of_nat k) /\ stat_sum s = 0 /\ stat_sumsq s = 0 /\
    histogram s
      = <[10%nat := to_u32 (Z.of_nat k)]> (replicate (Z.to_nat HIST_BIN_MAX) 0) /\
    HIST_BIN_LOW s 10 = 0 /\
    (0 < Z.of_nat k < 2 ^ 32 ->
     stat_num s = Z.of_nat k /\ stat_min s = 0 /\ stat_max s = 0 /\
     exists rep,
       show_statistics_cb s = Ok rep /\
       rep_mean rep = 0 /\ rep_var rep = 0 /\ rep_stddev rep = 0).
Proof.
  intros Hn Hw Hp Hrun Hfirst.
  assert (Hbins : 1 <= hist_bin_num st <= HIST_BIN_MAX)
    by (rewrite Hn; unfold HIST_BIN_MAX; lia).
  assert (Hw' : to_u32 (abs (hist_bin_width st)) <> 0) by (rewrite Hw; discriminate).
  set (nows := punctual (period_ms st * 1000000) first k).
  assert (Hlen : length nows = k) by apply punctual_length.
  destruct (run_from_start_samples first nows st Hbins Hw')
    as (s & r & Hrunt & Hrec & Hsr).
  { rewrite Hlen. exact Hrun. }
  { lia. }
  { apply punctual_nonzero; lia. }
  rewrite Hlen in Hrunt.
  assert (Hj : jitters_of (set_last_now_ns first (start_timer st)) nows
               = replicate k 0)
    by exact (jitters_of_punctual k (set_last_now_ns first (start_timer st)) Hp).
  rewrite Hj in Hrec.
  destruct (start_timer_reset st Hbins) as (Hcfg & Hw0 & _ & _ & _).
  destruct (record_samples_zero_jitter k (start_timer st) 0)
    as (r1 & Hrec1 & Hh1 & Hnum1); try assumption; try reflexivity.
  { unfold is_u32. lia. }
  { unfold is_s64. cbn. lia. }
  destruct (record_samples_stats (replicate k 0) (start_timer st) Hcfg)
    as (r2 & Hrec2 & Hcfg2 & _ & Hsum2 & Hsq2);
    [rewrite Hw0; exact Hw' | cbn; unfold is_s64; lia ..|].
  destruct (record_samples_minmax (replicate k 0) (start_timer st) Hcfg)
    as (r3 & Hrec3 & Hmin3 & Hmax3); [rewrite Hw0; exact Hw'|].
  assert (r1 = r) by congruence. assert (r2 = r) by congruence.
  assert (r3 = r) by congruence. subst r1 r2 r3.
  destruct (sums_of_zeros k) as [Hs0 Hq0]. rewrite Hs0 in Hsum2. rewrite Hq0 in Hsq2.
  change (stat_sum (start_timer st)) with 0 in Hsum2.
  change (stat_sumsq (start_timer st)) with 0 in Hsq2.
  change (stat_num (start_timer st)) with 0 in Hnum1.
  change (histogram (start_timer st)) with (replicate (Z.to_nat HIST_BIN_MAX) 0) in Hh1.
  change (stat_min (start_timer st)) with LLONG_MAX in Hmin3.
  change (stat_max (start_timer st)) with LLONG_MIN in Hmax3.
  change (to_s64 (0 + 0)) with 0 in Hsum2, Hsq2. rewrite Z.add_0_l in Hnum1, Hh1.
  pose proof (show_statistics_cb_measurement s r Hsr) as Hshow.
  pose proof (measurement_fields s r Hsr)
    as (_ & Hbn & Hbw & Hmin & Hmax & Hnum & Hsum & Hsq & Hhist).
  exists s. split; [exact Hrunt|].
  split; [congruence|]. split; [congruence|]. split; [congruence|].
  split; [congruence|].
  split.
  { destruct (record_samples_config _ _ _ Hrec) as [Hrn Hrw]. cbn in Hrn, Hrw.
    unfold HIST_BIN_LOW. rewrite Hbn, Hbw, Hrn, Hrw, Hn, Hw. reflexivity. }
  intros Hk.
  assert (Hnumk : stat_num r = Z.of_nat k).
  { rewrite Hnum1. apply to_s64_id. unfold is_s64. lia. }
  destruct k as [|k']; [cbn in Hk; lia|].
  destruct (min_max_of_zeros k' LLONG_MAX LLONG_MIN) as [Hmin0 Hmax0];
    [unfold LLONG_MAX; lia | unfold LLONG_MIN; lia |].
  rewrite Hmin0 in Hmin3. rewrite Hmax0 in Hmax3.
  split; [congruence|]. split; [congruence|]. split; [congruence|].
  destruct (show_statistics_cb_values r Hcfg2) as (rep & Hrep & Hmean & Hvar & _ & Hsd).
  { rewrite Hsum2. unfold is_s64. lia. }
  { rewrite Hnumk. lia. }
  exists rep. split; [rewrite Hshow; exact Hrep|].
  rewrite Hsum2, Hsq2 in *. rewrite Hnumk in *.
  assert (Hv : rep_var rep = 0).
  { rewrite Hvar. change (to_s64 (0 * 0)) with 0.
    rewrite (Z.quot_0_l (Z.of_nat (S k'))) by lia. change (to_s64 (0 - 0)) with 0.
    apply (Z.quot_0_l (Z.of_nat (S k'))). lia. }
  split; [rewrite Hmean; apply (Z.quot_0_l (Z.of_nat (S k'))); lia|].
  split; [exact Hv|]. rewrite Hsd, Hv. reflexivity.
Qed.

Lemma punctual_run_has_no_jitter_witness :
  hist_bin_num st_started_infinite = 20 /\
  hist_bin_width st_started_infinite = 1000 /\
  0 <= period_ms st_started_infinite <= 1000 /\
  (runcount st_started_infinite < 0 \/
   (0 < runcount st_started_infinite < 2 ^ 31 /\
    Z.of_nat 3 <= runcount st_started_infinite)) /\
  0 < 5000000000 /\
  exists s rep,
    run_timer [5000000000; 5010000000; 5020000000; 5030000000]
      (start_timer st_started_infinite) = Ok (s, 4%nat) /\
    stat_num s = 3 /\ stat_min s = 0 /\ stat_max s = 0 /\
    histogram s !! 10%nat = Some 3 /\
    show_statistics_cb s = Ok rep /\ rep_stddev rep = 0.
Proof.
  assert (H1 : hist_bin_num st_started_infinite = 20) by reflexivity.
  assert (H2 : hist_bin_width st_started_infinite = 1000) by reflexivity.
  assert (H3 : 0 <= period_ms st_started_infinite <= 1000)
    by (vm_compute; split; discriminate).
  assert (H4 : runcount st_started_infinite < 0 \/
               (0 < runcount st_started_infinite < 2 ^ 31 /\
                Z.of_nat 3 <= runcount st_started_infinite))
    by (left; reflexivity).
  assert (H5 : 0 < 5000000000) by reflexivity.
  split; [exact H1|]. split; [exact H2|]. split; [exact H3|].
  split; [exact H4|]. split; [exact H5|].
  destruct (punctual_run_has_no_jitter 5000000000 3 st_started_infinite
              H1 H2 H3 H4 H5)
    as (s & Hr & _ & _ & _ & Hh & _ & Hk).
  destruct Hk as (Hnum & Hmin & Hmax & rep & Hshow & _ & _ & Hsd);
    [split; reflexivity|].
  exists s, rep. split; [exact Hr|].
  split; [exact Hnum|]. split; [exact Hmin|]. split; [exact Hmax|].
  split; [rewrite Hh; reflexivity|]. split; [exact Hshow | exact Hsd].
Defined.

(** X20.  The report after 2^32 samples.  [div_ll] hands the sample
    count to [do_div], which reads its low 32 bits only; so once the
    count is a positive multiple of 2^32, reading [statistics] divides
    by zero.  Such a count is reached: a run of that many expiries,
    here one period apart, goes through without any fault, and the
    report that follows is the division by zero. *)
Theorem report_divides_by_zero_at_2_32_samples first (k : nat) st :
  hist_bin_num st = 20 -> hist_bin_width st = 1000 ->
  0 <= period_ms st <= 1000 -> runcount st < 0 -> 0 < first ->
  0 < Z.of_nat k < 2 ^ 63 -> Z.of_nat k mod 2 ^ 32 = 0 ->
  exists s,
    run_timer (first :: punctual (period_ms st * 1000000) first k) (start_timer st)
      = Ok (s, S k) /\
    stat_num s = Z.of_nat k /\
    show_statistics_cb s = Fault DivisionByZero.
Proof.
  intros Hn Hw Hp Hrun Hfirst Hk Hmod.
  assert (Hbins : 1 <= hist_bin_num st <= HIST_BIN_MAX)
    by (rewrite Hn; unfold HIST_BIN_MAX; lia).
  assert (Hw' : to_u32 (abs (hist_bin_width st)) <> 0) by (rewrite Hw; discriminate).
  set (nows := punctual (period_ms st * 1000000) first k).
  assert (Hlen : length nows = k) by apply punctual_length.
  destruct (run_from_start_samples first nows st Hbins Hw')
    as (s & r & Hrunt & Hrec & Hsr).
  { left. exact Hrun. }
  { lia. }
  { apply punctual_nonzero; lia. }
  rewrite Hlen in Hrunt.
  assert (Hj : jitters_of (set_last_now_ns first (start_timer st)) nows
               = replicate k 0)
    by exact (jitters_of_punctual k (set_last_now_ns first (start_timer st)) Hp).
  rewrite Hj in Hrec.
  destruct (start_timer_reset st Hbins) as (Hcfg & Hw0 & _ & _ & _).
  destruct (record_samples_stats (replicate k 0) (start_timer st) Hcfg)
    as (r2 & Hrec2 & _ & Hnum2 & Hsum2 & _);
    [rewrite Hw0; exact Hw' | cbn; unfold is_s64; lia ..|].
  assert (r2 = r) by congruence. subst r2.
  rewrite length_replicate in Hnum2.
  destruct (sums_of_zeros k) as [Hs0 _]. rewrite Hs0 in Hsum2.
  change (stat_sum (start_timer st)) with 0 in Hsum2.
  change (stat_num (start_timer st)) with 0 in Hnum2.
  change (to_s64 (0 + 0)) with 0 in Hsum2.
  rewrite Z.add_0_l, to_s64_id in Hnum2 by (unfold is_s64; lia).
  pose proof (show_statistics_cb_measurement s r Hsr) as Hshow.
  pose proof (measurement_fields s r Hsr) as (_ & _ & _ & _ & _ & Hnum & _).
  exists s. split; [exact Hrunt|]. split; [congruence|].
  rewrite Hshow. unfold show_statistics_cb. rewrite Hnum2, Hsum2.
  destruct (Z.gtb_spec (Z.of_nat k) 0); [|lia].
  unfold div_ll at 1, do_div, abs. cbv zeta.
  destruct (Z.ltb_spec (Z.of_nat k) 0); [lia|].
  unfold to_u32. rewrite Hmod. reflexivity.
Qed.

Lemma report_divides_by_zero_at_2_32_samples_witness :
  hist_bin_num st_started_infinite = 20 /\
  hist_bin_width st_started_infinite = 1000 /\
  0 <= period_ms st_started_infinite <= 1000 /\
  runcount st_started_infinite < 0 /\ 0 < 5000000000 /\
  0 < Z.of_nat (Z.to_nat 4294967296) < 2 ^ 63 /\
  Z.of_nat (Z.to_nat 4294967296) mod 2 ^ 32 = 0 /\
  exists s,
    stat_num s = Z.of_nat (Z.to_nat 4294967296) /\
    show_statistics_cb s = Fault DivisionByZero.
Proof.
  assert (H1 : hist_bin_num st_started_infinite = 20) by reflexivity.
  assert (H2 : hist_bin_width st_started_infinite = 1000) by reflexivity.
  assert (H3 : 0 <= period_ms st_started_infinite <= 1000)
    by (split; discriminate).
  assert (H4 : runcount st_started_infinite < 0) by reflexivity.
  assert (H5 : 0 < 5000000000) by reflexivity.
  assert (H6 : 0 < Z.of_nat (Z.to_nat 4294967296) < 2 ^ 63)
    by (rewrite Z2Nat.id by discriminate; split; reflexivity).
  assert (H7 : Z.of_nat (Z.to_nat 4294967296) mod 2 ^ 32 = 0)
    by (rewrite Z2Nat.id by discriminate; reflexivity).
  split; [exact H1|]. split; [exact H2|]. split; [exact H3|].
  split; [exact H4|]. split; [exact H5|]. split; [exact H6|]. split; [exact H7|].
  destruct (report_divides_by_zero_at_2_32_samples 5000000000
              (Z.to_nat 4294967296) st_started_infinite H1 H2 H3 H4 H5 H6 H7)
    as (s & _ & Hnum & Hshow).
  exists s. split; [exact Hnum | exact Hshow].
Defined.

(** ** The histogram in the report *)








(** ** The pin *)

Lemma record_sample_pin diff_ns a b :
  record_sample diff_ns a = Ok b ->
  gpio_lattest_value b = gpio_lattest_value a /\ gpio_level b = gpio_level a.
Proof.
  unfold record_sample, histogram_incr. cbv zeta.
  destruct (hist_bin_of _ _) as [i|]; cbn [obind]; [|discriminate].
  destruct (_ && _); [|discriminate].
  destruct (_ !! _); [|discriminate].
  intros [= <-]. split; reflexivity.
Qed.

Lemma hrtimer_expire_pin now_ns st st' :
  my_hrtimer st = true -> hrtimer_expire now_ns st = Ok st' ->
  gpio_level st' = (if gpio_lattest_value st =? 0 then 0 else 1) /\
  gpio_lattest_value st' = (if gpio_lattest_value st =? 0 then 1 else 0).
Proof.
  intros Hq. unfold hrtimer_expire. rewrite Hq.
  unfold lattest_timer_function. cbv zeta.
  set (st0 := set_gpio_lattest_value _ (set_gpio _ _ (set_my_hrtimer false st))).
  assert (H0 : gpio_lattest_value st0 = (if gpio_lattest_value st =? 0 then 1 else 0)
               /\ gpio_level st0 = (if gpio_lattest_value st =? 0 then 0 else 1))
    by (split; reflexivity).
  destruct (if negb (last_now_ns st0 =? 0) then _ else _) as [s1|f] eqn:Hs1;
    cbn [obind]; [|discriminate].
  assert (H1 : gpio_lattest_value s1 = gpio_lattest_value st0
               /\ gpio_level s1 = gpio_level st0).
  { destruct (negb (last_now_ns st0 =? 0)).
    - exact (record_sample_pin _ _ _ Hs1).
    - injection Hs1 as <-. split; reflexivity. }
  destruct H0 as [Hv0 Hl0], H1 as [Hv1 Hl1].
  intros Hexp.
  destruct (runcount (set_last_now_ns now_ns s1) >? 0);
    [|destruct (runcount (set_last_now_ns now_ns s1) =? 0)];
    cbn [obind snd fst] in Hexp; injection Hexp as <-; cbn; split; congruence.
Qed.

Lemma run_timer_no_call nows st s :
  run_timer nows st = Ok (s, O) -> s = st.
Proof.
  destruct nows as [|now_ns nows]; cbn [run_timer].
  - intros [= <-]. reflexivity.
  - destruct (my_hrtimer st); [|intros [= <-]; reflexivity].
    destruct (hrtimer_expire now_ns st) as [st1|]; cbn [obind]; [|discriminate].
    destruct (run_timer nows st1) as [[s' c']|]; cbn [obind]; discriminate.
Qed.

(** X16.  Every call of the timer function drives the pin to the
    opposite level: the call writes [gpio_lattest_value] to the pin and
    negates it, and nothing else in a call touches either.  After [c] > 0
    calls the pin is at the level that [gpio_lattest_value] had before
    them if [c] is odd, and at the opposite level if [c] is even; so the
    pin shows a square wave of twice the timer period. *)
Theorem pin_toggles_every_call nows : forall st s (c : nat),
  run_timer nows st = Ok (s, c) -> (0 < c)%nat ->
  let v := if gpio_lattest_value st =? 0 then 0 else 1 in
  gpio_level s = (if Nat.odd c then v else 1 - v) /\
  gpio_lattest_value s = (if Nat.odd c then 1 - v else v).
Proof.
  induction nows as [|now_ns nows IH]; intros st s c; cbn [run_timer].
  - intros [= <- <-] Hc. lia.
  - destruct (my_hrtimer st) eqn:Hq; [|intros [= <- <-] Hc; lia].
    destruct (hrtimer_expire now_ns st) as [st1|] eqn:Hexp; cbn [obind]; [|discriminate].
    destruct (run_timer nows st1) as [[s' c']|] eqn:Hrest; cbn [obind fst snd];
      [|discriminate].
    intros [= <- <-] _.
    destruct (hrtimer_expire_pin now_ns st st1 Hq Hexp) as [Hl1 Hv1].
    destruct c' as [|c''].
    + apply run_timer_no_call in Hrest. subst s'. cbn [Nat.odd Nat.even negb].
      cbv zeta. rewrite Hl1, Hv1.
      destruct (gpio_lattest_value st =? 0); split; reflexivity.
    + destruct (IH st1 s' (S c'') Hrest ltac:(lia)) as [Hl Hv]. cbv zeta in *.
      rewrite Hl, Hv, Hv1. rewrite (Nat.odd_succ (S c'')), <- Nat.negb_odd.
      destruct (gpio_lattest_value st =? 0), (Nat.odd (S c'')); split; reflexivity.
Qed.

Lemma pin_toggles_every_call_witness :
  run_timer gaps_10_0_and_10_3 st_started_infinite = Ok (st_two_samples, 3%nat) /\
  (0 < 3)%nat /\
  gpio_level st_two_samples = 1 /\ gpio_lattest_value st_two_samples = 0.
Proof.
  assert (H1 : run_timer gaps_10_0_and_10_3 st_started_infinite
               = Ok (st_two_samples, 3%nat)) by reflexivity.
  assert (H2 : (0 < 3)%nat) by lia.
  split; [exact H1|]. split; [exact H2|].
  exact (pin_toggles_every_call gaps_10_0_and_10_3 st_started_infinite
           st_two_samples 3 H1 H2).
Defined.

(** ** The revisions before the statistics *)

Lemma earlier_hist_bin_range diff_ns : 0 <= Earlier.hist_bin_of diff_ns <= 19.
Proof.
  unfold Earlier.hist_bin_of, Earlier.HIST_BIN_NUM. cbv zeta.
  set (b := to_s64 _).
  destruct (Z.ltb_spec b 0).
  - destruct (Z.gtb_spec 0 (20 - 1)); lia.
  - destruct (Z.gtb_spec b (20 - 1)); lia.
Qed.

Lemma earlier_hist_bin_spec diff_ns :
  is_s64 diff_ns ->
  (- 10240 <= diff_ns < 10240 ->
   (Earlier.hist_bin_of diff_ns - 10) * 1024 <= diff_ns
     < (Earlier.hist_bin_of diff_ns - 9) * 1024) /\
  (diff_ns < - 10240 -> Earlier.hist_bin_of diff_ns = 0) /\
  (10240 <= diff_ns -> Earlier.hist_bin_of diff_ns = 19).
Proof.
  intros Hd.
  unfold Earlier.hist_bin_of, Earlier.HIST_BIN_NUM, Earlier.HIST_BIN_LSBS. cbv zeta.
  change (Z.shiftr 20 1) with 10.
  rewrite Z.shiftr_div_pow2 by lia. change (2 ^ 10) with 1024.
  unfold is_s64 in Hd.
  pose proof (Z.div_mod diff_ns 1024 ltac:(lia)) as Hdm.
  pose proof (Z.mod_pos_bound diff_ns 1024 ltac:(lia)) as Hmb.
  set (q := diff_ns / 1024) in *. clearbody q.
  rewrite (to_s64_id (q + 10)) by (unfold is_s64; lia).
  split_and!; intros Hr.
  - destruct (Z.ltb_spec (q + 10) 0); [lia|].
    destruct (Z.gtb_spec (q + 10) (20 - 1)); lia.
  - destruct (Z.ltb_spec (q + 10) 0); [reflexivity|]. lia.
  - destruct (Z.ltb_spec (q + 10) 0); [lia|].
    destruct (Z.gtb_spec (q + 10) (20 - 1)); lia.
Qed.

(** X17.  The bins of the shift: in the two revisions of
    [src/lattest/lattest.c] a jitter value always lands in one of the 20
    counters.  From -10240 ns up to 10239 ns it lands in the bin of 1024
    ns that contains it, bin [b] being the values from [(b - 10) * 1024]
    on, which is the bound [lattest_exit] prints for it; everything
    below goes to bin 0 and everything above to bin 19. *)
Theorem shift_bin_encloses_sample diff_ns :
  is_s64 diff_ns ->
  0 <= Earlier.hist_bin_of diff_ns <= 19 /\
  (- 10240 <= diff_ns < 10240 ->
   (Earlier.hist_bin_of diff_ns - 10) * 1024 <= diff_ns
     < (Earlier.hist_bin_of diff_ns - 9) * 1024) /\
  (diff_ns < - 10240 -> Earlier.hist_bin_of diff_ns = 0) /\
  (10240 <= diff_ns -> Earlier.hist_bin_of diff_ns = 19).
Proof.
  intros Hd. split; [apply earlier_hist_bin_range | apply earlier_hist_bin_spec, Hd].
Qed.

Lemma shift_bin_encloses_sample_witness :
  is_s64 (- 25000) /\ Earlier.hist_bin_of (- 25000) = 0 /\
  is_s64 2047 /\ Earlier.hist_bin_of 2047 = 11.
Proof.
  assert (H1 : is_s64 (- 25000)) by (unfold is_s64; lia).
  assert (H2 : is_s64 2047) by (unfold is_s64; lia).
  split; [exact H1|]. split.
  - apply (proj1 (proj2 (proj2 (shift_bin_encloses_sample (- 25000) H1)))). lia.
  - split; [exact H2|].
    pose proof (proj1 (proj2 (shift_bin_encloses_sample 2047 H2))) as H.
    specialize (H ltac:(lia)).
    pose proof (proj1 (shift_bin_encloses_sample 2047 H2)) as Hb. lia.
Defined.

(** X18.  The revision between the first and the last one measures
    nothing.  Its timer function stores the time of the expiry in
    [last_now_ns] before it takes the difference, so whatever the times
    of this expiry and of the one before, the value recorded is minus
    the period: every call, the first of a run included, counts in bin 0
    (in bin 10 if the period is 0), and minimum and maximum can only
    become minus the period.  The call itself never goes wrong. *)
Theorem earlier_revision_records_minus_period now_ns st :
  length (Earlier.histogram st) = 20%nat ->
  0 <= Earlier.period_ms st <= 1000 -> now_ns <> 0 ->
  let jitter := - (Earlier.period_ms st * 1000000) in
  let bin := if Earlier.period_ms st =? 0 then 10%nat else 0%nat in
  exists st' ret c,
    Earlier.lattest_timer_function now_ns st = Ok (st', ret) /\
    Earlier.histogram st !! bin = Some c /\
    Earlier.histogram st' = <[bin := to_u32 (c + 1)]> (Earlier.histogram st) /\
    Earlier.hist_min st' = Z.min (Earlier.hist_min st) jitter /\
    Earlier.hist_max st' = Z.max (Earlier.hist_max st) jitter /\
    Earlier.last_now_ns st' = now_ns.
Proof.
  intros Hlen Hp Hnow. cbv zeta.
  destruct (earlier_jitter_is_minus_period (Earlier.period_ms st)
              (Earlier.last_now_ns st) now_ns Hp) as [Hj _].
  assert (Hbin : Z.to_nat (Earlier.hist_bin_of (- (Earlier.period_ms st * 1000000)))
                 = if Earlier.period_ms st =? 0 then 10%nat else 0%nat).
  { destruct (Z.eqb_spec (Earlier.period_ms st) 0) as [->|Hne]; [reflexivity|].
    assert (is_s64 (- (Earlier.period_ms st * 1000000))) as Hs
      by (unfold is_s64; lia).
    rewrite (proj1 (proj2 (earlier_hist_bin_spec _ Hs))); [reflexivity | lia]. }
  set (bin := if Earlier.period_ms st =? 0 then 10%nat else 0%nat) in *.
  destruct (lookup_lt_is_Some_2 (Earlier.histogram st) bin) as [c Hc].
  { rewrite Hlen. subst bin. destruct (_ =? 0); lia. }
  unfold Earlier.lattest_timer_function. cbv zeta.
  rewrite Hj, Hbin, Hc.
  destruct (Z.eqb_spec now_ns 0) as [|_]; [contradiction|]. cbn [negb obind].
  set (jitter := - (Earlier.period_ms st * 1000000)).
  assert (Hmin : (if jitter <? Earlier.hist_min st then jitter else Earlier.hist_min st)
                 = Z.min (Earlier.hist_min st) jitter)
    by (destruct (Z.ltb_spec jitter (Earlier.hist_min st)); lia).
  assert (Hmax : (if jitter >? Earlier.hist_max st then jitter else Earlier.hist_max st)
                 = Z.max (Earlier.hist_max st) jitter)
    by (destruct (Z.gtb_spec jitter (Earlier.hist_max st)); lia).
  rewrite Hmin, Hmax.
  destruct (Earlier.runcount st >? 0); [|destruct (Earlier.runcount st =? 0)];
    (eexists _, _, c; split; [reflexivity|]; cbn; split_and!; reflexivity || exact Hc).
Qed.

Lemma earlier_revision_records_minus_period_witness :
  length (Earlier.histogram st_earlier_running) = 20%nat /\
  0 <= Earlier.period_ms st_earlier_running <= 1000 /\
  5010300000 <> 0 /\
  exists st' ret,
    Earlier.lattest_timer_function 5010300000 st_earlier_running = Ok (st', ret) /\
    Earlier.histogram st' = <[0%nat := 1]> (replicate 20 0) /\
    Earlier.hist_min st' = - 10000000 /\ Earlier.hist_max st' = - 10000000.
Proof.
  assert (H1 : length (Earlier.histogram st_earlier_running) = 20%nat) by reflexivity.
  assert (H2 : 0 <= Earlier.period_ms st_earlier_running <= 1000)
    by (vm_compute; split; discriminate).
  assert (H3 : 5010300000 <> 0) by discriminate.
  split; [exact H1|]. split; [exact H2|]. split; [exact H3|].
  destruct (earlier_revision_records_minus_period 5010300000 st_earlier_running
              H1 H2 H3)
    as (st' & ret & c & Hrun & Hc & Hh & Hmin & Hmax & _).
  exists st', ret. split; [exact Hrun|].
  injection Hc as <-.
  split; [exact Hh|]. split; [exact Hmin | exact Hmax].
Defined.

Lemma first_hrtimer_expire_step kt_now_ns st :
  First.my_hrtimer st = true -> 0 <= First.runcount st < 2000 ->
  length (First.histogram st) = 20%nat ->
  Forall is_u32 (First.histogram st) ->
  hist_total (First.histogram st) < 2 ^ 32 - 1 ->
  exists st',
    First.hrtimer_expire kt_now_ns st = Ok st' /\
    First.runcount st' = First.runcount st + 1 /\
    First.my_hrtimer st' = (First.runcount st + 1 <? 2000) /\
    length (First.histogram st') = 20%nat /\
    Forall is_u32 (First.histogram st') /\
    hist_total (First.histogram st')
      = hist_total (First.histogram st) + (if First.runcount st =? 0 then 0 else 1).
Proof.
  intros Hq Hrun Hlen Hh Htot.
  unfold First.hrtimer_expire. rewrite Hq.
  unfold First.lattest_timer_function. cbv zeta. cbn [First.runcount First.histogram
    First.last_kt_now First.period_ns First.period_ms First.hist_min First.hist_max
    First.my_hrtimer].
  rewrite (to_s32_id (First.runcount st + 1)) by (unfold is_s32; lia).
  unfold First.MAXRUNS.
  destruct (Z.gtb_spec (First.runcount st + 1) 1) as [Hgt|Hle].
  - set (d := to_s64 (to_s64 (kt_now_ns - First.last_kt_now st) - First.period_ns st)).
    pose proof (earlier_hist_bin_range d) as Hb.
    destruct (lookup_lt_is_Some_2 (First.histogram st) (Z.to_nat (Earlier.hist_bin_of d)))
      as [c Hc]; [lia|].
    rewrite Hc. cbn [obind].
    assert (Hins : hist_total (<[Z.to_nat (Earlier.hist_bin_of d) := to_u32 (c + 1)]>
                                 (First.histogram st))
                   = hist_total (First.histogram st) + 1).
    { rewrite (hist_total_insert _ _ c _ Hc).
      pose proof (hist_total_lookup_le _ _ _ Hh Hc).
      rewrite to_u32_id by (unfold is_u32; lia). lia. }
    destruct (Z.eqb_spec (First.runcount st) 0); [lia|].
    destruct (Z.ltb_spec (First.runcount st + 1) 2000);
      cbn [obind snd fst]; (eexists; split; [reflexivity|]); cbn;
      (split_and!; [reflexivity | reflexivity | rewrite length_insert; exact Hlen
                   | apply Forall_u32_insert; exact Hh | exact Hins]).
  - cbn [obind].
    destruct (Z.eqb_spec (First.runcount st) 0); [|lia].
    destruct (Z.ltb_spec (First.runcount st + 1) 2000); [|lia].
    cbn [obind snd fst]. eexists. split; [reflexivity|]. cbn.
    split_and!; [reflexivity | reflexivity | exact Hlen | exact Hh | lia].
Qed.

Lemma first_run_timer (nows : list Z) : forall st,
  0 <= First.runcount st <= 2000 ->
  First.my_hrtimer st = (First.runcount st <? 2000) ->
  length (First.histogram st) = 20%nat ->
  Forall is_u32 (First.histogram st) ->
  hist_total (First.histogram st) = Z.max 0 (First.runcount st - 1) ->
  exists s,
    First.run_timer nows st
      = Ok (s, Nat.min (length nows) (Z.to_nat (2000 - First.runcount st))) /\
    First.runcount s
      = First.runcount st
        + Z.of_nat (Nat.min (length nows) (Z.to_nat (2000 - First.runcount st))) /\
    First.my_hrtimer s = (First.runcount s <? 2000) /\
    length (First.histogram s) = 20%nat /\
    hist_total (First.histogram s) = Z.max 0 (First.runcount s - 1).
Proof.
  induction nows as [|kt_now_ns nows IH]; intros st Hrun Hq Hlen Hh Htot.
  - exists st. cbn [First.run_timer length Nat.min]. rewrite Z.add_0_r.
    split_and!; first [reflexivity | assumption].
  - cbn [length].
    destruct (Z.ltb_spec (First.runcount st) 2000) as [Hlt|Hge].
    + destruct (first_hrtimer_expire_step kt_now_ns st)
        as (st1 & Hexp & Hrun1 & Hq1 & Hlen1 & Hh1 & Htot1); try assumption; try lia.
      destruct (IH st1) as (s & Hrest & Hruns & Hqs & Hlens & Htots).
      * lia.
      * rewrite Hq1, Hrun1. reflexivity.
      * exact Hlen1.
      * exact Hh1.
      * rewrite Htot1, Htot, Hrun1.
        destruct (Z.eqb_spec (First.runcount st) 0); lia.
      * exists s. cbn [First.run_timer]. rewrite Hq, Hexp. cbn [obind].
        rewrite Hrest. cbn [obind fst snd].
        rewrite Hrun1 in Hruns. rewrite Hrun1.
        replace (Z.to_nat (2000 - First.runcount st))
          with (S (Z.to_nat (2000 - (First.runcount st + 1)))) by lia.
        cbn [Nat.min].
        split_and!; try assumption.
        -- reflexivity.
        -- rewrite Hruns. lia.
    + exists st. replace (Z.to_nat (2000 - First.runcount st)) with O by lia.
      rewrite Nat.min_0_r, Z.add_0_r. cbn [First.run_timer]. rewrite Hq.
      split_and!; try reflexivity; try assumption.
      destruct (Z.ltb_spec (First.runcount st) 2000); [lia | reflexivity].
Qed.

(** X19.  The first revision runs [MAXRUNS] times.  After [lattest_init]
    (for any tick rate) the timer function is called at every expiry
    until it has been called 2000 times, and then no more; no call goes
    wrong or leaves the 20 counters.  The first call only takes the
    time, so after [c] calls [c - 1] samples are counted: 1999 for a
    complete run. *)
Theorem first_revision_runs_2000_times HZ nows :
  exists s,
    First.run_timer nows (First.lattest_init HZ)
      = Ok (s, Nat.min (length nows) 2000) /\
    First.runcount s = Z.of_nat (Nat.min (length nows) 2000) /\
    First.my_hrtimer s = (First.runcount s <? 2000) /\
    length (First.histogram s) = 20%nat /\
    hist_total (First.histogram s) = Z.max 0 (First.runcount s - 1) /\
    ((2000 <= length nows)%nat ->
     First.my_hrtimer s = false /\ hist_total (First.histogram s) = 1999).
Proof.
  destruct (first_run_timer nows (First.lattest_init HZ))
    as (s & Hrun & Hcount & Hq & Hlen & Htot).
  - cbn. lia.
  - reflexivity.
  - reflexivity.
  - apply Forall_u32_replicate.
  - reflexivity.
  - change (First.runcount (First.lattest_init HZ)) with 0 in Hrun, Hcount.
    change (Z.to_nat (2000 - 0)) with 2000%nat in Hrun, Hcount.
    rewrite Z.add_0_l in Hcount.
    exists s. split_and!; try assumption.
    intros Hlong. rewrite Hq, Htot, Hcount.
    rewrite Nat.min_r by exact Hlong. split; reflexivity.
Qed.
